(** * Bulk air-sea CO2 flux: [pyseaflux.flux_calculations.flux_bulk]

    A shallow embedding of [flux_bulk] and of the part of the numpy / xarray
    object model that the function exercises, followed by the properties of
    the function.

    Numbers.  The function is duck typed: it only uses [+ - * /], decimal
    and integer literals, and (through xarray's default [skipna]) a NaN test.
    The embedding is therefore written once over the interface [Number] and
    read at two instances: IEEE-754 binary64 (what CPython and numpy
    execute) and the reals (exact arithmetic).  A property is stated over
    the interface or in binary64 unless it says "in exact arithmetic";
    the sign of the flux in binary64 rests on the monotonicity of rounding
    to nearest, which is proved here from [SpecFloat].

    Arrays.  A Python float, a [numpy.ndarray] and an [xarray.DataArray] are
    one record: named dimensions with their sizes, the element at a
    coordinate and the attribute dictionary.  The axes of a numpy array are
    named by their position counted from the last axis, which is how numpy
    lines shapes up when it broadcasts; the dimensions of a DataArray carry
    their xarray names.  Index coordinates are not modelled: labelled
    operands are taken to carry identical indexes, or none, so that
    alignment is the identity and sizes that differ along a shared name
    are an error; the inner join xarray makes of indexes that differ is
    outside the embedding.  A numpy array that meets a DataArray is bound
    to the DataArray's dimensions by position; the element-wise properties
    name the element of each operand that such a binding lines up with a
    coordinate of the result ([elem_kw], [elem_K0], [elem_sea],
    [elem_air]), and reduce to the element at the coordinate itself where
    no binding takes place ([unmixed]).

    Collaborators.  [solubility.solubility_weiss1974] and
    [area.get_area_from_dataset] are parameters of the embedding: functions
    from arrays to an array or an exception.

    Objects.  [flux_bulk] is written twice: as a function on values
    ([flux_bulk]), and statement by statement over a store of objects
    ([Store.flux_bulk_obj]), where allocation and the one write of the
    function are explicit; the second is shown to run as the first. *)

From Stdlib Require Import List String Bool Arith ZArith QArith Lia.
From Stdlib Require Import Reals Lra FunctionalExtensionality.
From Stdlib Require Import Uint63 Floats.
Import ListNotations.

Set Implicit Arguments.
Set Warnings "-inexact-float".
Close Scope Q_scope.
Open Scope nat_scope.

(* ================================================================== *)
(** * Exceptions and the error monad *)

(** The exceptions that can leave [flux_bulk]: a broadcasting or alignment
    failure, a failed reduction over a dimension the array does not have, a
    rejected [Dataset.__setitem__], and whatever a collaborator raises. *)
Inductive exn : Type :=
| BroadcastError
| MissingDimension (name : string)
| SetItemError (key : string)
| Raised (msg : string).

Inductive result (A : Type) : Type :=
| Ok (a : A)
| Err (e : exn).
Arguments Ok {A} a.
Arguments Err {A} e.

Definition bind {A B : Type} (m : result A) (k : A -> result B) : result B :=
  match m with
  | Ok a => k a
  | Err e => Err e
  end.

Declare Scope result_scope.
Delimit Scope result_scope with result.
Notation "x <- m ;; k" := (bind m (fun x => k))
  (at level 61, m at next level, right associativity) : result_scope.
Open Scope result_scope.

Definition is_ok {A : Type} (m : result A) : bool :=
  match m with Ok _ => true | Err _ => false end.

(* ================================================================== *)
(** * The numeric interface *)

(** What [flux_bulk] asks of its numbers.  [of_int] is the coercion of an
    [int] operand, [lit] the value of a decimal literal, [isnan] the test
    behind xarray's NaN-skipping reductions. *)
Class Number (F : Type) : Type := {
  fadd : F -> F -> F;
  fsub : F -> F -> F;
  fmul : F -> F -> F;
  fdiv : F -> F -> F;
  of_int : Z -> F;
  lit : Q -> F;
  isnan : F -> bool
}.

(** Exact arithmetic. *)
#[export] Instance Number_R : Number R := {|
  fadd := Rplus;
  fsub := Rminus;
  fmul := Rmult;
  fdiv := Rdiv;
  of_int := IZR;
  lit := Q2R;
  isnan := fun _ => false
|}.

(** IEEE-754 binary64.  An [int] below 2^53 in magnitude converts exactly;
    a decimal literal [n / 10^k] whose numerator and denominator are such
    integers is their correctly rounded quotient, which is the double
    nearest to the literal. *)
Definition float_of_Z (z : Z) : float :=
  match z with
  | Z0 => PrimFloat.of_uint63 0%uint63
  | Zpos _ => PrimFloat.of_uint63 (Uint63.of_Z z)
  | Zneg p => PrimFloat.opp (PrimFloat.of_uint63 (Uint63.of_Z (Zpos p)))
  end.

Definition float_of_Q (q : Q) : float :=
  PrimFloat.div (float_of_Z (Qnum q)) (float_of_Z (Zpos (Qden q))).

#[export] Instance Number_float : Number float := {|
  fadd := PrimFloat.add;
  fsub := PrimFloat.sub;
  fmul := PrimFloat.mul;
  fdiv := PrimFloat.div;
  of_int := float_of_Z;
  lit := float_of_Q;
  isnan := PrimFloat.is_nan
|}.

(* ================================================================== *)
(** * Arrays *)

(** A dimension is a numpy axis, named by its distance from the last axis,
    or an xarray dimension name. *)
Inductive dim : Type :=
| Axis (k : nat)
| Name (s : string).

Definition dim_eqb (d e : dim) : bool :=
  match d, e with
  | Axis j, Axis k => Nat.eqb j k
  | Name s, Name t => String.eqb s t
  | _, _ => false
  end.

Definition coord : Type := dim -> nat.

Definition upd (c : coord) (d : dim) (i : nat) : coord :=
  fun e => if dim_eqb e d then i else c e.

Definition dims_t : Type := list (dim * nat).

Fixpoint size_in (ds : dims_t) (d : dim) : option nat :=
  match ds with
  | [] => None
  | (e, n) :: ds' => if dim_eqb d e then Some n else size_in ds' d
  end.

Definition has_dim (ds : dims_t) (d : dim) : bool :=
  match size_in ds d with Some _ => true | None => false end.

Section Arrays.

Context {F : Type} `{NumF : Number F}.

Record array : Type := mkArray {
  is_dataarray : bool;                 (* isinstance(x, xr.DataArray) *)
  dims : dims_t;
  item : coord -> F;
  attrs : list (string * string)
}.

(** A Python float. *)
Definition scalar (x : F) : array :=
  {| is_dataarray := false; dims := []; item := fun _ => x; attrs := [] |}.

(** The coordinate an operand is read at when the result is read at [c]:
    a dimension of size one, or one the operand does not have, is read at
    index 0 whatever the result's index is. *)
Definition clamp (ds : dims_t) (c : coord) : coord :=
  fun d => match size_in ds d with
           | Some n => if Nat.eqb n 1 then 0 else c d
           | None => 0
           end.

Definition view (a : array) (c : coord) : F := item a (clamp (dims a) c).

(** ** Broadcasting *)

(** Sizes of one dimension in the two operands.  numpy stretches a size of
    one.  Two DataArrays are taken to carry identical indexes, or none,
    along a shared name, and then xarray requires equal sizes; the inner
    join xarray makes of indexes that differ is not modelled. *)
Definition merge_size (sa sb : bool) (n m : nat) : option nat :=
  if Nat.eqb n m then Some n
  else if sa && Nat.eqb n 1 then Some m
  else if sb && Nat.eqb m 1 then Some n
  else None.

Fixpoint merge_into (sa sb : bool) (da db : dims_t) : option dims_t :=
  match da with
  | [] => Some []
  | (d, n) :: da' =>
      match merge_into sa sb da' db with
      | None => None
      | Some rest =>
          match size_in db d with
          | None => Some ((d, n) :: rest)
          | Some m =>
              match merge_size sa sb n m with
              | Some k => Some ((d, k) :: rest)
              | None => None
              end
          end
      end
  end.

(** The dimensions of the result: those of the left operand in its order,
    then those only the right operand has. *)
Definition broadcast_dims (sa sb : bool) (da db : dims_t) : result dims_t :=
  match merge_into sa sb da db with
  | Some base =>
      Ok (base ++ filter (fun p => negb (has_dim da (fst p))) db)
  | None => Err BroadcastError
  end.

(** A numpy operand that meets a DataArray is broadcast against the
    DataArray's data positionally: its axis [k] is the DataArray's [k]-th
    dimension from the right.  More axes than the DataArray has dimensions
    is an error. *)
Fixpoint bind_dims (names : list dim) (ds : dims_t) : option dims_t :=
  match ds with
  | [] => Some []
  | (Axis k, n) :: ds' =>
      match nth_error names k, bind_dims names ds' with
      | Some nm, Some rest => Some ((nm, n) :: rest)
      | _, _ => None
      end
  | (Name s, n) :: ds' =>
      match bind_dims names ds' with
      | Some rest => Some ((Name s, n) :: rest)
      | None => None
      end
  end.

Definition rebind (names : list dim) (c : coord) : coord :=
  fun d => match d with
           | Axis k => match nth_error names k with
                       | Some nm => c nm
                       | None => 0
                       end
           | Name _ => c d
           end.

Definition needs_binding (ref x : array) : bool :=
  is_dataarray ref && negb (is_dataarray x)
  && match dims x with [] => false | _ => true end.

Definition bind_axes (ref x : array) : result array :=
  if needs_binding ref x then
    let names := rev (map fst (dims ref)) in
    match bind_dims names (dims x) with
    | Some ds =>
        Ok {| is_dataarray := false; dims := ds;
              item := fun c => view x (rebind names c);
              attrs := attrs x |}
    | None => Err BroadcastError
    end
  else Ok x.

(** An element-wise binary operator.  Arithmetic drops the attributes. *)
Definition binop (f : F -> F -> F) (a b : array) : result array :=
  a' <- bind_axes b a ;;
  b' <- bind_axes a b ;;
  ds <- broadcast_dims (negb (is_dataarray a)) (negb (is_dataarray b))
                       (dims a') (dims b') ;;
  Ok {| is_dataarray := is_dataarray a || is_dataarray b;
        dims := ds;
        item := fun c => f (view a' c) (view b' c);
        attrs := [] |}.

Definition add : array -> array -> result array := binop fadd.
Definition sub : array -> array -> result array := binop fsub.
Definition mul : array -> array -> result array := binop fmul.
Definition div : array -> array -> result array := binop fdiv.

(** ** Attributes *)

Fixpoint dict_get {V : Type} (k : string) (d : list (string * V)) : option V :=
  match d with
  | [] => None
  | (k', v) :: d' => if String.eqb k k' then Some v else dict_get k d'
  end.

Fixpoint dict_set {V : Type} (k : string) (v : V) (d : list (string * V))
  : list (string * V) :=
  match d with
  | [] => [(k, v)]
  | (k', v') :: d' =>
      if String.eqb k k' then (k, v) :: d' else (k', v') :: dict_set k v d'
  end.

Definition dict_update {V : Type} (d kvs : list (string * V))
  : list (string * V) :=
  fold_left (fun acc kv => dict_set (fst kv) (snd kv) acc) kvs d.

(** [DataArray.assign_attrs]: a new object that shares the data. *)
Definition assign_attrs (a : array) (kvs : list (string * string)) : array :=
  {| is_dataarray := is_dataarray a; dims := dims a; item := item a;
     attrs := dict_update (attrs a) kvs |}.

(** ** Reduction *)

(** The coordinates reached from [c] when the dimensions [ds] run through
    their sizes, the first dimension outermost. *)
Fixpoint coords_over (ds : dims_t) (c : coord) : list coord :=
  match ds with
  | [] => [c]
  | (d, n) :: ds' => flat_map (fun i => coords_over ds' (upd c d i)) (seq 0 n)
  end.

(** The default [skipna] of a float reduction leaves the NaNs out. *)
Definition nansum (xs : list F) : F :=
  fold_left (fun acc x => if isnan x then acc else fadd acc x) xs (of_int 0).

Fixpoint reduced_dims (names : list string) (ds : dims_t) : result dims_t :=
  match names with
  | [] => Ok []
  | nm :: names' =>
      match size_in ds (Name nm) with
      | None => Err (MissingDimension nm)
      | Some n =>
          rest <- reduced_dims names' ds ;;
          Ok ((Name nm, n) :: rest)
      end
  end.

Definition kept_dims (names : list string) (ds : dims_t) : dims_t :=
  filter (fun p => negb (existsb (dim_eqb (fst p)) (map Name names))) ds.

(** [DataArray.sum(names)]: every name must be a dimension of the array. *)
Definition sum (a : array) (names : list string) : result array :=
  over <- reduced_dims names (dims a) ;;
  Ok {| is_dataarray := is_dataarray a;
        dims := kept_dims names (dims a);
        item := fun c => nansum (map (view a) (coords_over over c));
        attrs := [] |}.

(** ** Datasets *)

Definition Dataset : Type := list (string * array).

Definition Dataset_new : Dataset := [].

Definition dataset_dims (ds : Dataset) : dims_t :=
  flat_map (fun kv => dims (snd kv)) ds.

Definition conflicting (known new : dims_t) : bool :=
  existsb (fun p => match size_in known (fst p) with
                    | Some n => negb (Nat.eqb n (snd p))
                    | None => false
                    end) new.

(** [ds[key] = v]: [v] must be a DataArray or a scalar, and its dimensions
    must agree in size with those of the other variables. *)
Definition setitem (ds : Dataset) (key : string) (v : array) : result Dataset :=
  let others := filter (fun kv => negb (String.eqb (fst kv) key)) ds in
  if negb (is_dataarray v) && match dims v with [] => false | _ => true end
  then Err (SetItemError key)
  else if conflicting (dataset_dims others) (dims v)
  then Err (SetItemError key)
  else Ok (dict_set key v ds).

End Arrays.

Arguments array F : clear implicits.
Arguments Dataset F : clear implicits.

(* ================================================================== *)
(** * [flux_bulk] *)

(** The two shapes of the value [flux_bulk] returns. *)
Inductive FluxResult (F : Type) : Type :=
| Plain (flux : array F)
| Composite (ds : Dataset F).
Arguments Plain {F} flux.
Arguments Composite {F} ds.

Section FluxBulk.

Context {F : Type} `{NumF : Number F}.

(** The collaborators: [solubility.solubility_weiss1974] and
    [area.get_area_from_dataset]. *)
Variable solubility_weiss1974 :
  array F -> array F -> array F -> result (array F).
Variable get_area_from_dataset : array F -> result (array F).

(** Lines 55-75: the flux field. *)
Definition CO2flux_bulk
  (temp_C salt pCO2_sea_uatm pCO2_air_uatm pres_hPa kw_cmhr : array F)
  : result (array F) :=
  pres_atm <- div pres_hPa (scalar (lit 1013.25%Q)) ;;
  temp_K <- add temp_C (scalar (lit 273.15%Q)) ;;
  pCO2sea <- mul pCO2_sea_uatm (scalar (lit 1e-6%Q)) ;;
  pCO2air <- mul pCO2_air_uatm (scalar (lit 1e-6%Q)) ;;
  K0 <- solubility_weiss1974 salt temp_K pres_atm ;;
  kw <- mul kw_cmhr (scalar (fdiv (of_int 24) (of_int 100))) ;;
  let mC := scalar (fmul (lit 12.0108%Q) (of_int 1000)) in
  t1 <- mul kw K0 ;;
  dp <- sub pCO2sea pCO2air ;;
  t2 <- mul t1 dp ;;
  mul t2 mC.

Definition fgco2_attrs : list (string * string) :=
  [("units", "gC/m2/day");
   ("description",
    "Air sea CO2 fluxes calculated using the bulk formulation.")]%string.

Definition fgco2_global_attrs : list (string * string) :=
  [("units", "gC/Yr");
   ("description", "integrated fluxes fgco2 * area")]%string.

(** Lines 77-89: the shape of the result. *)
Definition assemble (CO2flux_bulk : array F) : result (FluxResult F) :=
  if is_dataarray CO2flux_bulk then
    area <- get_area_from_dataset CO2flux_bulk ;;
    let ds := Dataset_new in
    ds <- setitem ds "fgco2" (assign_attrs CO2flux_bulk fgco2_attrs) ;;
    ds <- setitem ds "area" area ;;
    p <- mul CO2flux_bulk area ;;
    p <- mul p (scalar (of_int 365)) ;;
    s <- sum p ["lat"; "lon"]%string ;;
    ds <- setitem ds "fgco2_global" (assign_attrs s fgco2_global_attrs) ;;
    Ok (Composite ds)
  else
    Ok (Plain CO2flux_bulk).

Definition flux_bulk
  (temp_C salt pCO2_sea_uatm pCO2_air_uatm pres_hPa kw_cmhr : array F)
  : result (FluxResult F) :=
  flux <- CO2flux_bulk temp_C salt pCO2_sea_uatm pCO2_air_uatm pres_hPa
                       kw_cmhr ;;
  assemble flux.

End FluxBulk.

(* ================================================================== *)
(** * The vocabulary of the properties *)

Section Vocabulary.

Context {F : Type} `{NumF : Number F}.

(** Lines 58-75 at one element: the arithmetic [CO2flux_bulk] performs on
    the elements that broadcasting puts together. *)
Definition flux_elem (kw_cmhr K0 pCO2_sea_uatm pCO2_air_uatm : F) : F :=
  fmul
    (fmul
       (fmul (fmul kw_cmhr (fdiv (of_int 24) (of_int 100))) K0)
       (fsub (fmul pCO2_sea_uatm (lit 1e-6%Q))
             (fmul pCO2_air_uatm (lit 1e-6%Q))))
    (fmul (lit 12.0108%Q) (of_int 1000)).

(** The flux field of a result: the result itself, or its [fgco2]. *)
Definition flux_field (r : FluxResult F) : option (array F) :=
  match r with
  | Plain flux => Some flux
  | Composite ds => dict_get "fgco2" ds
  end.

(** The formula in the words of the specification. *)
Definition spec_flux (kw_cmhr K0 pCO2_sea_uatm pCO2_air_uatm : F) : F :=
  let kw_m_per_day := fmul kw_cmhr (fdiv (of_int 24) (of_int 100)) in
  let pCO2_sea_atm := fmul pCO2_sea_uatm (lit 1e-6%Q) in
  let pCO2_air_atm := fmul pCO2_air_uatm (lit 1e-6%Q) in
  let molarMass_g_per_mmol := fmul (lit 12.0108%Q) (of_int 1000) in
  fmul (fmul (fmul kw_m_per_day K0) (fsub pCO2_sea_atm pCO2_air_atm))
       molarMass_g_per_mmol.

(** Spatial labels: the two dimension names the code knows. *)
Definition carries_spatial_labels (a : array F) : bool :=
  has_dim (dims a) (Name "lat") && has_dim (dims a) (Name "lon").

(** The two worlds in which no positional binding takes place: all
    operands are plain (floats and numpy arrays), or every operand is a
    DataArray or a scalar. *)
Definition plain (a : array F) : bool := negb (is_dataarray a).

Definition labelled (a : array F) : bool :=
  is_dataarray a || match dims a with [] => true | _ => false end.

Definition unmixed (l : list (array F)) : bool :=
  forallb plain l || forallb labelled l.

(** A world: a class of arrays closed under the operators in which
    operands are never bound positionally. *)
Record world (W : array F -> bool) : Prop := {
  world_scalar : forall x, W (scalar x) = true;
  world_unbound : forall a b, W a = true -> W b = true ->
                              needs_binding a b = false;
  world_closed : forall f a b r, W a = true -> W b = true ->
                                 binop f a b = Ok r -> W r = true
}.

(** A provider answer that matches the grid of the flux: a DataArray over
    ('lat', 'lon') with the sizes the flux has along them. *)
Definition area_matches (flux area : array F) : Prop :=
  is_dataarray area = true /\
  exists n m,
    dims area = [(Name "lat", n); (Name "lon", m)] /\
    size_in (dims flux) (Name "lat") = Some n /\
    size_in (dims flux) (Name "lon") = Some m.



(** ** Any mix of floats, numpy arrays and DataArrays *)

(** A well-formed array: its dimensions are distinct, positional axes for
    a float or a numpy array, names for a DataArray. *)
Fixpoint distinct (l : list dim) : bool :=
  match l with
  | [] => true
  | d :: l' => negb (existsb (dim_eqb d) l') && distinct l'
  end.

Definition is_axis (d : dim) : bool :=
  match d with Axis _ => true | Name _ => false end.

Definition well_formed (a : array F) : bool :=
  distinct (map fst (dims a)) &&
  forallb (fun p => Bool.eqb (is_axis (fst p)) (negb (is_dataarray a)))
          (dims a).

(** What the proofs use of a well-formed array: distinct dimensions, and
    positional axes when it is not a DataArray. *)
Definition axes_only (ds : dims_t) : Prop :=
  forall p, In p ds -> is_axis (fst p) = true.

Definition tidy (a : array F) : Prop :=
  NoDup (map fst (dims a)) /\ (is_dataarray a = false -> axes_only (dims a)).

(** The dimension names of an array, the last one first: the order in
    which the axes of a numpy operand are bound to them. *)
Definition dim_names (a : array F) : list dim := rev (map fst (dims a)).

(** The element of [x] that an operator reads for the element [c] of its
    result, when the other operand is [ref]. *)
Definition read_with (ref x : array F) (c : coord) : F :=
  if needs_binding ref x then view x (rebind (dim_names ref) c)
  else view x c.

(** The element of the operand [x] that enters the element [c] of the
    flux.  On line 75 [x] first meets [near] (kw_cmhr meets K0,
    pCO2_sea_uatm meets pCO2_air_uatm), and their result then meets [far],
    the result of the other pair.  A DataArray and a float are read at [c].
    A numpy array is read at [c] as long as it only meets plain operands;
    once it meets a DataArray, its axis [k] is read at the index [c] has
    along the [k]-th dimension, from the last, of that DataArray. *)
Definition aligned (near : array F) (far : result (array F)) (x : array F)
  (c : coord) : F :=
  if needs_binding near x then view x (rebind (dim_names near) c)
  else match far with
       | Ok y => if needs_binding y x then view x (rebind (dim_names y) c)
                 else view x c
       | Err _ => view x c
       end.

(** The elements of the four operands of line 75 that are lined up with
    the element [c] of the flux. *)
Definition elem_kw (kw_cmhr K0 pCO2_sea_uatm pCO2_air_uatm : array F)
  : coord -> F :=
  aligned K0 (sub pCO2_sea_uatm pCO2_air_uatm) kw_cmhr.

Definition elem_K0 (kw_cmhr K0 pCO2_sea_uatm pCO2_air_uatm : array F)
  : coord -> F :=
  aligned kw_cmhr (sub pCO2_sea_uatm pCO2_air_uatm) K0.

Definition elem_sea (kw_cmhr K0 pCO2_sea_uatm pCO2_air_uatm : array F)
  : coord -> F :=
  aligned pCO2_air_uatm (mul kw_cmhr K0) pCO2_sea_uatm.

Definition elem_air (kw_cmhr K0 pCO2_sea_uatm pCO2_air_uatm : array F)
  : coord -> F :=
  aligned pCO2_sea_uatm (mul kw_cmhr K0) pCO2_air_uatm.

(** Two arrays of one type and shape, whatever their elements. *)
Definition same_shape (a b : array F) : Prop :=
  is_dataarray a = is_dataarray b /\ dims a = dims b.

(** Two outcomes of one kind: both raise, or both return, related values. *)
Definition alike {A : Type} (R : A -> A -> Prop) (r r' : result A) : Prop :=
  match r, r' with
  | Ok a, Ok a' => R a a'
  | Err _, Err _ => True
  | _, _ => False
  end.





(** ** Sums over the grid *)

(** The terms [term i j] over a grid of [nlat] by [nlon] cells, 'lat'
    outermost. *)
Definition cells (nlat nlon : nat) (term : nat -> nat -> F) : list F :=
  flat_map (fun i => map (term i) (seq 0 nlon)) (seq 0 nlat).

(** The sum of all terms, NaN included. *)
Definition total (xs : list F) : F := fold_left fadd xs (of_int 0).

End Vocabulary.

(** Sums of reals. *)
Definition sumR (l : list R) : R := fold_right Rplus 0%R l.

(** The sum of [f 0], ..., [f (n - 1)]. *)
Definition big_sum (n : nat) (f : nat -> R) : R := sumR (map f (seq 0 n)).

(** The flux per micro-atmosphere of partial-pressure difference. *)
Definition flux_per_uatm (kw_cmhr K0 : R) : R :=
  (kw_cmhr * (24 / 100) * K0 * (1 / 1000000) * (12.0108 * 1000))%R.


(* ================================================================== *)
(** * Binary64 rounding, for the sign of the flux *)

(** The arithmetic of [PrimFloat] is specified by [SpecFloat]: a product
    is shifted right to 53 bits, rounded to nearest even, renormalised and
    tested for overflow.  The two functions below say the same in integer
    arithmetic. *)


(** The positive float that a rounded mantissa [q] with exponent [E]
    stands for, after renormalisation and the overflow test. *)
Definition pack (q E : Z) : spec_float :=
  match q with
  | Z0 => S754_zero false
  | Zpos p =>
      if (q =? 2 ^ 53)%Z then
        if (E + 1 <=? emax - prec)%Z
        then S754_finite false (2 ^ 52)%positive (E + 1)
        else S754_infinity false
      else
        if (E <=? emax - prec)%Z then S754_finite false p E
        else S754_infinity false
  | Zneg _ => S754_nan
  end.


Definition nonneg (x : spec_float) : bool :=
  match x with
  | S754_nan | S754_zero _ => true
  | S754_infinity s | S754_finite s _ _ => negb s
  end.


(* ================================================================== *)
(** * Objects and references: what a call does to the store *)

(** Python passes references.  To speak of mutation, the same function is
    read over a store of objects: an operator reads its operands and
    allocates its result, [assign_attrs] allocates a copy, and the only
    write is [ds[key] = value], into the dataset object.  The collaborators
    are taken to read their arguments and to allocate their answer. *)

Module Store.

Section Programs.

Context {F : Type} `{NumF : Number F}.

Inductive object : Type :=
| ArrayObj (a : array F)
| DatasetObj (ds : Dataset F).

Definition store : Type := list object.
Definition ref : Type := nat.

(** A program transforms the store and returns a value or raises. *)
Definition prog (A : Type) : Type := store -> result A * store.

Definition ret {A : Type} (a : A) : prog A := fun s => (Ok a, s).

Definition lift {A : Type} (r : result A) : prog A := fun s => (r, s).

Definition andthen {A B : Type} (m : prog A) (k : A -> prog B) : prog B :=
  fun s => match m s with
           | (Ok a, s') => k a s'
           | (Err e, s') => (Err e, s')
           end.

Definition alloc (o : object) : prog ref :=
  fun s => (Ok (List.length s), s ++ [o]).

Definition load_array (l : ref) : prog (array F) :=
  fun s => match nth_error s l with
           | Some (ArrayObj a) => (Ok a, s)
           | _ => (Err (Raised "TypeError"), s)
           end.

Definition load_dataset (l : ref) : prog (Dataset F) :=
  fun s => match nth_error s l with
           | Some (DatasetObj ds) => (Ok ds, s)
           | _ => (Err (Raised "TypeError"), s)
           end.

Fixpoint replace (l : nat) (o : object) (s : store) : store :=
  match s, l with
  | [], _ => []
  | _ :: s', 0 => o :: s'
  | x :: s', S l' => x :: replace l' o s'
  end.

Definition write (l : ref) (o : object) : prog unit :=
  fun s => (Ok tt, replace l o s).

End Programs.

Arguments object F : clear implicits.
Arguments store F : clear implicits.
Arguments prog F A : clear implicits.

Declare Scope prog_scope.
Delimit Scope prog_scope with prog.
Notation "x <~ m ;; k" := (andthen m (fun x => k))
  (at level 61, m at next level, right associativity) : prog_scope.
Open Scope prog_scope.

Section FluxBulk.

Context {F : Type} `{NumF : Number F}.

Variable solubility_weiss1974 :
  array F -> array F -> array F -> result (array F).
Variable get_area_from_dataset : array F -> result (array F).

(** A float constant. *)
Definition float_obj (x : F) : prog F ref := alloc (ArrayObj (scalar x)).

(** [a op b]. *)
Definition op2 (f : array F -> array F -> result (array F)) (a b : ref)
  : prog F ref :=
  x <~ load_array a ;;
  y <~ load_array b ;;
  r <~ lift (f x y) ;;
  alloc (ArrayObj r).

Definition call3 (f : array F -> array F -> array F -> result (array F))
  (a b c : ref) : prog F ref :=
  x <~ load_array a ;;
  y <~ load_array b ;;
  z <~ load_array c ;;
  r <~ lift (f x y z) ;;
  alloc (ArrayObj r).

Definition call1 (f : array F -> result (array F)) (a : ref) : prog F ref :=
  x <~ load_array a ;;
  r <~ lift (f x) ;;
  alloc (ArrayObj r).

Definition isinstance_DataArray (a : ref) : prog F bool :=
  x <~ load_array a ;;
  ret (is_dataarray x).

Definition assign_attrs_obj (a : ref) (kvs : list (string * string))
  : prog F ref :=
  x <~ load_array a ;;
  alloc (ArrayObj (assign_attrs x kvs)).

Definition sum_obj (a : ref) (names : list string) : prog F ref :=
  x <~ load_array a ;;
  r <~ lift (sum x names) ;;
  alloc (ArrayObj r).

Definition Dataset_obj : prog F ref := alloc (DatasetObj Dataset_new).

(** [ds[key] = v]: the one write. *)
Definition setitem_obj (d : ref) (key : string) (v : ref) : prog F unit :=
  ds <~ load_dataset d ;;
  x <~ load_array v ;;
  ds' <~ lift (setitem ds key x) ;;
  write d (DatasetObj ds').

(** Lines 55-75, statement by statement. *)
Definition CO2flux_bulk_obj
  (temp_C salt pCO2_sea_uatm pCO2_air_uatm pres_hPa kw_cmhr : ref)
  : prog F ref :=
  c <~ float_obj (lit 1013.25%Q) ;;
  pres_atm <~ op2 div pres_hPa c ;;
  c <~ float_obj (lit 273.15%Q) ;;
  temp_K <~ op2 add temp_C c ;;
  c <~ float_obj (lit 1e-6%Q) ;;
  pCO2sea <~ op2 mul pCO2_sea_uatm c ;;
  c <~ float_obj (lit 1e-6%Q) ;;
  pCO2air <~ op2 mul pCO2_air_uatm c ;;
  K0 <~ call3 solubility_weiss1974 salt temp_K pres_atm ;;
  c <~ float_obj (fdiv (of_int 24) (of_int 100)) ;;
  kw <~ op2 mul kw_cmhr c ;;
  mC <~ float_obj (fmul (lit 12.0108%Q) (of_int 1000)) ;;
  t1 <~ op2 mul kw K0 ;;
  dp <~ op2 sub pCO2sea pCO2air ;;
  t2 <~ op2 mul t1 dp ;;
  op2 mul t2 mC.

(** Lines 77-89, statement by statement. *)
Definition assemble_obj (CO2flux_bulk : ref) : prog F ref :=
  is_da <~ isinstance_DataArray CO2flux_bulk ;;
  if is_da : bool then
    area <~ call1 get_area_from_dataset CO2flux_bulk ;;
    ds <~ Dataset_obj ;;
    fgco2 <~ assign_attrs_obj CO2flux_bulk fgco2_attrs ;;
    _ <~ setitem_obj ds "fgco2" fgco2 ;;
    _ <~ setitem_obj ds "area" area ;;
    p <~ op2 mul CO2flux_bulk area ;;
    c <~ float_obj (of_int 365) ;;
    p <~ op2 mul p c ;;
    s <~ sum_obj p ["lat"; "lon"]%string ;;
    g <~ assign_attrs_obj s fgco2_global_attrs ;;
    _ <~ setitem_obj ds "fgco2_global" g ;;
    ret ds
  else
    ret CO2flux_bulk.

Definition flux_bulk_obj
  (temp_C salt pCO2_sea_uatm pCO2_air_uatm pres_hPa kw_cmhr : ref)
  : prog F ref :=
  flux <~ CO2flux_bulk_obj temp_C salt pCO2_sea_uatm pCO2_air_uatm pres_hPa
                           kw_cmhr ;;
  assemble_obj flux.

(** What the caller sees: the exception, or the object returned. *)
Definition outcome (run : result ref * store F) : result (FluxResult F) :=
  match run with
  | (Ok l, s) =>
      match nth_error s l with
      | Some (ArrayObj a) => Ok (Plain a)
      | Some (DatasetObj ds) => Ok (Composite ds)
      | None => Err (Raised "dangling")
      end
  | (Err e, _) => Err e
  end.

Definition holds (s : store F) (l : ref) (a : array F) : Prop :=
  nth_error s l = Some (ArrayObj a).

End FluxBulk.

Section Simulation.

Context {F : Type} `{NumF : Number F}.

(** The run ends in a store that extends [s], and it ends as the pure
    computation does: with the same exception, or with a reference to the
    value the pure computation returns. *)
Definition sim {B : Type} (s : store F) (R : ref -> store F -> B -> Prop)
  (run : result ref * store F) (pure : result B) : Prop :=
  (exists t, snd run = s ++ t) /\
  match fst run, pure with
  | Ok l, Ok b => R l (snd run) b
  | Err e, Err e' => e = e'
  | _, _ => False
  end.

Definition refers_to_result (l : ref) (s : store F) (r : FluxResult F)
  : Prop :=
  match r with
  | Plain a => nth_error s l = Some (ArrayObj a)
  | Composite ds => nth_error s l = Some (DatasetObj ds)
  end.

End Simulation.

End Store.

(* ================================================================== *)
(** * Stand-ins and inputs for the worked cases *)

(** Stand-ins for the collaborators: a solubility that is the same
    everywhere, an area provider that reads the 'lat' and 'lon' of its
    argument and raises when one is missing, and one that always raises. *)
Definition constant_solubility {F : Type} (k : F)
  : array F -> array F -> array F -> result (array F) :=
  fun _ _ _ => Ok (scalar k).

Definition lat_lon_area {F : Type} (a : F) : array F -> result (array F) :=
  fun x =>
    match size_in (dims x) (Name "lat"), size_in (dims x) (Name "lon") with
    | Some n, Some m =>
        Ok {| is_dataarray := true;
              dims := [(Name "lat", n); (Name "lon", m)];
              item := fun _ => a;
              attrs := [] |}
    | _, _ => Err (Raised "KeyError")
    end.

Definition no_area {F : Type} : array F -> result (array F) :=
  fun _ => Err (Raised "KeyError").

(** A DataArray over (time, lat, lon) of sizes (2, 2, 3), and one over
    (time) alone, both constant. *)
Definition grid {F : Type} (x : F) : array F :=
  {| is_dataarray := true;
     dims := [(Name "time", 2); (Name "lat", 2); (Name "lon", 3)];
     item := fun _ => x;
     attrs := [] |}.

Definition series {F : Type} (x : F) : array F :=
  {| is_dataarray := true;
     dims := [(Name "time", 2)];
     item := fun _ => x;
     attrs := [] |}.

Definition origin : coord := fun _ => 0.

(** An area provider that answers a time series with the scalar 1. *)
Definition unit_area {F : Type} `{Number F} : array F -> result (array F) :=
  fun _ => Ok (scalar (of_int 1)).

(** A numpy vector of [n] elements, constant. *)
Definition vector {F : Type} (n : nat) (x : F) : array F :=
  {| is_dataarray := false;
     dims := [(Axis 0, n)];
     item := fun _ => x;
     attrs := [] |}.

(** A numpy vector with the elements [xs]. *)
Definition vector_of {F : Type} (xs : list F) (default : F) : array F :=
  {| is_dataarray := false;
     dims := [(Axis 0, List.length xs)];
     item := fun c => nth (c (Axis 0)) xs default;
     attrs := [] |}.

(** The grid with another value in the cells of 'lat' 0, 'lon' 0. *)
Definition holed_grid {F : Type} (x hole : F) : array F :=
  {| is_dataarray := true;
     dims := [(Name "time", 2); (Name "lat", 2); (Name "lon", 3)];
     item := fun c => if Nat.eqb (c (Name "lat")) 0
                         && Nat.eqb (c (Name "lon")) 0
                      then hole else x;
     attrs := [] |}.

(** A solubility collaborator that rejects its arguments. *)
Definition failing_solubility {F : Type}
  : array F -> array F -> array F -> result (array F) :=
  fun _ _ _ => Err (Raised "ValueError").

(** Six input objects, the third a grid. *)
Definition six_inputs : Store.store float :=
  [Store.ArrayObj (scalar 15%float); Store.ArrayObj (scalar 35%float);
   Store.ArrayObj (grid 400%float); Store.ArrayObj (scalar 380%float);
   Store.ArrayObj (scalar 1013.25%float); Store.ArrayObj (scalar 10%float)].


(* ================================================================== *)
(** * Dimensions and broadcasting: basic facts *)

Lemma dim_eqb_eq (d e : dim) : dim_eqb d e = true <-> d = e.
Proof.
  destruct d as [j | s], e as [k | t]; simpl.
  - rewrite Nat.eqb_eq. split; [intros -> | intros [= ->]]; reflexivity.
  - split; discriminate.
  - split; discriminate.
  - rewrite String.eqb_eq. split; [intros -> | intros [= ->]]; reflexivity.
Qed.

Lemma dim_eqb_refl (d : dim) : dim_eqb d d = true.
Proof. apply dim_eqb_eq. reflexivity. Qed.

Lemma dim_eqb_neq (d e : dim) : dim_eqb d e = false <-> d <> e.
Proof.
  split.
  - intros H E. apply dim_eqb_eq in E. congruence.
  - intros H. destruct (dim_eqb d e) eqn:E; [| reflexivity].
    apply dim_eqb_eq in E. contradiction.
Qed.

Lemma size_in_app (l1 l2 : dims_t) (d : dim) :
  size_in (l1 ++ l2) d =
  match size_in l1 d with Some n => Some n | None => size_in l2 d end.
Proof.
  induction l1 as [| [e n] l1 IH]; simpl; [reflexivity |].
  destruct (dim_eqb d e); [reflexivity | exact IH].
Qed.

Lemma size_in_filter (g : dim -> bool) (l : dims_t) (d : dim) :
  size_in (filter (fun p => g (fst p)) l) d =
  if g d then size_in l d else None.
Proof.
  induction l as [| [e n] l IH]; simpl.
  - destruct (g d); reflexivity.
  - destruct (g e) eqn:Ge; simpl.
    + destruct (dim_eqb d e) eqn:E.
      * apply dim_eqb_eq in E. subst e. rewrite Ge. reflexivity.
      * exact IH.
    + destruct (dim_eqb d e) eqn:E.
      * apply dim_eqb_eq in E. subst e. rewrite Ge in IH |- *. exact IH.
      * exact IH.
Qed.

Lemma merge_size_keeps_l (sa sb : bool) (n m k : nat) :
  merge_size sa sb n m = Some k -> n <> 1 -> k = n.
Proof.
  unfold merge_size. intros H Hn.
  destruct (Nat.eqb n m) eqn:E; [congruence |].
  apply Nat.eqb_neq in Hn. rewrite Hn, andb_false_r in H.
  destruct (sb && Nat.eqb m 1); congruence.
Qed.

Lemma merge_size_keeps_r (sa sb : bool) (n m k : nat) :
  merge_size sa sb n m = Some k -> m <> 1 -> k = m.
Proof.
  unfold merge_size. intros H Hm.
  destruct (Nat.eqb n m) eqn:E.
  - apply Nat.eqb_eq in E. congruence.
  - destruct (sa && Nat.eqb n 1); [congruence |].
    apply Nat.eqb_neq in Hm. rewrite Hm, andb_false_r in H. discriminate.
Qed.

Lemma merge_size_same (sa sb : bool) (n : nat) : merge_size sa sb n n = Some n.
Proof. unfold merge_size. rewrite Nat.eqb_refl. reflexivity. Qed.

(** The size of a dimension in the merged left part. *)
Lemma size_in_merge_into (sa sb : bool) (db da base : dims_t) (d : dim) :
  merge_into sa sb da db = Some base ->
  match size_in da d with
  | None => size_in base d = None
  | Some n =>
      match size_in db d with
      | None => size_in base d = Some n
      | Some m => exists k, merge_size sa sb n m = Some k /\
                            size_in base d = Some k
      end
  end.
Proof.
  revert base. induction da as [| [e n] da IH]; simpl; intros base H.
  - injection H as <-. reflexivity.
  - destruct (merge_into sa sb da db) as [rest |]; [| discriminate].
    specialize (IH rest eq_refl).
    destruct (dim_eqb d e) eqn:E.
    + apply dim_eqb_eq in E. subst e.
      destruct (size_in db d) as [m |].
      * destruct (merge_size sa sb n m) as [k |] eqn:M; [| discriminate].
        injection H as <-. exists k. simpl. rewrite dim_eqb_refl. auto.
      * injection H as <-. simpl. rewrite dim_eqb_refl. reflexivity.
    + assert (Hb : size_in base d = size_in rest d).
      { destruct (size_in db e) as [m |].
        - destruct (merge_size sa sb n m); [| discriminate].
          injection H as <-. simpl. rewrite E. reflexivity.
        - injection H as <-. simpl. rewrite E. reflexivity. }
      rewrite Hb. exact IH.
Qed.

Lemma broadcast_dims_l (sa sb : bool) (da db ds : dims_t) (d : dim) (n : nat) :
  broadcast_dims sa sb da db = Ok ds ->
  size_in da d = Some n -> n <> 1 -> size_in ds d = Some n.
Proof.
  unfold broadcast_dims. intros H Hd Hn.
  destruct (merge_into sa sb da db) as [base |] eqn:M; [| discriminate].
  injection H as <-.
  pose proof (size_in_merge_into sa sb db da d M) as S.
  rewrite Hd in S. rewrite size_in_app.
  destruct (size_in db d) as [m |].
  - destruct S as (k & Hk & ->).
    f_equal. eapply merge_size_keeps_l; eauto.
  - rewrite S. reflexivity.
Qed.

Lemma broadcast_dims_r (sa sb : bool) (da db ds : dims_t) (d : dim) (m : nat) :
  broadcast_dims sa sb da db = Ok ds ->
  size_in db d = Some m -> m <> 1 -> size_in ds d = Some m.
Proof.
  unfold broadcast_dims. intros H Hd Hm.
  destruct (merge_into sa sb da db) as [base |] eqn:M; [| discriminate].
  injection H as <-.
  pose proof (size_in_merge_into sa sb db da d M) as S.
  rewrite Hd in S. rewrite size_in_app.
  destruct (size_in da d) as [n |] eqn:Ha.
  - destruct S as (k & Hk & ->).
    f_equal. eapply merge_size_keeps_r; eauto.
  - rewrite S.
    rewrite (size_in_filter (fun e => negb (has_dim da e))).
    unfold has_dim. rewrite Ha. simpl. exact Hd.
Qed.

(** Which dimensions the result has. *)
Lemma broadcast_dims_has (sa sb : bool) (da db ds : dims_t) (d : dim) :
  broadcast_dims sa sb da db = Ok ds ->
  has_dim ds d = has_dim da d || has_dim db d.
Proof.
  unfold broadcast_dims. intros H.
  destruct (merge_into sa sb da db) as [base |] eqn:M; [| discriminate].
  injection H as <-.
  pose proof (size_in_merge_into sa sb db da d M) as S.
  unfold has_dim at 1. rewrite size_in_app.
  rewrite (size_in_filter (fun e => negb (has_dim da e))).
  unfold has_dim in *.
  destruct (size_in da d) as [n |].
  - destruct (size_in db d) as [m |].
    + destruct S as (k & _ & ->). reflexivity.
    + rewrite S. reflexivity.
  - rewrite S. simpl. reflexivity.
Qed.

Lemma merge_into_nil_r (sa sb : bool) (da : dims_t) :
  merge_into sa sb da [] = Some da.
Proof.
  induction da as [| [d n] da IH]; simpl; [reflexivity |].
  rewrite IH. reflexivity.
Qed.

Lemma broadcast_dims_nil_r (sa sb : bool) (da : dims_t) :
  broadcast_dims sa sb da [] = Ok da.
Proof.
  unfold broadcast_dims. rewrite merge_into_nil_r. simpl.
  rewrite app_nil_r. reflexivity.
Qed.

Lemma broadcast_dims_nil_l (sa sb : bool) (db : dims_t) :
  broadcast_dims sa sb [] db = Ok db.
Proof.
  unfold broadcast_dims. simpl.
  assert (E : filter (fun _ : dim * nat => true) db = db).
  { induction db as [| p db IH]; simpl; [reflexivity |].
    f_equal. exact IH. }
  rewrite E. reflexivity.
Qed.

(* ================================================================== *)
(** * Element-wise operators: what an element of the result is *)

Section ArrayFacts.

Context {F : Type} `{NumF : Number F}.

Lemma clamp_compat (da ds : dims_t) (c : coord) :
  (forall d n, size_in da d = Some n -> n <> 1 -> size_in ds d = Some n) ->
  clamp da (clamp ds c) = clamp da c.
Proof.
  intros H. apply functional_extensionality. intros d. unfold clamp.
  destruct (size_in da d) as [n |] eqn:Ha; [| reflexivity].
  destruct (Nat.eqb n 1) eqn:E; [reflexivity |].
  apply Nat.eqb_neq in E. rewrite (H d n Ha E).
  apply Nat.eqb_neq in E. rewrite E. reflexivity.
Qed.

Lemma clamp_idem (ds : dims_t) (c : coord) :
  clamp ds (clamp ds c) = clamp ds c.
Proof. apply clamp_compat. auto. Qed.

Lemma view_scalar (x : F) (c : coord) : view (scalar x) c = x.
Proof. reflexivity. Qed.

Lemma needs_binding_plain (ref x : array F) :
  plain ref = true -> needs_binding ref x = false.
Proof.
  unfold plain, needs_binding. intros H.
  apply negb_true_iff in H. rewrite H. reflexivity.
Qed.

Lemma needs_binding_labelled (ref x : array F) :
  labelled x = true -> needs_binding ref x = false.
Proof.
  unfold labelled, needs_binding. intros H.
  destruct (is_dataarray x); simpl.
  - rewrite andb_false_r. reflexivity.
  - destruct (dims x); [| discriminate]. apply andb_false_r.
Qed.

Lemma plain_scalar (x : F) : plain (scalar x) = true.
Proof. reflexivity. Qed.

Lemma labelled_scalar (x : F) : labelled (scalar x) = true.
Proof. reflexivity. Qed.

(** Without binding, [binop] is broadcasting of the dimensions and the
    operator applied to the two views. *)
Lemma binop_unbound (f : F -> F -> F) (a b : array F) :
  needs_binding b a = false -> needs_binding a b = false ->
  binop f a b =
  (ds <- broadcast_dims (negb (is_dataarray a)) (negb (is_dataarray b))
                        (dims a) (dims b) ;;
   Ok {| is_dataarray := is_dataarray a || is_dataarray b;
         dims := ds;
         item := fun c => f (view a c) (view b c);
         attrs := [] |}).
Proof.
  intros Ha Hb. unfold binop, bind_axes. rewrite Ha, Hb. reflexivity.
Qed.

Lemma binop_view (f : F -> F -> F) (a b r : array F) :
  needs_binding b a = false -> needs_binding a b = false ->
  binop f a b = Ok r ->
  forall c, view r c = f (view a c) (view b c).
Proof.
  intros Ha Hb H c. rewrite (binop_unbound f a b Ha Hb) in H.
  destruct (broadcast_dims (negb (is_dataarray a)) (negb (is_dataarray b))
                           (dims a) (dims b)) as [ds |] eqn:B;
    [| discriminate].
  simpl in H. injection H as <-. unfold view at 1. simpl.
  unfold view. f_equal; f_equal; apply clamp_compat; intros d n Hd Hn.
  - eapply broadcast_dims_l; eauto.
  - eapply broadcast_dims_r; eauto.
Qed.

Lemma binop_is_dataarray (f : F -> F -> F) (a b r : array F) :
  binop f a b = Ok r -> is_dataarray r = is_dataarray a || is_dataarray b.
Proof.
  unfold binop. intros H.
  destruct (bind_axes b a) as [a' |]; [| discriminate].
  destruct (bind_axes a b) as [b' |]; [| discriminate].
  simpl in H.
  destruct (broadcast_dims (negb (is_dataarray a)) (negb (is_dataarray b))
                           (dims a') (dims b')) as [ds |]; [| discriminate].
  simpl in H. injection H as <-. reflexivity.
Qed.

Lemma binop_dims_unbound (f : F -> F -> F) (a b r : array F) :
  needs_binding b a = false -> needs_binding a b = false ->
  binop f a b = Ok r ->
  broadcast_dims (negb (is_dataarray a)) (negb (is_dataarray b))
                 (dims a) (dims b) = Ok (dims r).
Proof.
  intros Ha Hb H. rewrite (binop_unbound f a b Ha Hb) in H.
  destruct (broadcast_dims (negb (is_dataarray a)) (negb (is_dataarray b))
                           (dims a) (dims b)) as [ds |]; [| discriminate].
  simpl in H. injection H as <-. reflexivity.
Qed.

(** A scalar on the right never fails and keeps type and dimensions. *)
Lemma binop_scalar_r (f : F -> F -> F) (a : array F) (x : F) :
  binop f a (scalar x) =
  Ok {| is_dataarray := is_dataarray a;
        dims := dims a;
        item := fun c => f (view a c) x;
        attrs := [] |}.
Proof.
  rewrite binop_unbound.
  - simpl. rewrite broadcast_dims_nil_r. simpl.
    rewrite orb_false_r. reflexivity.
  - reflexivity.
  - apply needs_binding_labelled. reflexivity.
Qed.

Lemma binop_plain (f : F -> F -> F) (a b r : array F) :
  plain a = true -> plain b = true -> binop f a b = Ok r -> plain r = true.
Proof.
  unfold plain. intros Ha Hb H.
  rewrite (binop_is_dataarray f a b H).
  apply negb_true_iff in Ha, Hb. rewrite Ha, Hb. reflexivity.
Qed.

Lemma binop_labelled (f : F -> F -> F) (a b r : array F) :
  labelled a = true -> labelled b = true -> binop f a b = Ok r ->
  labelled r = true.
Proof.
  intros Ha Hb H.
  pose proof (binop_is_dataarray f a b H) as Hf.
  pose proof (binop_dims_unbound f a b
                (needs_binding_labelled b a Ha)
                (needs_binding_labelled a b Hb) H) as Hd.
  unfold labelled in *. rewrite Hf.
  destruct (is_dataarray a); [reflexivity |].
  destruct (is_dataarray b); [reflexivity |]. simpl in *.
  destruct (dims a); [| discriminate].
  destruct (dims b); [| discriminate].
  rewrite broadcast_dims_nil_l in Hd. injection Hd as <-. reflexivity.
Qed.

(** In either world the operator acts on the views, and the result stays
    in the world. *)
Lemma binop_view_plain (f : F -> F -> F) (a b r : array F) :
  plain a = true -> plain b = true -> binop f a b = Ok r ->
  forall c, view r c = f (view a c) (view b c).
Proof.
  intros Ha Hb. apply binop_view; apply needs_binding_plain; assumption.
Qed.

Lemma binop_view_labelled (f : F -> F -> F) (a b r : array F) :
  labelled a = true -> labelled b = true -> binop f a b = Ok r ->
  forall c, view r c = f (view a c) (view b c).
Proof.
  intros Ha Hb. apply binop_view; apply needs_binding_labelled; assumption.
Qed.

End ArrayFacts.

(* ================================================================== *)
(** * The flux field, element by element *)

Section FluxFacts.

Context {F : Type} `{NumF : Number F}.

Variable solubility_weiss1974 :
  array F -> array F -> array F -> result (array F).
Variable get_area_from_dataset : array F -> result (array F).

Lemma world_plain : @world F plain.
Proof.
  split.
  - apply plain_scalar.
  - intros a b Ha _. apply needs_binding_plain. exact Ha.
  - apply binop_plain.
Qed.

Lemma world_labelled : @world F labelled.
Proof.
  split.
  - apply labelled_scalar.
  - intros a b _ Hb. apply needs_binding_labelled. exact Hb.
  - apply binop_labelled.
Qed.

Lemma world_view (W : array F -> bool) (HW : world W)
  (f : F -> F -> F) (a b r : array F) :
  W a = true -> W b = true -> binop f a b = Ok r ->
  W r = true /\ forall c, view r c = f (view a c) (view b c).
Proof.
  intros Ha Hb H. split.
  - exact (@world_closed F W HW f a b r Ha Hb H).
  - apply (@binop_view _ f a b r).
    + exact (@world_unbound F W HW b a Hb Ha).
    + exact (@world_unbound F W HW a b Ha Hb).
    + exact H.
Qed.


(** The steps of [CO2flux_bulk], named. *)
Lemma CO2flux_bulk_steps
  (temp_C salt pCO2_sea_uatm pCO2_air_uatm pres_hPa kw_cmhr flux : array F) :
  CO2flux_bulk solubility_weiss1974 temp_C salt pCO2_sea_uatm pCO2_air_uatm
               pres_hPa kw_cmhr = Ok flux ->
  exists pres_atm temp_K pCO2sea pCO2air K0 kw t1 dp t2,
    div pres_hPa (scalar (lit 1013.25%Q)) = Ok pres_atm /\
    add temp_C (scalar (lit 273.15%Q)) = Ok temp_K /\
    mul pCO2_sea_uatm (scalar (lit 1e-6%Q)) = Ok pCO2sea /\
    mul pCO2_air_uatm (scalar (lit 1e-6%Q)) = Ok pCO2air /\
    solubility_weiss1974 salt temp_K pres_atm = Ok K0 /\
    mul kw_cmhr (scalar (fdiv (of_int 24) (of_int 100))) = Ok kw /\
    mul kw K0 = Ok t1 /\
    sub pCO2sea pCO2air = Ok dp /\
    mul t1 dp = Ok t2 /\
    mul t2 (scalar (fmul (lit 12.0108%Q) (of_int 1000))) = Ok flux.
Proof.
  unfold CO2flux_bulk. intros H.
  destruct (div pres_hPa _) as [pres_atm |] eqn:E1; [| discriminate].
  destruct (add temp_C _) as [temp_K |] eqn:E2; [| discriminate].
  destruct (mul pCO2_sea_uatm _) as [pCO2sea |] eqn:E3; [| discriminate].
  destruct (mul pCO2_air_uatm _) as [pCO2air |] eqn:E4; [| discriminate].
  simpl in H.
  destruct (solubility_weiss1974 salt temp_K pres_atm) as [K0 |] eqn:E5;
    [| discriminate].
  simpl in H.
  destruct (mul kw_cmhr _) as [kw |] eqn:E6; [| discriminate].
  simpl in H.
  destruct (mul kw K0) as [t1 |] eqn:E7; [| discriminate].
  simpl in H.
  destruct (sub pCO2sea pCO2air) as [dp |] eqn:E8; [| discriminate].
  simpl in H.
  destruct (mul t1 dp) as [t2 |] eqn:E9; [| discriminate].
  simpl in H.
  exists pres_atm, temp_K, pCO2sea, pCO2air, K0, kw, t1, dp, t2.
  repeat split; assumption.
Qed.

(** Whether the flux is a DataArray: one of the four operands of line 75
    is. *)
Lemma CO2flux_bulk_type
  (temp_C salt pCO2_sea_uatm pCO2_air_uatm pres_hPa kw_cmhr flux : array F) :
  CO2flux_bulk solubility_weiss1974 temp_C salt pCO2_sea_uatm pCO2_air_uatm
               pres_hPa kw_cmhr = Ok flux ->
  exists pres_atm temp_K K0,
    div pres_hPa (scalar (lit 1013.25%Q)) = Ok pres_atm /\
    add temp_C (scalar (lit 273.15%Q)) = Ok temp_K /\
    solubility_weiss1974 salt temp_K pres_atm = Ok K0 /\
    is_dataarray flux =
      is_dataarray kw_cmhr || is_dataarray K0
      || (is_dataarray pCO2_sea_uatm || is_dataarray pCO2_air_uatm).
Proof.
  intros H. apply CO2flux_bulk_steps in H.
  destruct H as (pres_atm & temp_K & pCO2sea & pCO2air & K0 & kw & t1 & dp
                 & t2 & E1 & E2 & E3 & E4 & E5 & E6 & E7 & E8 & E9 & E10).
  exists pres_atm, temp_K, K0.
  split; [exact E1 |]. split; [exact E2 |]. split; [exact E5 |].
  unfold mul, sub in *.
  rewrite (binop_is_dataarray _ _ _ E10), (binop_is_dataarray _ _ _ E9),
    (binop_is_dataarray _ _ _ E8), (binop_is_dataarray _ _ _ E7),
    (binop_is_dataarray _ _ _ E6), (binop_is_dataarray _ _ _ E4),
    (binop_is_dataarray _ _ _ E3).
  simpl. rewrite !orb_false_r. reflexivity.
Qed.

(** In a world, every element of the flux is [flux_elem] of the elements
    of the operands at the same coordinate. *)
Lemma CO2flux_bulk_view_world (W : array F -> bool) (HW : world W)
  (temp_C salt pCO2_sea_uatm pCO2_air_uatm pres_hPa kw_cmhr flux : array F) :
  CO2flux_bulk solubility_weiss1974 temp_C salt pCO2_sea_uatm pCO2_air_uatm
               pres_hPa kw_cmhr = Ok flux ->
  exists pres_atm temp_K K0,
    div pres_hPa (scalar (lit 1013.25%Q)) = Ok pres_atm /\
    add temp_C (scalar (lit 273.15%Q)) = Ok temp_K /\
    solubility_weiss1974 salt temp_K pres_atm = Ok K0 /\
    (W kw_cmhr = true -> W K0 = true ->
     W pCO2_sea_uatm = true -> W pCO2_air_uatm = true ->
     W flux = true /\
     forall c, view flux c =
               flux_elem (view kw_cmhr c) (view K0 c)
                         (view pCO2_sea_uatm c) (view pCO2_air_uatm c)).
Proof.
  intros H. apply CO2flux_bulk_steps in H.
  destruct H as (pres_atm & temp_K & pCO2sea & pCO2air & K0 & kw & t1 & dp
                 & t2 & E1 & E2 & E3 & E4 & E5 & E6 & E7 & E8 & E9 & E10).
  exists pres_atm, temp_K, K0.
  split; [exact E1 |]. split; [exact E2 |]. split; [exact E5 |].
  intros Hk HK Hsea Hair. unfold mul, sub in *.
  pose proof (world_scalar HW) as Hs.
  destruct (world_view HW _ _ _ Hsea (Hs _) E3) as [W3 V3].
  destruct (world_view HW _ _ _ Hair (Hs _) E4) as [W4 V4].
  destruct (world_view HW _ _ _ Hk (Hs _) E6) as [W6 V6].
  destruct (world_view HW _ _ _ W6 HK E7) as [W7 V7].
  destruct (world_view HW _ _ _ W3 W4 E8) as [W8 V8].
  destruct (world_view HW _ _ _ W7 W8 E9) as [W9 V9].
  destruct (world_view HW _ _ _ W9 (Hs _) E10) as [W10 V10].
  split; [exact W10 |].
  intros c. rewrite V10, V9, V8, V7, V6, V4, V3. reflexivity.
Qed.

Lemma unmixed_cases (l : list (array F)) :
  unmixed l = true ->
  exists W, world W /\ forallb W l = true.
Proof.
  unfold unmixed. intros H. apply orb_true_iff in H. destruct H as [H | H].
  - exists plain. split; [apply world_plain | exact H].
  - exists labelled. split; [apply world_labelled | exact H].
Qed.

Lemma CO2flux_bulk_view
  (temp_C salt pCO2_sea_uatm pCO2_air_uatm pres_hPa kw_cmhr flux : array F) :
  CO2flux_bulk solubility_weiss1974 temp_C salt pCO2_sea_uatm pCO2_air_uatm
               pres_hPa kw_cmhr = Ok flux ->
  exists pres_atm temp_K K0,
    div pres_hPa (scalar (lit 1013.25%Q)) = Ok pres_atm /\
    add temp_C (scalar (lit 273.15%Q)) = Ok temp_K /\
    solubility_weiss1974 salt temp_K pres_atm = Ok K0 /\
    (unmixed [kw_cmhr; K0; pCO2_sea_uatm; pCO2_air_uatm] = true ->
     forall c, view flux c =
               flux_elem (view kw_cmhr c) (view K0 c)
                         (view pCO2_sea_uatm c) (view pCO2_air_uatm c)).
Proof.
  intros H.
  destruct (CO2flux_bulk_steps _ _ _ _ _ _ H)
    as (pres_atm & temp_K & _ & _ & K0 & _ & _ & _ & _
        & E1 & E2 & _ & _ & E5 & _).
  exists pres_atm, temp_K, K0.
  split; [exact E1 |]. split; [exact E2 |]. split; [exact E5 |].
  intros U. apply unmixed_cases in U. destruct U as (W & HW & Hall).
  simpl in Hall. rewrite !andb_true_iff in Hall.
  destruct Hall as (Wk & WK & Ws & Wa & _).
  destruct (CO2flux_bulk_view_world HW _ _ _ _ _ _ H)
    as (pres_atm' & temp_K' & K0' & E1' & E2' & E5' & V).
  assert (pres_atm' = pres_atm) by congruence. subst pres_atm'.
  assert (temp_K' = temp_K) by congruence. subst temp_K'.
  assert (K0' = K0) by congruence. subst K0'.
  apply V; assumption.
Qed.

End FluxFacts.

(* ================================================================== *)
(** * Result assembly *)

Section AssembleFacts.

Context {F : Type} `{NumF : Number F}.

Variable get_area_from_dataset : array F -> result (array F).

Lemma conflicting_nil (new : dims_t) : conflicting [] new = false.
Proof. induction new as [| p new IH]; simpl; [reflexivity | exact IH]. Qed.

Lemma assemble_plain (flux : array F) :
  is_dataarray flux = false ->
  assemble get_area_from_dataset flux = Ok (Plain flux).
Proof. unfold assemble. intros ->. reflexivity. Qed.

(** The reduction over ['lat', 'lon'] succeeds exactly when both are
    dimensions of the array. *)
Lemma sum_lat_lon (a s : array F) :
  sum a ["lat"; "lon"]%string = Ok s ->
  exists n m,
    size_in (dims a) (Name "lat") = Some n /\
    size_in (dims a) (Name "lon") = Some m /\
    s = {| is_dataarray := is_dataarray a;
           dims := kept_dims ["lat"; "lon"]%string (dims a);
           item := fun c =>
             nansum (map (view a)
                         (coords_over [(Name "lat", n); (Name "lon", m)] c));
           attrs := [] |}.
Proof.
  unfold sum. simpl. intros H.
  destruct (size_in (dims a) (Name "lat")) as [n |]; [| discriminate].
  destruct (size_in (dims a) (Name "lon")) as [m |]; [| discriminate].
  simpl in H. injection H as <-. exists n, m. auto.
Qed.

Lemma sum_lat_lon_missing (a : array F) :
  has_dim (dims a) (Name "lat") && has_dim (dims a) (Name "lon") = false ->
  exists e, sum a ["lat"; "lon"]%string = Err e.
Proof.
  unfold sum, has_dim. simpl. intros H.
  destruct (size_in (dims a) (Name "lat")) as [n |].
  - destruct (size_in (dims a) (Name "lon")) as [m |]; [discriminate |].
    eexists. reflexivity.
  - eexists. reflexivity.
Qed.

(** What a returned composite is made of. *)
Lemma assemble_composite (flux : array F) (r : FluxResult F) :
  is_dataarray flux = true ->
  assemble get_area_from_dataset flux = Ok r ->
  exists area p p365 s,
    get_area_from_dataset flux = Ok area /\
    labelled area = true /\
    mul flux area = Ok p /\
    mul p (scalar (of_int 365)) = Ok p365 /\
    sum p365 ["lat"; "lon"]%string = Ok s /\
    r = Composite
          [("fgco2", assign_attrs flux fgco2_attrs);
           ("area", area);
           ("fgco2_global", assign_attrs s fgco2_global_attrs)]%string.
Proof.
  unfold assemble. intros Hf H. rewrite Hf in H.
  destruct (get_area_from_dataset flux) as [area |] eqn:EA; [| discriminate].
  simpl in H. unfold setitem at 1 in H. simpl in H.
  rewrite Hf, conflicting_nil in H. simpl in H.
  unfold setitem at 1 in H. simpl in H.
  destruct (negb (is_dataarray area)
            && match dims area with [] => false | _ :: _ => true end) eqn:EL;
    [discriminate |].
  destruct (conflicting (dims flux ++ []) (dims area)); [discriminate |].
  simpl in H.
  destruct (mul flux area) as [p |] eqn:EP; [| discriminate]. simpl in H.
  destruct (mul p (scalar (of_int 365))) as [p365 |] eqn:EP'; [| discriminate].
  simpl in H.
  destruct (sum p365 ["lat"; "lon"]%string) as [s |] eqn:ES; [| discriminate].
  simpl in H.
  unfold setitem in H. simpl in H.
  destruct (negb (is_dataarray s)
            && match dims s with [] => false | _ :: _ => true end);
    [discriminate |].
  destruct (conflicting _ (dims s)); [discriminate |].
  injection H as <-.
  exists area, p, p365, s. repeat split; try assumption; try reflexivity.
  unfold labelled.
  destruct (is_dataarray area); [reflexivity |].
  destruct (dims area); [reflexivity | discriminate].
Qed.

(** A labelled flux never comes back bare. *)
Lemma assemble_labelled_not_plain (flux f : array F) :
  is_dataarray flux = true ->
  assemble get_area_from_dataset flux <> Ok (Plain f).
Proof.
  intros Hf H.
  destruct (assemble_composite flux Hf H)
    as (area & p & p365 & s & _ & _ & _ & _ & _ & E).
  discriminate.
Qed.

(** The dimensions the reduced product has are dimensions of the flux or
    of the area. *)
Lemma product_has_dim (flux area p p365 : array F) (d : dim) :
  is_dataarray flux = true -> labelled area = true ->
  mul flux area = Ok p -> mul p (scalar (of_int 365)) = Ok p365 ->
  has_dim (dims p365) d = has_dim (dims flux) d || has_dim (dims area) d.
Proof.
  intros Hf Ha Hp Hp'. unfold mul in *.
  rewrite binop_scalar_r in Hp'. injection Hp' as <-. simpl.
  assert (Lf : labelled flux = true) by (unfold labelled; rewrite Hf; reflexivity).
  pose proof (binop_dims_unbound fmul flux area
                (needs_binding_labelled area flux Lf)
                (needs_binding_labelled flux area Ha) Hp) as B.
  eapply broadcast_dims_has. exact B.
Qed.

End AssembleFacts.

(* ================================================================== *)
(** * Properties of [flux_bulk] that hold for every arithmetic *)

Section FluxBulkFacts.

Context {F : Type} `{NumF : Number F}.

Variable solubility_weiss1974 :
  array F -> array F -> array F -> result (array F).
Variable get_area_from_dataset : array F -> result (array F).

Lemma flux_bulk_inv
  (temp_C salt pCO2_sea_uatm pCO2_air_uatm pres_hPa kw_cmhr : array F)
  (r : FluxResult F) :
  flux_bulk solubility_weiss1974 get_area_from_dataset
            temp_C salt pCO2_sea_uatm pCO2_air_uatm pres_hPa kw_cmhr = Ok r ->
  exists flux,
    CO2flux_bulk solubility_weiss1974
                 temp_C salt pCO2_sea_uatm pCO2_air_uatm pres_hPa kw_cmhr
      = Ok flux /\
    assemble get_area_from_dataset flux = Ok r.
Proof.
  unfold flux_bulk. intros H.
  destruct (CO2flux_bulk solubility_weiss1974 temp_C salt pCO2_sea_uatm
                         pCO2_air_uatm pres_hPa kw_cmhr)
    as [flux |]; [| discriminate].
  exists flux. split; [reflexivity | exact H].
Qed.

Lemma binop_scalar_view (f : F -> F -> F) (a r : array F) (x : F) :
  binop f a (scalar x) = Ok r -> forall c, view r c = f (view a c) x.
Proof.
  intros H c.
  rewrite (@binop_view F f a (scalar x) r); [reflexivity | | | exact H].
  - reflexivity.
  - apply needs_binding_labelled. reflexivity.
Qed.

Lemma view_assign_attrs (a : array F) (kvs : list (string * string))
  (c : coord) :
  view (assign_attrs a kvs) c = view a c.
Proof. reflexivity. Qed.

(** What assembly does to the flux field: nothing but the attributes. *)
Lemma assemble_flux_field (flux : array F) (r : FluxResult F) :
  assemble get_area_from_dataset flux = Ok r ->
  exists fg,
    flux_field r = Some fg /\
    is_dataarray fg = is_dataarray flux /\
    dims fg = dims flux /\
    item fg = item flux /\
    (fg = flux \/ fg = assign_attrs flux fgco2_attrs).
Proof.
  intros H. destruct (is_dataarray flux) eqn:Hf.
  - destruct (assemble_composite _ flux Hf H)
      as (area & p & p365 & s & _ & _ & _ & _ & _ & ->).
    exists (assign_attrs flux fgco2_attrs). simpl. repeat split; auto.
  - rewrite (assemble_plain _ flux Hf) in H. injection H as <-.
    exists flux. simpl. repeat split; auto.
Qed.

(** Every element of the flux field of a result, from the elements of the
    operands. *)
Lemma flux_bulk_elements
  (temp_C salt pCO2_sea_uatm pCO2_air_uatm pres_hPa kw_cmhr : array F)
  (r : FluxResult F) :
  flux_bulk solubility_weiss1974 get_area_from_dataset
            temp_C salt pCO2_sea_uatm pCO2_air_uatm pres_hPa kw_cmhr = Ok r ->
  exists pres_atm temp_K K0 flux,
    div pres_hPa (scalar (lit 1013.25%Q)) = Ok pres_atm /\
    add temp_C (scalar (lit 273.15%Q)) = Ok temp_K /\
    solubility_weiss1974 salt temp_K pres_atm = Ok K0 /\
    flux_field r = Some flux /\
    (unmixed [kw_cmhr; K0; pCO2_sea_uatm; pCO2_air_uatm] = true ->
     forall c, view flux c =
               flux_elem (view kw_cmhr c) (view K0 c)
                         (view pCO2_sea_uatm c) (view pCO2_air_uatm c)).
Proof.
  intros H. apply flux_bulk_inv in H. destruct H as (flux & Hflux & Hasm).
  destruct (CO2flux_bulk_view _ _ _ _ _ _ _ Hflux)
    as (pres_atm & temp_K & K0 & E1 & E2 & E5 & V).
  destruct (assemble_flux_field flux Hasm)
    as (fg & Hfg & _ & Hd & Hi & _).
  exists pres_atm, temp_K, K0, fg.
  split; [exact E1 |]. split; [exact E2 |]. split; [exact E5 |].
  split; [exact Hfg |].
  intros U c. unfold view. rewrite Hd, Hi.
  exact (V U c).
Qed.

(** C10.  The values of the flux field of the result are the values line
    75 computed: the bare result is that array, and the [fgco2] of a
    composite is that array with the two attributes set; type, dimensions
    and every element are the same. *)
Theorem flux_values_unchanged
  (temp_C salt pCO2_sea_uatm pCO2_air_uatm pres_hPa kw_cmhr : array F)
  (r : FluxResult F) :
  flux_bulk solubility_weiss1974 get_area_from_dataset
            temp_C salt pCO2_sea_uatm pCO2_air_uatm pres_hPa kw_cmhr = Ok r ->
  exists flux,
    CO2flux_bulk solubility_weiss1974
                 temp_C salt pCO2_sea_uatm pCO2_air_uatm pres_hPa kw_cmhr
      = Ok flux /\
    match r with
    | Plain f => f = flux
    | Composite ds =>
        dict_get "fgco2" ds = Some (assign_attrs flux fgco2_attrs) /\
        (exists area g, ds = [("fgco2", assign_attrs flux fgco2_attrs);
                              ("area", area);
                              ("fgco2_global", g)]%string)
    end /\
    exists fg,
      flux_field r = Some fg /\
      dims fg = dims flux /\
      forall c, item fg c = item flux c /\ view fg c = view flux c.
Proof.
  intros H. apply flux_bulk_inv in H. destruct H as (flux & Hflux & Hasm).
  exists flux. split; [exact Hflux |]. split.
  - destruct (is_dataarray flux) eqn:Hf.
    + destruct (assemble_composite _ flux Hf Hasm)
        as (area & p & p365 & s & _ & _ & _ & _ & _ & ->).
      split; [reflexivity |]. eauto.
    + rewrite (assemble_plain _ flux Hf) in Hasm. injection Hasm as <-.
      reflexivity.
  - destruct (assemble_flux_field flux Hasm)
      as (fg & Hfg & _ & Hd & Hi & _).
    exists fg. split; [exact Hfg |]. split; [exact Hd |].
    intros c. unfold view. rewrite Hd, Hi. split; reflexivity.
Qed.

End FluxBulkFacts.

(* ================================================================== *)
(** * Dictionaries, and when assembly succeeds *)

Lemma dict_get_set_same {V : Type} (k : string) (v : V)
  (d : list (string * V)) :
  dict_get k (dict_set k v d) = Some v.
Proof.
  induction d as [| [k' v'] d IH]; simpl.
  - rewrite String.eqb_refl. reflexivity.
  - destruct (String.eqb k k') eqn:E; simpl.
    + rewrite String.eqb_refl. reflexivity.
    + rewrite E. exact IH.
Qed.

Lemma dict_get_set_other {V : Type} (k k' : string) (v : V)
  (d : list (string * V)) :
  k <> k' -> dict_get k (dict_set k' v d) = dict_get k d.
Proof.
  intros N. apply String.eqb_neq in N.
  induction d as [| [k0 v0] d IH]; simpl.
  - rewrite N. reflexivity.
  - destruct (String.eqb k' k0) eqn:E; simpl.
    + apply String.eqb_eq in E. subst k0. rewrite N. reflexivity.
    + destruct (String.eqb k k0); [reflexivity | exact IH].
Qed.

Lemma units_of_fgco2 {F : Type} (a : array F) :
  dict_get "units" (attrs (assign_attrs a fgco2_attrs)) = Some "gC/m2/day"%string.
Proof.
  unfold assign_attrs, fgco2_attrs, dict_update. simpl.
  rewrite dict_get_set_other by discriminate.
  apply dict_get_set_same.
Qed.

Lemma units_of_fgco2_global {F : Type} (a : array F) :
  dict_get "units" (attrs (assign_attrs a fgco2_global_attrs))
  = Some "gC/Yr"%string.
Proof.
  unfold assign_attrs, fgco2_global_attrs, dict_update. simpl.
  rewrite dict_get_set_other by discriminate.
  apply dict_get_set_same.
Qed.

Lemma size_in_In (ds : dims_t) (d : dim) (n : nat) :
  size_in ds d = Some n -> In (d, n) ds.
Proof.
  induction ds as [| [e k] ds IH]; simpl; [discriminate |].
  destruct (dim_eqb d e) eqn:E.
  - apply dim_eqb_eq in E. intros [= ->]. left. congruence.
  - intros H. right. exact (IH H).
Qed.

Lemma NoDup_size_in (ds : dims_t) (d : dim) (n : nat) :
  NoDup (map fst ds) -> In (d, n) ds -> size_in ds d = Some n.
Proof.
  induction ds as [| [e k] ds IH]; simpl; [contradiction |].
  intros ND [H | H].
  - injection H as -> ->. rewrite dim_eqb_refl. reflexivity.
  - inversion ND as [| x l Hx ND' E]. subst.
    destruct (dim_eqb d e) eqn:E.
    + apply dim_eqb_eq in E. subst e. exfalso. apply Hx.
      change d with (fst (d, n)). apply in_map. exact H.
    + exact (IH ND' H).
Qed.

Lemma merge_into_agree (sa sb : bool) (da db : dims_t) :
  (forall d k m, In (d, k) da -> size_in db d = Some m -> m = k) ->
  merge_into sa sb da db = Some da.
Proof.
  induction da as [| [d k] da IH]; simpl; intros H; [reflexivity |].
  rewrite IH by (intros; eapply H; eauto).
  destruct (size_in db d) as [m |] eqn:E; [| reflexivity].
  rewrite (H d k m (or_introl eq_refl) E), merge_size_same. reflexivity.
Qed.

Lemma conflicting_agree (known new : dims_t) :
  (forall d k n, In (d, k) new -> size_in known d = Some n -> n = k) ->
  conflicting known new = false.
Proof.
  induction new as [| [d k] new IH]; simpl; intros H; [reflexivity |].
  rewrite IH by (intros; eapply H; eauto).
  destruct (size_in known d) as [n |] eqn:E; [| reflexivity].
  rewrite (H d k n (or_introl eq_refl) E), Nat.eqb_refl. reflexivity.
Qed.

Lemma filter_none {A : Type} (g : A -> bool) (l : list A) :
  (forall x, In x l -> g x = false) -> filter g l = [].
Proof.
  induction l as [| x l IH]; simpl; intros H; [reflexivity |].
  rewrite (H x (or_introl eq_refl)). apply IH. intros; apply H; auto.
Qed.

Section AssembleOk.

Context {F : Type} `{NumF : Number F}.

Variable get_area_from_dataset : array F -> result (array F).

(** With such an answer, a DataArray flux is assembled into a composite. *)
Lemma assemble_composite_ok (flux area : array F) :
  is_dataarray flux = true ->
  NoDup (map fst (dims flux)) ->
  get_area_from_dataset flux = Ok area ->
  area_matches flux area ->
  exists g,
    assemble get_area_from_dataset flux =
    Ok (Composite [("fgco2", assign_attrs flux fgco2_attrs);
                   ("area", area);
                   ("fgco2_global", g)]%string).
Proof.
  intros Hf ND HA (Hda & n & m & Hd & Hlat & Hlon).
  assert (Agree : forall d k x, In (d, k) (dims flux) ->
                                size_in (dims area) d = Some x -> x = k).
  { intros d k x Hin Hs. apply (NoDup_size_in _ _ _ ND) in Hin.
    rewrite Hd in Hs. simpl in Hs.
    destruct (dim_eqb d (Name "lat")) eqn:E1.
    - apply dim_eqb_eq in E1. subst d. congruence.
    - destruct (dim_eqb d (Name "lon")) eqn:E2; [| discriminate].
      apply dim_eqb_eq in E2. subst d. congruence. }
  assert (Lf : labelled flux = true)
    by (unfold labelled; rewrite Hf; reflexivity).
  assert (La : labelled area = true)
    by (unfold labelled; rewrite Hda; reflexivity).
  assert (HP : mul flux area =
               Ok {| is_dataarray := true; dims := dims flux;
                     item := fun c => fmul (view flux c) (view area c);
                     attrs := [] |}).
  { unfold mul. rewrite binop_unbound
      by (apply needs_binding_labelled; assumption).
    unfold broadcast_dims. rewrite merge_into_agree by exact Agree.
    rewrite filter_none.
    - simpl. rewrite app_nil_r, Hf. reflexivity.
    - intros [d k] Hin. rewrite Hd in Hin. unfold has_dim. simpl in *.
      destruct Hin as [E | [E | []]]; injection E as <- <-.
      + rewrite Hlat. reflexivity.
      + rewrite Hlon. reflexivity. }
  unfold assemble. rewrite Hf, HA. simpl.
  unfold setitem at 1. simpl. rewrite Hf, conflicting_nil. simpl.
  unfold setitem at 1. simpl. rewrite Hda. simpl.
  rewrite conflicting_agree.
  2:{ intros d k x Hin Hs. rewrite app_nil_r in Hs.
      apply size_in_In in Hs. symmetry. eapply Agree; [exact Hs |].
      rewrite Hd in Hin |- *. simpl in Hin |- *.
      destruct Hin as [E | [E | []]]; injection E as <- <-; simpl.
      - reflexivity.
      - reflexivity. }
  simpl. rewrite HP. simpl. unfold mul. rewrite binop_scalar_r. simpl.
  unfold sum. simpl. rewrite Hlat, Hlon. simpl.
  unfold setitem. simpl.
  rewrite conflicting_agree.
  - eexists. reflexivity.
  - intros d k x Hin Hs. rewrite app_nil_r in Hs.
    unfold kept_dims in Hin. apply filter_In in Hin. destruct Hin as [Hin _].
    rewrite size_in_app in Hs.
    apply (NoDup_size_in _ _ _ ND) in Hin. rewrite Hin in Hs. congruence.
Qed.

End AssembleOk.

(* ================================================================== *)
(** * Which variant is returned *)

Section VariantFacts.

Context {F : Type} `{NumF : Number F}.

Variable solubility_weiss1974 :
  array F -> array F -> array F -> result (array F).
Variable get_area_from_dataset : array F -> result (array F).

Lemma world_has_dim (W : array F -> bool) (HW : world W)
  (f : F -> F -> F) (a b r : array F) :
  W a = true -> W b = true -> binop f a b = Ok r ->
  forall d, has_dim (dims r) d = has_dim (dims a) d || has_dim (dims b) d.
Proof.
  intros Ha Hb H d.
  eapply broadcast_dims_has.
  apply (@binop_dims_unbound F f a b r).
  - exact (@world_unbound F W HW b a Hb Ha).
  - exact (@world_unbound F W HW a b Ha Hb).
  - exact H.
Qed.

(** The dimensions of the flux are those of the four operands of line 75. *)
Lemma CO2flux_bulk_has_dim
  (temp_C salt pCO2_sea_uatm pCO2_air_uatm pres_hPa kw_cmhr flux : array F) :
  CO2flux_bulk solubility_weiss1974 temp_C salt pCO2_sea_uatm pCO2_air_uatm
               pres_hPa kw_cmhr = Ok flux ->
  exists pres_atm temp_K K0,
    div pres_hPa (scalar (lit 1013.25%Q)) = Ok pres_atm /\
    add temp_C (scalar (lit 273.15%Q)) = Ok temp_K /\
    solubility_weiss1974 salt temp_K pres_atm = Ok K0 /\
    (unmixed [kw_cmhr; K0; pCO2_sea_uatm; pCO2_air_uatm] = true ->
     forall d,
       has_dim (dims flux) d =
       has_dim (dims kw_cmhr) d || has_dim (dims K0) d
       || (has_dim (dims pCO2_sea_uatm) d
           || has_dim (dims pCO2_air_uatm) d)).
Proof.
  intros H. apply CO2flux_bulk_steps in H.
  destruct H as (pres_atm & temp_K & pCO2sea & pCO2air & K0 & kw & t1 & dp
                 & t2 & E1 & E2 & E3 & E4 & E5 & E6 & E7 & E8 & E9 & E10).
  exists pres_atm, temp_K, K0.
  split; [exact E1 |]. split; [exact E2 |]. split; [exact E5 |].
  intros U d. apply unmixed_cases in U. destruct U as (W & HW & Hall).
  simpl in Hall. rewrite !andb_true_iff in Hall.
  destruct Hall as (Hk & HK & Hsea & Hair & _).
  unfold mul, sub in *.
  pose proof (world_scalar HW) as Hs.
  destruct (world_view HW _ _ _ Hsea (Hs _) E3) as [W3 _].
  destruct (world_view HW _ _ _ Hair (Hs _) E4) as [W4 _].
  destruct (world_view HW _ _ _ Hk (Hs _) E6) as [W6 _].
  destruct (world_view HW _ _ _ W6 HK E7) as [W7 _].
  destruct (world_view HW _ _ _ W3 W4 E8) as [W8 _].
  destruct (world_view HW _ _ _ W7 W8 E9) as [W9 _].
  rewrite (world_has_dim HW _ _ _ W9 (Hs _) E10),
    (world_has_dim HW _ _ _ W7 W8 E9),
    (world_has_dim HW _ _ _ W3 W4 E8),
    (world_has_dim HW _ _ _ W6 HK E7),
    (world_has_dim HW _ _ _ Hk (Hs _) E6),
    (world_has_dim HW _ _ _ Hair (Hs _) E4),
    (world_has_dim HW _ _ _ Hsea (Hs _) E3).
  unfold has_dim. simpl. rewrite !orb_false_r. reflexivity.
Qed.

Lemma flux_bulk_assemble
  (temp_C salt pCO2_sea_uatm pCO2_air_uatm pres_hPa kw_cmhr flux : array F) :
  CO2flux_bulk solubility_weiss1974 temp_C salt pCO2_sea_uatm pCO2_air_uatm
               pres_hPa kw_cmhr = Ok flux ->
  flux_bulk solubility_weiss1974 get_area_from_dataset temp_C salt
            pCO2_sea_uatm pCO2_air_uatm pres_hPa kw_cmhr
  = assemble get_area_from_dataset flux.
Proof. unfold flux_bulk. intros ->. reflexivity. Qed.

(** A DataArray flux without 'lat' or without 'lon': if the area only has
    dimensions the flux has, the reduction cannot be carried out. *)
Lemma assemble_missing_lat_lon (flux : array F) :
  is_dataarray flux = true ->
  carries_spatial_labels flux = false ->
  (forall area, get_area_from_dataset flux = Ok area ->
     forall d, has_dim (dims area) d = true -> has_dim (dims flux) d = true) ->
  (exists e, assemble get_area_from_dataset flux = Err e) /\
  (forall area p p365,
     get_area_from_dataset flux = Ok area -> labelled area = true ->
     mul flux area = Ok p -> mul p (scalar (of_int 365)) = Ok p365 ->
     exists e, sum p365 ["lat"; "lon"]%string = Err e).
Proof.
  intros Hf Hs Hsub.
  assert (R : forall area p p365,
     get_area_from_dataset flux = Ok area -> labelled area = true ->
     mul flux area = Ok p -> mul p (scalar (of_int 365)) = Ok p365 ->
     exists e, sum p365 ["lat"; "lon"]%string = Err e).
  { intros area p p365 HA La Hp Hp'.
    apply sum_lat_lon_missing.
    rewrite !(fun d => @product_has_dim F NumF flux area p p365 d
                                        Hf La Hp Hp').
    unfold carries_spatial_labels in Hs.
    specialize (Hsub area HA).
    destruct (has_dim (dims area) (Name "lat")) eqn:A1;
      destruct (has_dim (dims area) (Name "lon")) eqn:A2;
      try rewrite (Hsub _ A1) in *; try rewrite (Hsub _ A2) in *;
      simpl in *; try discriminate;
      destruct (has_dim (dims flux) (Name "lat"));
      destruct (has_dim (dims flux) (Name "lon"));
      simpl in *; try discriminate; reflexivity. }
  split; [| exact R].
  destruct (assemble get_area_from_dataset flux) as [r | e] eqn:EA;
    [| exists e; reflexivity].
  destruct (assemble_composite _ flux Hf EA)
    as (area & p & p365 & s & HA & La & Hp & Hp' & Hsum & _).
  destruct (R area p p365 HA La Hp Hp') as [e He]. congruence.
Qed.

(** C9.  The branch is chosen by the type of the flux alone: a bare field
    comes back exactly when the flux is not a DataArray, a composite only
    when it is.  The reduction is over the two names 'lat' and 'lon': a
    DataArray flux that lacks one of them, with an area that only has
    dimensions of the flux, makes the reduction fail and [flux_bulk] raise,
    and never yields the bare field. *)
Theorem branch_by_type_lat_lon
  (temp_C salt pCO2_sea_uatm pCO2_air_uatm pres_hPa kw_cmhr flux : array F) :
  CO2flux_bulk solubility_weiss1974 temp_C salt pCO2_sea_uatm pCO2_air_uatm
               pres_hPa kw_cmhr = Ok flux ->
  ((exists f, flux_bulk solubility_weiss1974 get_area_from_dataset temp_C salt
                pCO2_sea_uatm pCO2_air_uatm pres_hPa kw_cmhr = Ok (Plain f))
   <-> is_dataarray flux = false) /\
  (forall ds, flux_bulk solubility_weiss1974 get_area_from_dataset temp_C salt
                pCO2_sea_uatm pCO2_air_uatm pres_hPa kw_cmhr
              = Ok (Composite ds) -> is_dataarray flux = true) /\
  (is_dataarray flux = true ->
   carries_spatial_labels flux = false ->
   (forall area, get_area_from_dataset flux = Ok area ->
      forall d, has_dim (dims area) d = true ->
                has_dim (dims flux) d = true) ->
   (exists e, flux_bulk solubility_weiss1974 get_area_from_dataset temp_C salt
                pCO2_sea_uatm pCO2_air_uatm pres_hPa kw_cmhr = Err e) /\
   (forall area p p365,
      get_area_from_dataset flux = Ok area -> labelled area = true ->
      mul flux area = Ok p -> mul p (scalar (of_int 365)) = Ok p365 ->
      exists e, sum p365 ["lat"; "lon"]%string = Err e)).
Proof.
  intros H. rewrite (flux_bulk_assemble _ _ _ _ _ _ H).
  split; [| split].
  - split.
    + intros [f Hp]. destruct (is_dataarray flux) eqn:Hf; [| reflexivity].
      exfalso. exact (assemble_labelled_not_plain _ flux Hf Hp).
    + intros Hf. exists flux. apply assemble_plain. exact Hf.
  - intros ds Hc. destruct (is_dataarray flux) eqn:Hf; [reflexivity |].
    rewrite (assemble_plain _ flux Hf) in Hc. discriminate.
  - intros Hf Hs Hsub. apply assemble_missing_lat_lon; assumption.
Qed.

(** C2, as the code has it.  The variant is chosen by whether the flux is
    an xarray DataArray.  If it is not, the flux comes back unchanged.  If
    it is, the bare field never comes back; a returned composite holds
    exactly [fgco2] (the flux with units "gC/m2/day"), [area] (the answer
    of the area provider called on the flux) and [fgco2_global] (units
    "gC/Yr"), in this order; and a composite is returned when the
    dimensions of the flux are distinct and the provider answers with a
    DataArray over ('lat', 'lon') of the flux's sizes. *)
Theorem variant_by_isinstance
  (temp_C salt pCO2_sea_uatm pCO2_air_uatm pres_hPa kw_cmhr flux : array F) :
  CO2flux_bulk solubility_weiss1974 temp_C salt pCO2_sea_uatm pCO2_air_uatm
               pres_hPa kw_cmhr = Ok flux ->
  (is_dataarray flux = false ->
   flux_bulk solubility_weiss1974 get_area_from_dataset temp_C salt
             pCO2_sea_uatm pCO2_air_uatm pres_hPa kw_cmhr = Ok (Plain flux)) /\
  (forall f, flux_bulk solubility_weiss1974 get_area_from_dataset temp_C salt
               pCO2_sea_uatm pCO2_air_uatm pres_hPa kw_cmhr = Ok (Plain f) ->
             f = flux /\ is_dataarray flux = false) /\
  (forall ds, flux_bulk solubility_weiss1974 get_area_from_dataset temp_C salt
                pCO2_sea_uatm pCO2_air_uatm pres_hPa kw_cmhr
              = Ok (Composite ds) ->
     is_dataarray flux = true /\
     exists area g,
       get_area_from_dataset flux = Ok area /\
       ds = [("fgco2", assign_attrs flux fgco2_attrs);
             ("area", area);
             ("fgco2_global", g)]%string /\
       dict_get "units" (attrs (assign_attrs flux fgco2_attrs))
         = Some "gC/m2/day"%string /\
       dict_get "units" (attrs g) = Some "gC/Yr"%string) /\
  (is_dataarray flux = true ->
   NoDup (map fst (dims flux)) ->
   forall area, get_area_from_dataset flux = Ok area ->
                area_matches flux area ->
   exists ds, flux_bulk solubility_weiss1974 get_area_from_dataset temp_C salt
                pCO2_sea_uatm pCO2_air_uatm pres_hPa kw_cmhr
              = Ok (Composite ds)).
Proof.
  intros H. rewrite (flux_bulk_assemble _ _ _ _ _ _ H).
  split; [| split; [| split]].
  - apply assemble_plain.
  - intros f Hp. destruct (is_dataarray flux) eqn:Hf.
    + exfalso. exact (assemble_labelled_not_plain _ flux Hf Hp).
    + rewrite (assemble_plain _ flux Hf) in Hp. injection Hp as <-. auto.
  - intros ds Hc. destruct (is_dataarray flux) eqn:Hf.
    + split; [reflexivity |].
      destruct (assemble_composite _ flux Hf Hc)
        as (area & p & p365 & s & HA & _ & _ & _ & _ & E).
      injection E as ->.
      exists area, (assign_attrs s fgco2_global_attrs).
      split; [exact HA |]. split; [reflexivity |].
      split; [apply units_of_fgco2 | apply units_of_fgco2_global].
    + rewrite (assemble_plain _ flux Hf) in Hc. discriminate.
  - intros Hf ND area HA HM.
    destruct (assemble_composite_ok _ Hf ND HA HM) as [g Hg].
    eexists. exact Hg.
Qed.

End VariantFacts.

(* ================================================================== *)
(** * Numpy operands that meet a DataArray *)

Lemma distinct_NoDup (l : list dim) : distinct l = true -> NoDup l.
Proof.
  induction l as [| d l IH]; simpl; intros H; constructor.
  - apply andb_true_iff in H. destruct H as [H _].
    apply negb_true_iff in H. intros Hin.
    assert (E : existsb (dim_eqb d) l = true).
    { apply existsb_exists. exists d. split; [exact Hin | apply dim_eqb_refl]. }
    congruence.
  - apply IH. apply andb_true_iff in H. exact (proj2 H).
Qed.

Lemma In_has_dim (ds : dims_t) (d : dim) (n : nat) :
  In (d, n) ds -> has_dim ds d = true.
Proof.
  unfold has_dim. induction ds as [| [e k] ds IH]; simpl; [contradiction |].
  intros [H | H].
  - injection H as -> ->. rewrite dim_eqb_refl. reflexivity.
  - destruct (dim_eqb d e); [reflexivity | exact (IH H)].
Qed.

Lemma has_dim_In (ds : dims_t) (d : dim) :
  has_dim ds d = true -> exists n, In (d, n) ds.
Proof.
  unfold has_dim. destruct (size_in ds d) as [n |] eqn:E; [| discriminate].
  intros _. exists n. apply size_in_In. exact E.
Qed.

Lemma axes_only_size_in (ds : dims_t) (d : dim) (n : nat) :
  axes_only ds -> size_in ds d = Some n -> exists k, d = Axis k.
Proof.
  intros A H. apply size_in_In in H. specialize (A _ H). simpl in A.
  destruct d as [k | s]; [eauto | discriminate].
Qed.

(** The size of a bound axis. *)
Lemma size_in_bind_dims (names : list dim) (ds ds' : dims_t) (k : nat)
  (nm : dim) (n : nat) :
  NoDup names -> axes_only ds -> bind_dims names ds = Some ds' ->
  nth_error names k = Some nm -> size_in ds (Axis k) = Some n ->
  size_in ds' nm = Some n.
Proof.
  intros ND. revert ds'.
  induction ds as [| [d m] ds IH]; simpl; intros ds' A B Hk Hs;
    [discriminate |].
  assert (A' : axes_only ds) by (intros p Hp; apply A; right; exact Hp).
  pose proof (A (d, m) (or_introl eq_refl)) as Ad. simpl in Ad.
  destruct d as [j | s]; [| discriminate].
  destruct (nth_error names j) as [nm' |] eqn:Hj; [| discriminate].
  destruct (bind_dims names ds) as [rest |]; [| discriminate].
  injection B as <-. simpl.
  destruct (Nat.eqb k j) eqn:E.
  - apply Nat.eqb_eq in E. subst j.
    assert (nm' = nm) by congruence. subst nm'.
    rewrite dim_eqb_refl. exact Hs.
  - assert (N : dim_eqb nm nm' = false).
    { apply dim_eqb_neq. intros ->. apply Nat.eqb_neq in E. apply E.
      apply (proj1 (NoDup_nth_error names) ND).
      - apply nth_error_Some. congruence.
      - congruence. }
    rewrite N. apply IH; auto.
Qed.

(** Reading a bound operand at the coordinate of the result. *)
Lemma clamp_rebind (names : list dim) (dx ds ds' : dims_t) (c : coord) :
  NoDup names -> axes_only ds -> bind_dims names ds = Some ds' ->
  (forall d n, size_in dx d = Some n -> n <> 1 -> size_in ds d = Some n) ->
  clamp dx (rebind names (clamp ds' c)) = clamp dx (rebind names c).
Proof.
  intros ND A B H. apply functional_extensionality. intros d.
  unfold clamp at 1 3.
  destruct (size_in dx d) as [n |] eqn:E; [| reflexivity].
  destruct (Nat.eqb n 1) eqn:N; [reflexivity |].
  apply Nat.eqb_neq in N. pose proof (H d n E N) as Hs.
  destruct (axes_only_size_in _ A Hs) as [k ->].
  unfold rebind.
  destruct (nth_error names k) as [nm |] eqn:Hk; [| reflexivity].
  unfold clamp. rewrite (size_in_bind_dims _ ND A B Hk Hs).
  apply Nat.eqb_neq in N. rewrite N. reflexivity.
Qed.

Section MixedFacts.

Context {F : Type} `{NumF : Number F}.

Lemma well_formed_tidy (a : array F) : well_formed a = true -> tidy a.
Proof.
  unfold well_formed, tidy. intros H. apply andb_true_iff in H.
  destruct H as [D A]. split; [| intros Hp p Hin].
  - apply distinct_NoDup. exact D.
  - rewrite forallb_forall in A. specialize (A p Hin).
    rewrite Hp in A. simpl in A. destruct (is_axis (fst p)); [reflexivity | discriminate].
Qed.

Lemma tidy_scalar (x : F) : tidy (scalar x).
Proof. split; [constructor | intros _ p []]. Qed.

Lemma view_bound (ref x x' : array F) :
  needs_binding ref x = true -> bind_axes ref x = Ok x' ->
  NoDup (map fst (dims ref)) -> axes_only (dims x) ->
  forall c, view x' c = view x (rebind (dim_names ref) c).
Proof.
  unfold bind_axes. intros N B ND A c. rewrite N in B.
  destruct (bind_dims (rev (map fst (dims ref))) (dims x)) as [ds |] eqn:E;
    [| discriminate].
  injection B as <-. unfold view at 1. simpl. unfold view, dim_names.
  f_equal. apply clamp_rebind with (ds := dims x); auto.
  apply NoDup_rev. exact ND.
Qed.

Lemma needs_binding_plain_operand (ref x : array F) :
  needs_binding ref x = true -> is_dataarray ref = true /\
  is_dataarray x = false /\ dims x <> [].
Proof.
  unfold needs_binding. intros H.
  apply andb_true_iff in H. destruct H as [H H3].
  apply andb_true_iff in H. destruct H as [H1 H2].
  apply negb_true_iff in H2. repeat split; auto.
  intros E. rewrite E in H3. discriminate.
Qed.

Lemma view_bind_axes (ref x x' : array F) :
  tidy ref -> tidy x -> bind_axes ref x = Ok x' ->
  forall c, view x' c = read_with ref x c.
Proof.
  intros [ND _] [_ A] B c. unfold read_with.
  destruct (needs_binding ref x) eqn:N.
  - pose proof (needs_binding_plain_operand _ _ N) as (_ & Px & _).
    eapply view_bound; eauto.
  - unfold bind_axes in B. rewrite N in B. injection B as <-. reflexivity.
Qed.

(** An element of the result of an operator, whatever the operands are. *)
Lemma binop_view_any (f : F -> F -> F) (a b r : array F) :
  tidy a -> tidy b -> binop f a b = Ok r ->
  forall c, view r c = f (read_with b a c) (read_with a b c).
Proof.
  intros Ta Tb H c. unfold binop in H.
  destruct (bind_axes b a) as [a' |] eqn:Ba; [| discriminate].
  destruct (bind_axes a b) as [b' |] eqn:Bb; [| discriminate].
  simpl in H.
  destruct (broadcast_dims (negb (is_dataarray a)) (negb (is_dataarray b))
                           (dims a') (dims b')) as [ds |] eqn:B;
    [| discriminate].
  simpl in H. injection H as <-. unfold view at 1. simpl.
  rewrite <- (view_bind_axes Tb Ta Ba c), <- (view_bind_axes Ta Tb Bb c).
  unfold view. f_equal; f_equal; apply clamp_compat; intros d n Hd Hn.
  - eapply broadcast_dims_l; eauto.
  - eapply broadcast_dims_r; eauto.
Qed.

End MixedFacts.

(** ** Operators keep arrays tidy *)

Lemma merge_into_names (sa sb : bool) (da db base : dims_t) :
  merge_into sa sb da db = Some base -> map fst base = map fst da.
Proof.
  revert base. induction da as [| [d n] da IH]; simpl; intros base H.
  - injection H as <-. reflexivity.
  - destruct (merge_into sa sb da db) as [rest |]; [| discriminate].
    specialize (IH rest eq_refl).
    destruct (size_in db d) as [m |].
    + destruct (merge_size sa sb n m); [| discriminate].
      injection H as <-. simpl. f_equal. exact IH.
    + injection H as <-. simpl. f_equal. exact IH.
Qed.

Lemma map_fst_filter (g : dim -> bool) (l : dims_t) :
  map fst (filter (fun p => g (fst p)) l) = filter g (map fst l).
Proof.
  induction l as [| [d n] l IH]; simpl; [reflexivity |].
  destruct (g d); simpl; rewrite IH; reflexivity.
Qed.

Lemma broadcast_dims_NoDup (sa sb : bool) (da db ds : dims_t) :
  NoDup (map fst da) -> NoDup (map fst db) ->
  broadcast_dims sa sb da db = Ok ds -> NoDup (map fst ds).
Proof.
  unfold broadcast_dims. intros Na Nb H.
  destruct (merge_into sa sb da db) as [base |] eqn:M; [| discriminate].
  injection H as <-. rewrite map_app, (merge_into_names _ _ _ _ M).
  rewrite (map_fst_filter (fun d => negb (has_dim da d))).
  apply NoDup_app; [exact Na | apply NoDup_filter; exact Nb |].
  intros d Hin Hf. apply filter_In in Hf. destruct Hf as [_ Hf].
  apply negb_true_iff in Hf.
  apply in_map_iff in Hin. destruct Hin as ([d' n] & E & Hin).
  simpl in E. subst d'. rewrite (In_has_dim _ _ _ Hin) in Hf. discriminate.
Qed.

Lemma bind_dims_In (names : list dim) (ds ds' : dims_t) (nm : dim) :
  axes_only ds -> bind_dims names ds = Some ds' -> In nm (map fst ds') ->
  exists k, In (Axis k) (map fst ds) /\ nth_error names k = Some nm.
Proof.
  revert ds'. induction ds as [| [d m] ds IH]; simpl; intros ds' A B Hin.
  - injection B as <-. contradiction.
  - assert (A' : axes_only ds) by (intros p Hp; apply A; right; exact Hp).
    pose proof (A (d, m) (or_introl eq_refl)) as Ad. simpl in Ad.
    destruct d as [j | s]; [| discriminate].
    destruct (nth_error names j) as [nm' |] eqn:Hj; [| discriminate].
    destruct (bind_dims names ds) as [rest |]; [| discriminate].
    injection B as <-. simpl in Hin. destruct Hin as [-> | Hin].
    + exists j. auto.
    + destruct (IH rest A' eq_refl Hin) as (k & Hk & Hn). exists k. auto.
Qed.

Lemma bind_dims_NoDup (names : list dim) (ds ds' : dims_t) :
  NoDup names -> axes_only ds -> NoDup (map fst ds) ->
  bind_dims names ds = Some ds' -> NoDup (map fst ds').
Proof.
  intros ND. revert ds'.
  induction ds as [| [d m] ds IH]; simpl; intros ds' A N B.
  - injection B as <-. constructor.
  - assert (A' : axes_only ds) by (intros p Hp; apply A; right; exact Hp).
    pose proof (A (d, m) (or_introl eq_refl)) as Ad. simpl in Ad.
    destruct d as [j | s]; [| discriminate].
    destruct (nth_error names j) as [nm' |] eqn:Hj; [| discriminate].
    destruct (bind_dims names ds) as [rest |] eqn:R; [| discriminate].
    injection B as <-. simpl. inversion N as [| x l Hx N' E]. subst.
    constructor; [| apply IH; auto].
    intros Hin. destruct (@bind_dims_In names ds rest nm' A' R Hin) as (k & Hk & Hn).
    assert (k = j).
    { apply (proj1 (NoDup_nth_error names) ND).
      - apply nth_error_Some. congruence.
      - congruence. }
    subst k. contradiction.
Qed.

Section TidyFacts.

Context {F : Type} `{NumF : Number F}.

Lemma bind_axes_NoDup (ref x x' : array F) :
  tidy ref -> tidy x -> bind_axes ref x = Ok x' ->
  NoDup (map fst (dims x')).
Proof.
  intros [Nr _] [Nx Ax] B. unfold bind_axes in B.
  destruct (needs_binding ref x) eqn:N.
  - pose proof (needs_binding_plain_operand _ _ N) as (_ & Px & _).
    destruct (bind_dims (rev (map fst (dims ref))) (dims x)) as [ds |] eqn:E;
      [| discriminate].
    injection B as <-. simpl.
    apply (@bind_dims_NoDup (rev (map fst (dims ref))) (dims x) ds);
      auto. apply NoDup_rev. exact Nr.
  - injection B as <-. exact Nx.
Qed.

Lemma binop_tidy (f : F -> F -> F) (a b r : array F) :
  tidy a -> tidy b -> binop f a b = Ok r -> tidy r.
Proof.
  intros Ta Tb H. pose proof (binop_is_dataarray f a b H) as T.
  unfold binop in H.
  destruct (bind_axes b a) as [a' |] eqn:Ba; [| discriminate].
  destruct (bind_axes a b) as [b' |] eqn:Bb; [| discriminate].
  simpl in H.
  destruct (broadcast_dims (negb (is_dataarray a)) (negb (is_dataarray b))
                           (dims a') (dims b')) as [ds |] eqn:B;
    [| discriminate].
  simpl in H. injection H as <-. simpl in T. split; simpl.
  - eapply broadcast_dims_NoDup; [| | exact B].
    + exact (bind_axes_NoDup Tb Ta Ba).
    + exact (bind_axes_NoDup Ta Tb Bb).
  - intros P. apply orb_false_iff in P. destruct P as [Pa Pb].
    unfold bind_axes, needs_binding in Ba, Bb.
    rewrite Pa in Bb. rewrite Pb in Ba. simpl in Ba, Bb.
    injection Ba as <-. injection Bb as <-.
    intros [d n] Hin. simpl.
    pose proof (broadcast_dims_has _ _ _ _ d B) as Hd.
    rewrite (In_has_dim _ _ _ Hin) in Hd. symmetry in Hd.
    apply orb_true_iff in Hd. destruct Hd as [Hd | Hd];
      apply has_dim_In in Hd; destruct Hd as [k Hk].
    + exact (proj2 Ta Pa _ Hk).
    + exact (proj2 Tb Pb _ Hk).
Qed.

Lemma binop_scalar_tidy (f : F -> F -> F) (a r : array F) (x : F) :
  tidy a -> binop f a (scalar x) = Ok r -> tidy r.
Proof. intros Ta. apply binop_tidy; [exact Ta | apply tidy_scalar]. Qed.

(** The result of plain operands has every axis its operands have. *)
Lemma binop_plain_nonscalar_l (f : F -> F -> F) (a b r : array F) :
  plain a = true -> plain b = true -> binop f a b = Ok r ->
  dims a <> [] -> dims r <> [].
Proof.
  intros Pa Pb H Da E.
  pose proof (binop_dims_unbound f a b (needs_binding_plain b a Pb)
                (needs_binding_plain a b Pa) H) as B.
  destruct (dims a) as [| [d n] da] eqn:Ea; [contradiction |].
  pose proof (broadcast_dims_has _ _ _ _ d B) as Hd.
  rewrite E in Hd. unfold has_dim in Hd. simpl in Hd.
  rewrite dim_eqb_refl in Hd. discriminate.
Qed.

Lemma binop_plain_nonscalar_r (f : F -> F -> F) (a b r : array F) :
  plain a = true -> plain b = true -> binop f a b = Ok r ->
  dims b <> [] -> dims r <> [].
Proof.
  intros Pa Pb H Db E.
  pose proof (binop_dims_unbound f a b (needs_binding_plain b a Pb)
                (needs_binding_plain a b Pa) H) as B.
  destruct (dims b) as [| [d n] db] eqn:Eb; [contradiction |].
  pose proof (broadcast_dims_has _ _ _ _ d B) as Hd.
  rewrite E in Hd. unfold has_dim in Hd. simpl in Hd.
  rewrite dim_eqb_refl, orb_true_r in Hd. discriminate.
Qed.

Lemma view_no_dims (x : array F) (c c' : coord) :
  dims x = [] -> view x c = view x c'.
Proof. unfold view. intros ->. reflexivity. Qed.

Lemma needs_binding_true (ref x : array F) :
  is_dataarray ref = true -> is_dataarray x = false -> dims x <> [] ->
  needs_binding ref x = true.
Proof.
  unfold needs_binding. intros -> -> D.
  destruct (dims x); [contradiction | reflexivity].
Qed.

(** What the operands of an operator contribute to an element of a later
    result, when the result of the operator meets [y]. *)
Lemma read_with_binop (f : F -> F -> F) (a b t y : array F) :
  tidy a -> tidy b -> binop f a b = Ok t ->
  forall c, read_with y t c =
            f (aligned b (Ok y) a c) (aligned a (Ok y) b c).
Proof.
  intros Ta Tb H c. unfold read_with.
  destruct (needs_binding y t) eqn:N.
  - destruct (needs_binding_plain_operand _ _ N) as (Hy & Pt & Dt).
    pose proof (binop_is_dataarray f a b H) as T. rewrite Pt in T.
    symmetry in T. apply orb_false_iff in T. destruct T as [Pa Pb].
    assert (Qa : plain a = true) by (unfold plain; rewrite Pa; reflexivity).
    assert (Qb : plain b = true) by (unfold plain; rewrite Pb; reflexivity).
    rewrite (binop_view_plain f a b Qa Qb H).
    unfold aligned.
    rewrite (needs_binding_plain b a Qb), (needs_binding_plain a b Qa).
    f_equal.
    + destruct (needs_binding y a) eqn:Na; [reflexivity |].
      apply view_no_dims.
      destruct (dims a) eqn:Da; [reflexivity |].
      rewrite needs_binding_true in Na; try assumption; try discriminate.
      rewrite Da. discriminate.
    + destruct (needs_binding y b) eqn:Nb; [reflexivity |].
      apply view_no_dims.
      destruct (dims b) eqn:Db; [reflexivity |].
      rewrite needs_binding_true in Nb; try assumption; try discriminate.
      rewrite Db. discriminate.
  - rewrite (binop_view_any f Ta Tb H). unfold read_with, aligned. f_equal.
    + destruct (needs_binding b a) eqn:Nba; [reflexivity |].
      destruct (needs_binding y a) eqn:Nya; [| reflexivity].
      exfalso.
      destruct (needs_binding_plain_operand _ _ Nya) as (Hy & Pa & Da).
      assert (Pb : is_dataarray b = false).
      { destruct (is_dataarray b) eqn:E; [| reflexivity].
        rewrite needs_binding_true in Nba; auto. }
      assert (Qa : plain a = true) by (unfold plain; rewrite Pa; reflexivity).
      assert (Qb : plain b = true) by (unfold plain; rewrite Pb; reflexivity).
      rewrite needs_binding_true in N; [discriminate | exact Hy | |].
      * rewrite (binop_is_dataarray f a b H), Pa, Pb. reflexivity.
      * exact (@binop_plain_nonscalar_l f a b t Qa Qb H Da).
    + destruct (needs_binding a b) eqn:Nab; [reflexivity |].
      destruct (needs_binding y b) eqn:Nyb; [| reflexivity].
      exfalso.
      destruct (needs_binding_plain_operand _ _ Nyb) as (Hy & Pb & Db).
      assert (Pa : is_dataarray a = false).
      { destruct (is_dataarray a) eqn:E; [| reflexivity].
        rewrite needs_binding_true in Nab; auto. }
      assert (Qa : plain a = true) by (unfold plain; rewrite Pa; reflexivity).
      assert (Qb : plain b = true) by (unfold plain; rewrite Pb; reflexivity).
      rewrite needs_binding_true in N; [discriminate | exact Hy | |].
      * rewrite (binop_is_dataarray f a b H), Pa, Pb. reflexivity.
      * exact (@binop_plain_nonscalar_r f a b t Qa Qb H Db).
Qed.

End TidyFacts.

(** ** Types and shapes do not depend on the elements *)

Section ShapeFacts.

Context {F : Type} `{NumF : Number F}.

Lemma same_shape_refl (a : array F) : same_shape a a.
Proof. split; reflexivity. Qed.

Lemma same_shape_sym (a b : array F) : same_shape a b -> same_shape b a.
Proof. intros [H1 H2]. split; congruence. Qed.

Lemma same_shape_trans (a b c : array F) :
  same_shape a b -> same_shape b c -> same_shape a c.
Proof. intros [H1 H2] [H3 H4]. split; congruence. Qed.

Lemma needs_binding_shape (ref ref' x x' : array F) :
  same_shape ref ref' -> same_shape x x' ->
  needs_binding ref' x' = needs_binding ref x.
Proof.
  intros [R1 R2] [X1 X2]. unfold needs_binding.
  rewrite R1, X1, X2. reflexivity.
Qed.

Lemma dim_names_shape (a a' : array F) :
  same_shape a a' -> dim_names a' = dim_names a.
Proof. intros [_ D]. unfold dim_names. rewrite D. reflexivity. Qed.

Lemma bind_axes_shape (ref ref' x x' : array F) :
  same_shape ref ref' -> same_shape x x' ->
  alike same_shape (bind_axes ref x) (bind_axes ref' x').
Proof.
  intros R X. unfold bind_axes.
  rewrite (needs_binding_shape R X).
  destruct R as [R1 R2], X as [X1 X2]. rewrite <- R2, <- X2.
  destruct (needs_binding ref x).
  - destruct (bind_dims (rev (map fst (dims ref))) (dims x)); simpl; auto.
    split; reflexivity.
  - simpl. split; assumption.
Qed.

(** Whether an operator raises, and the type and shape of its result,
    are decided by the types and shapes of its operands. *)
Lemma binop_shape (f g : F -> F -> F) (a a' b b' : array F) :
  same_shape a a' -> same_shape b b' ->
  alike same_shape (binop f a b) (binop g a' b').
Proof.
  intros A B. unfold binop.
  pose proof (bind_axes_shape B A) as Ha.
  pose proof (bind_axes_shape A B) as Hb.
  destruct (bind_axes b a) as [a1 |], (bind_axes b' a') as [a1' |];
    simpl in Ha; try contradiction; simpl; auto.
  destruct (bind_axes a b) as [b1 |], (bind_axes a' b') as [b1' |];
    simpl in Hb; try contradiction; simpl; auto.
  destruct A as [A1 A2], B as [B1 B2], Ha as [_ Ha], Hb as [_ Hb].
  rewrite <- A1, <- B1, <- Ha, <- Hb.
  destruct (broadcast_dims (negb (is_dataarray a)) (negb (is_dataarray b))
                           (dims a1) (dims b1)); simpl; auto.
  split; reflexivity.
Qed.

Lemma binop_scalar_shape (f : F -> F -> F) (a r : array F) (x : F) :
  binop f a (scalar x) = Ok r -> same_shape a r.
Proof.
  rewrite binop_scalar_r. intros [= <-]. split; reflexivity.
Qed.

Lemma tidy_shape (a a' : array F) : same_shape a a' -> tidy a -> tidy a'.
Proof. intros [T D] [N A]. unfold tidy. rewrite <- T, <- D. auto. Qed.

(** An operand of the same type and shape is read at the same place. *)
Lemma aligned_shape (g : F -> F) (near near' : array F)
  (far far' : result (array F)) (x x' : array F) :
  same_shape near near' -> alike same_shape far far' -> same_shape x x' ->
  (forall c, view x' c = g (view x c)) ->
  forall c, aligned near' far' x' c = g (aligned near far x c).
Proof.
  intros N Hf X V c. unfold aligned.
  rewrite (needs_binding_shape N X), (dim_names_shape N).
  destruct (needs_binding near x); [apply V |].
  destruct far as [y |], far' as [y' |]; simpl in Hf; try contradiction;
    [| apply V].
  rewrite (needs_binding_shape Hf X), (dim_names_shape Hf).
  destruct (needs_binding y x); apply V.
Qed.

(** Operands that are all plain, or all DataArrays and floats, are read
    at the coordinate of the result. *)
Lemma aligned_plain (near : array F) (far : result (array F)) (x : array F)
  (c : coord) :
  plain near = true -> (forall y, far = Ok y -> plain y = true) ->
  aligned near far x c = view x c.
Proof.
  intros Pn Pf. unfold aligned. rewrite (needs_binding_plain near x Pn).
  destruct far as [y |]; [| reflexivity].
  rewrite (needs_binding_plain y x (Pf y eq_refl)). reflexivity.
Qed.

Lemma aligned_labelled (near : array F) (far : result (array F))
  (x : array F) (c : coord) :
  labelled x = true -> aligned near far x c = view x c.
Proof.
  intros L. unfold aligned. rewrite (needs_binding_labelled near x L).
  destruct far as [y |]; [| reflexivity].
  rewrite (needs_binding_labelled y x L). reflexivity.
Qed.

End ShapeFacts.

(** ** The flux field, element by element, for every mix of operands *)

Section FluxAnyFacts.

Context {F : Type} `{NumF : Number F}.

Variable solubility_weiss1974 :
  array F -> array F -> array F -> result (array F).

Lemma CO2flux_bulk_view_any
  (temp_C salt pCO2_sea_uatm pCO2_air_uatm pres_hPa kw_cmhr flux : array F) :
  CO2flux_bulk solubility_weiss1974 temp_C salt pCO2_sea_uatm pCO2_air_uatm
               pres_hPa kw_cmhr = Ok flux ->
  exists pres_atm temp_K K0,
    div pres_hPa (scalar (lit 1013.25%Q)) = Ok pres_atm /\
    add temp_C (scalar (lit 273.15%Q)) = Ok temp_K /\
    solubility_weiss1974 salt temp_K pres_atm = Ok K0 /\
    (tidy kw_cmhr -> tidy K0 -> tidy pCO2_sea_uatm -> tidy pCO2_air_uatm ->
     forall c,
       view flux c =
       flux_elem
         (aligned K0 (sub pCO2_sea_uatm pCO2_air_uatm) kw_cmhr c)
         (aligned kw_cmhr (sub pCO2_sea_uatm pCO2_air_uatm) K0 c)
         (aligned pCO2_air_uatm (mul kw_cmhr K0) pCO2_sea_uatm c)
         (aligned pCO2_sea_uatm (mul kw_cmhr K0) pCO2_air_uatm c)).
Proof.
  intros H. apply CO2flux_bulk_steps in H.
  destruct H as (pres_atm & temp_K & pCO2sea & pCO2air & K0 & kw & t1 & dp
                 & t2 & E1 & E2 & E3 & E4 & E5 & E6 & E7 & E8 & E9 & E10).
  exists pres_atm, temp_K, K0.
  split; [exact E1 |]. split; [exact E2 |]. split; [exact E5 |].
  intros Tk TK Ts Ta c. unfold mul, sub in *.
  pose proof (binop_scalar_shape _ _ _ E3) as S3.
  pose proof (binop_scalar_shape _ _ _ E4) as S4.
  pose proof (binop_scalar_shape _ _ _ E6) as S6.
  pose proof (tidy_shape S3 Ts) as T3.
  pose proof (tidy_shape S4 Ta) as T4.
  pose proof (tidy_shape S6 Tk) as T6.
  pose proof (binop_tidy _ T6 TK E7) as T7.
  pose proof (binop_tidy _ T3 T4 E8) as T8.
  rewrite (binop_scalar_view _ _ _ E10 c).
  rewrite (binop_view_any _ T7 T8 E9 c).
  rewrite (@read_with_binop F fmul kw K0 t1 dp T6 TK E7 c).
  rewrite (@read_with_binop F fsub pCO2sea pCO2air dp t1 T3 T4 E8 c).
  assert (Fd : alike same_shape (binop fsub pCO2_sea_uatm pCO2_air_uatm)
                     (Ok dp)).
  { rewrite <- E8. apply binop_shape; assumption. }
  assert (Ft : alike same_shape (binop fmul kw_cmhr K0) (Ok t1)).
  { rewrite <- E7. apply binop_shape; [assumption | apply same_shape_refl]. }
  rewrite (@aligned_shape F (fun v => fmul v (fdiv (of_int 24) (of_int 100)))
             K0 K0 (binop fsub pCO2_sea_uatm pCO2_air_uatm) (Ok dp)
             kw_cmhr kw
             (same_shape_refl K0) Fd S6 (binop_scalar_view _ _ _ E6) c).
  rewrite (@aligned_shape F (fun v => v)
             kw_cmhr kw (binop fsub pCO2_sea_uatm pCO2_air_uatm) (Ok dp)
             K0 K0
             S6 Fd (same_shape_refl K0) (fun c => eq_refl) c).
  rewrite (@aligned_shape F (fun v => fmul v (lit 1e-6%Q))
             pCO2_air_uatm pCO2air (binop fmul kw_cmhr K0) (Ok t1)
             pCO2_sea_uatm pCO2sea
             S4 Ft S3 (binop_scalar_view _ _ _ E3) c).
  rewrite (@aligned_shape F (fun v => fmul v (lit 1e-6%Q))
             pCO2_sea_uatm pCO2sea (binop fmul kw_cmhr K0) (Ok t1)
             pCO2_air_uatm pCO2air
             S3 Ft S4 (binop_scalar_view _ _ _ E4) c).
  reflexivity.
Qed.

End FluxAnyFacts.

(** ** No statement of [flux_bulk] looks at a value *)

Section BlindFacts.

Context {F : Type} `{NumF : Number F}.

Variable solubility_weiss1974 :
  array F -> array F -> array F -> result (array F).
Variable get_area_from_dataset : array F -> result (array F).









End BlindFacts.

(** ** [flux_bulk], element by element, for every mix of operands *)

Section FluxBulkAny.

Context {F : Type} `{NumF : Number F}.

Variable solubility_weiss1974 :
  array F -> array F -> array F -> result (array F).
Variable get_area_from_dataset : array F -> result (array F).

Lemma elems_unmixed (kw_cmhr K0 sea air : array F) (c : coord) :
  unmixed [kw_cmhr; K0; sea; air] = true ->
  elem_kw kw_cmhr K0 sea air c = view kw_cmhr c /\
  elem_K0 kw_cmhr K0 sea air c = view K0 c /\
  elem_sea kw_cmhr K0 sea air c = view sea c /\
  elem_air kw_cmhr K0 sea air c = view air c.
Proof.
  unfold unmixed, elem_kw, elem_K0, elem_sea, elem_air. simpl.
  intros H. apply orb_true_iff in H. destruct H as [H | H];
    rewrite !andb_true_iff in H; destruct H as (Hk & HK & Hs & Ha & _).
  - repeat split; apply aligned_plain; try assumption;
      intros y Hy; unfold sub, mul in Hy;
      eapply binop_plain; try exact Hy; assumption.
  - repeat split; apply aligned_labelled; assumption.
Qed.

Lemma flux_bulk_elements_any
  (temp_C salt pCO2_sea_uatm pCO2_air_uatm pres_hPa kw_cmhr : array F)
  (r : FluxResult F) :
  flux_bulk solubility_weiss1974 get_area_from_dataset
            temp_C salt pCO2_sea_uatm pCO2_air_uatm pres_hPa kw_cmhr = Ok r ->
  exists pres_atm temp_K K0 flux,
    div pres_hPa (scalar (lit 1013.25%Q)) = Ok pres_atm /\
    add temp_C (scalar (lit 273.15%Q)) = Ok temp_K /\
    solubility_weiss1974 salt temp_K pres_atm = Ok K0 /\
    flux_field r = Some flux /\
    (forallb well_formed [kw_cmhr; K0; pCO2_sea_uatm; pCO2_air_uatm] = true ->
     forall c,
       view flux c =
       flux_elem (elem_kw kw_cmhr K0 pCO2_sea_uatm pCO2_air_uatm c)
                 (elem_K0 kw_cmhr K0 pCO2_sea_uatm pCO2_air_uatm c)
                 (elem_sea kw_cmhr K0 pCO2_sea_uatm pCO2_air_uatm c)
                 (elem_air kw_cmhr K0 pCO2_sea_uatm pCO2_air_uatm c)).
Proof.
  intros H. apply flux_bulk_inv in H. destruct H as (flux & Hflux & Hasm).
  destruct (CO2flux_bulk_view_any _ _ _ _ _ _ _ Hflux)
    as (pres_atm & temp_K & K0 & E1 & E2 & E5 & V).
  destruct (assemble_flux_field _ flux Hasm)
    as (fg & Hfg & _ & Hd & Hi & _).
  exists pres_atm, temp_K, K0, fg.
  split; [exact E1 |]. split; [exact E2 |]. split; [exact E5 |].
  split; [exact Hfg |].
  intros W c. simpl in W. rewrite !andb_true_iff in W.
  destruct W as (Wk & WK & Ws & Wa & _).
  unfold view at 1. rewrite Hd, Hi.
  exact (V (well_formed_tidy _ Wk) (well_formed_tidy _ WK)
           (well_formed_tidy _ Ws) (well_formed_tidy _ Wa) c).
Qed.

(** C1.  Whenever [flux_bulk] returns, the solubility collaborator was
    called with the salinity, the temperature plus 273.15 and the pressure
    divided by 1013.25, and every element of the flux field is
    kw_m_per_day * K0 * (pCO2_sea_atm - pCO2_air_atm) * molarMass_g_per_mmol
    of the elements of kw_cmhr, K0, pCO2_sea_uatm and pCO2_air_uatm that
    broadcasting lines up with it, with kw_m_per_day = kw_cmhr * 24/100,
    the partial pressures times 1e-6 and the molar mass 12.0108 * 1000.
    This holds for every mix of floats, numpy arrays and DataArrays; when
    the operands are all plain, or all DataArrays and floats, the elements
    lined up are those at the same coordinate. *)
Theorem flux_bulk_formula
  (temp_C salt pCO2_sea_uatm pCO2_air_uatm pres_hPa kw_cmhr : array F)
  (r : FluxResult F) :
  flux_bulk solubility_weiss1974 get_area_from_dataset
            temp_C salt pCO2_sea_uatm pCO2_air_uatm pres_hPa kw_cmhr = Ok r ->
  exists pres_atm temp_K K0 flux,
    div pres_hPa (scalar (lit 1013.25%Q)) = Ok pres_atm /\
    (forall c, view pres_atm c = fdiv (view pres_hPa c) (lit 1013.25%Q)) /\
    add temp_C (scalar (lit 273.15%Q)) = Ok temp_K /\
    (forall c, view temp_K c = fadd (view temp_C c) (lit 273.15%Q)) /\
    solubility_weiss1974 salt temp_K pres_atm = Ok K0 /\
    flux_field r = Some flux /\
    (forallb well_formed [kw_cmhr; K0; pCO2_sea_uatm; pCO2_air_uatm] = true ->
     forall c,
       view flux c =
       spec_flux (elem_kw kw_cmhr K0 pCO2_sea_uatm pCO2_air_uatm c)
                 (elem_K0 kw_cmhr K0 pCO2_sea_uatm pCO2_air_uatm c)
                 (elem_sea kw_cmhr K0 pCO2_sea_uatm pCO2_air_uatm c)
                 (elem_air kw_cmhr K0 pCO2_sea_uatm pCO2_air_uatm c)) /\
    (unmixed [kw_cmhr; K0; pCO2_sea_uatm; pCO2_air_uatm] = true ->
     forall c, view flux c =
               spec_flux (view kw_cmhr c) (view K0 c)
                         (view pCO2_sea_uatm c) (view pCO2_air_uatm c)).
Proof.
  intros H.
  destruct (flux_bulk_elements_any _ _ _ _ _ _ H)
    as (pres_atm & temp_K & K0 & flux & E1 & E2 & E5 & Hfg & V).
  destruct (flux_bulk_elements _ _ _ _ _ _ _ _ H)
    as (pres_atm' & temp_K' & K0' & flux' & E1' & E2' & E5' & Hfg' & V').
  assert (pres_atm' = pres_atm) by congruence. subst pres_atm'.
  assert (temp_K' = temp_K) by congruence. subst temp_K'.
  assert (K0' = K0) by congruence. subst K0'.
  assert (flux' = flux) by congruence. subst flux'.
  exists pres_atm, temp_K, K0, flux.
  split; [exact E1 |].
  split; [exact (binop_scalar_view _ _ _ E1) |].
  split; [exact E2 |].
  split; [exact (binop_scalar_view _ _ _ E2) |].
  split; [exact E5 |].
  split; [exact Hfg |]. split.
  - intros W c. rewrite (V W c). unfold spec_flux, flux_elem. reflexivity.
  - intros U c. rewrite (V' U c). unfold spec_flux, flux_elem. reflexivity.
Qed.

End FluxBulkAny.

(* ================================================================== *)
(** * Exact arithmetic: the reduction *)

Lemma sumR_app (l1 l2 : list R) : sumR (l1 ++ l2) = (sumR l1 + sumR l2)%R.
Proof.
  induction l1 as [| x l1 IH]; simpl; [lra |]. rewrite IH. lra.
Qed.

Lemma sumR_flat_map {A B : Type} (g : B -> R) (h : A -> list B)
  (l : list A) :
  sumR (map g (flat_map h l)) = sumR (map (fun x => sumR (map g (h x))) l).
Proof.
  induction l as [| x l IH]; simpl; [reflexivity |].
  rewrite map_app, sumR_app, IH. reflexivity.
Qed.

Lemma nansum_R (l : list R) : nansum l = sumR l.
Proof.
  unfold nansum. simpl.
  assert (G : forall a, fold_left (fun acc x : R => (acc + x)%R) l a
                        = (a + sumR l)%R).
  { induction l as [| x l IH]; intros a; simpl; [lra |].
    rewrite IH. lra. }
  rewrite G. lra.
Qed.

(** Reducing over two dimensions is the double sum. *)
Lemma nansum_two_dims (v : coord -> R) (d1 d2 : dim) (n m : nat)
  (c : coord) :
  nansum (map v (coords_over [(d1, n); (d2, m)] c)) =
  big_sum n (fun i => big_sum m (fun j => v (upd (upd c d1 i) d2 j))).
Proof.
  rewrite nansum_R. unfold big_sum. simpl coords_over.
  rewrite sumR_flat_map. f_equal. apply map_ext. intros i.
  rewrite sumR_flat_map. f_equal. apply map_ext. intros j.
  simpl. lra.
Qed.

Lemma broadcast_dims_size (sa sb : bool) (da db ds : dims_t) (d : dim)
  (k : nat) :
  broadcast_dims sa sb da db = Ok ds -> size_in ds d = Some k ->
  size_in da d = Some k \/ size_in db d = Some k.
Proof.
  unfold broadcast_dims. intros H Hk.
  destruct (merge_into sa sb da db) as [base |] eqn:M; [| discriminate].
  injection H as <-.
  pose proof (size_in_merge_into sa sb db da d M) as S.
  rewrite size_in_app in Hk.
  rewrite (size_in_filter (fun e => negb (has_dim da e))) in Hk.
  unfold has_dim in Hk.
  destruct (size_in da d) as [n |].
  - destruct (size_in db d) as [m |].
    + destruct S as (k' & Hm & Hb). rewrite Hb in Hk. injection Hk as ->.
      unfold merge_size in Hm.
      destruct (Nat.eqb n m); [left; congruence |].
      destruct (sa && Nat.eqb n 1); [right; congruence |].
      destruct (sb && Nat.eqb m 1); [left; congruence | discriminate].
    + rewrite S in Hk. left. exact Hk.
  - rewrite S in Hk. simpl in Hk. right. exact Hk.
Qed.

(** Reading the reduced array at [c] and then moving along the reduced
    dimensions is reading the full array at the moved coordinate. *)
Lemma clamp_kept (ds : dims_t) (c : coord) (i j : nat) :
  clamp ds (upd (upd (clamp (kept_dims ["lat"; "lon"]%string ds) c)
                     (Name "lat") i) (Name "lon") j)
  = clamp ds (upd (upd c (Name "lat") i) (Name "lon") j).
Proof.
  apply functional_extensionality. intros d. unfold clamp at 1 3.
  destruct (size_in ds d) as [k |] eqn:E; [| reflexivity].
  destruct (Nat.eqb k 1) eqn:K; [reflexivity |].
  unfold upd.
  destruct (dim_eqb d (Name "lon")) eqn:E2; [reflexivity |].
  destruct (dim_eqb d (Name "lat")) eqn:E1; [reflexivity |].
  unfold clamp, kept_dims.
  rewrite (size_in_filter
             (fun e => negb (existsb (dim_eqb e)
                                     (map Name ["lat"; "lon"]%string)))).
  simpl. rewrite E1, E2. simpl. rewrite E, K. reflexivity.
Qed.

Section ExactReduction.

Variable solubility_weiss1974 :
  array R -> array R -> array R -> result (array R).
Variable get_area_from_dataset : array R -> result (array R).

(** In exact arithmetic there is no NaN to skip and no order of summation:
    each element of [fgco2_global] is the double sum, over the 'lat' and
    'lon' indices, of fgco2 * area * 365. *)
Lemma fgco2_global_exact
  (temp_C salt pCO2_sea_uatm pCO2_air_uatm pres_hPa kw_cmhr : array R)
  (ds : Dataset R) :
  flux_bulk solubility_weiss1974 get_area_from_dataset temp_C salt
            pCO2_sea_uatm pCO2_air_uatm pres_hPa kw_cmhr
  = Ok (Composite ds) ->
  exists fgco2 area fgco2_global nlat nlon,
    ds = [("fgco2", fgco2); ("area", area);
          ("fgco2_global", fgco2_global)]%string /\
    dict_get "units" (attrs fgco2_global) = Some "gC/Yr"%string /\
    has_dim (dims fgco2_global) (Name "lat") = false /\
    has_dim (dims fgco2_global) (Name "lon") = false /\
    (size_in (dims fgco2) (Name "lat") = Some nlat \/
     size_in (dims area) (Name "lat") = Some nlat) /\
    (size_in (dims fgco2) (Name "lon") = Some nlon \/
     size_in (dims area) (Name "lon") = Some nlon) /\
    forall c,
      view fgco2_global c =
      big_sum nlat (fun i => big_sum nlon (fun j =>
        let c' := upd (upd c (Name "lat") i) (Name "lon") j in
        (view fgco2 c' * view area c' * 365)%R)).
Proof.
  intros H. apply flux_bulk_inv in H. destruct H as (flux & Hflux & Hasm).
  assert (Hf : is_dataarray flux = true).
  { destruct (is_dataarray flux) eqn:E; [reflexivity |].
    rewrite (assemble_plain _ flux E) in Hasm. discriminate. }
  destruct (assemble_composite _ flux Hf Hasm)
    as (area & p & p365 & s & HA & La & Hp & Hp' & Hsum & E).
  injection E as ->.
  destruct (sum_lat_lon _ Hsum) as (n & m & Hn & Hm & ->).
  assert (Lf : labelled flux = true)
    by (unfold labelled; rewrite Hf; reflexivity).
  unfold mul in Hp, Hp'.
  pose proof (binop_dims_unbound _ _ _
                (needs_binding_labelled area flux Lf)
                (needs_binding_labelled flux area La) Hp) as B.
  pose proof (@binop_view R _ flux area p
                (needs_binding_labelled area flux Lf)
                (needs_binding_labelled flux area La) Hp) as Vp.
  pose proof (@binop_scalar_view R _ _ _ _ Hp') as Vp'.
  assert (Dp : dims p365 = dims p).
  { rewrite binop_scalar_r in Hp'. injection Hp' as <-. reflexivity. }
  rewrite Dp in Hn, Hm.
  do 3 eexists. exists n, m.
  split; [reflexivity |].
  split; [apply units_of_fgco2_global |].
  cbn [dims assign_attrs]. unfold has_dim, kept_dims.
  rewrite !(size_in_filter
              (fun e => negb (existsb (dim_eqb e)
                                      (map Name ["lat"; "lon"]%string)))).
  split; [reflexivity |]. split; [reflexivity |].
  split; [exact (broadcast_dims_size _ _ _ _ _ B Hn) |].
  split; [exact (broadcast_dims_size _ _ _ _ _ B Hm) |].
  intros c. unfold view at 1. cbn [item dims assign_attrs].
  rewrite nansum_two_dims.
  unfold big_sum. f_equal. apply map_ext. intros i.
  f_equal. apply map_ext. intros j.
  cbv zeta. rewrite !view_assign_attrs.
  unfold view at 1. rewrite clamp_kept.
  fold (view p365 (upd (upd c (Name "lat") i) (Name "lon") j)).
  rewrite Vp', Vp. reflexivity.
Qed.

End ExactReduction.

(* ================================================================== *)
(** * The reduction over 'lat' and 'lon' *)




Section Reduction.

Context {F : Type} `{NumF : Number F}.

Variable solubility_weiss1974 :
  array F -> array F -> array F -> result (array F).
Variable get_area_from_dataset : array F -> result (array F).



End Reduction.

(* ================================================================== *)
(** * Exact arithmetic: sign and linearity *)

Lemma flux_elem_R (kw K0 sea air : R) :
  flux_elem kw K0 sea air = (flux_per_uatm kw K0 * (sea - air))%R.
Proof.
  unfold flux_elem, flux_per_uatm. simpl. unfold Q2R. simpl. field.
Qed.

Lemma flux_per_uatm_pos (kw K0 : R) :
  (0 < kw)%R -> (0 < K0)%R -> (0 < flux_per_uatm kw K0)%R.
Proof.
  intros Hk HK. unfold flux_per_uatm.
  assert (0 < kw * K0)%R by (apply Rmult_lt_0_compat; assumption).
  nra.
Qed.

Section ExactAlgebra.

Variable solubility_weiss1974 :
  array R -> array R -> array R -> result (array R).
Variable get_area_from_dataset : array R -> result (array R).

(** In exact arithmetic, where the transfer velocity and the solubility
    are positive, the flux has the sign of pCO2_sea_uatm - pCO2_air_uatm:
    positive when the sea is above the air, negative when it is below. *)
Lemma sign_follows_delta_exact
  (temp_C salt pCO2_sea_uatm pCO2_air_uatm pres_hPa kw_cmhr : array R)
  (r : FluxResult R) :
  flux_bulk solubility_weiss1974 get_area_from_dataset temp_C salt
            pCO2_sea_uatm pCO2_air_uatm pres_hPa kw_cmhr = Ok r ->
  exists pres_atm temp_K K0 flux,
    div pres_hPa (scalar (lit 1013.25%Q)) = Ok pres_atm /\
    add temp_C (scalar (lit 273.15%Q)) = Ok temp_K /\
    solubility_weiss1974 salt temp_K pres_atm = Ok K0 /\
    flux_field r = Some flux /\
    (unmixed [kw_cmhr; K0; pCO2_sea_uatm; pCO2_air_uatm] = true ->
     forall c,
       (0 < view kw_cmhr c)%R -> (0 < view K0 c)%R ->
       ((view pCO2_sea_uatm c > view pCO2_air_uatm c)%R ->
        (view flux c > 0)%R) /\
       ((view pCO2_sea_uatm c < view pCO2_air_uatm c)%R ->
        (view flux c < 0)%R)).
Proof.
  intros H. apply flux_bulk_elements in H.
  destruct H
    as (pres_atm & temp_K & K0 & flux & E1 & E2 & E5 & Hfg & V).
  exists pres_atm, temp_K, K0, flux.
  split; [exact E1 |]. split; [exact E2 |]. split; [exact E5 |].
  split; [exact Hfg |].
  intros U c Hk HK. rewrite (V U c), flux_elem_R.
  pose proof (flux_per_uatm_pos Hk HK) as P.
  split; intros D; nra.
Qed.


End ExactAlgebra.

(* ================================================================== *)
(** * IEEE-754 binary64: NaN, infinities and zero *)

Lemma SFeqb_refl (f : spec_float) : f <> S754_nan -> SFeqb f f = true.
Proof.
  intros N. destruct f as [s | s | | s m e]; unfold SFeqb, SFcompare.
  - reflexivity.
  - destruct s; reflexivity.
  - contradiction.
  - rewrite Z.compare_refl, Pos.compare_cont_refl. destruct s; reflexivity.
Qed.

Lemma is_nan_Prim2SF (x : float) :
  PrimFloat.is_nan x = true <-> Prim2SF x = S754_nan.
Proof.
  unfold PrimFloat.is_nan. rewrite FloatAxioms.eqb_spec. split.
  - intros H. destruct (Prim2SF x) as [s | s | | s m e] eqn:E;
      try reflexivity;
      rewrite SFeqb_refl in H by discriminate; discriminate.
  - intros ->. reflexivity.
Qed.

Lemma mul_nan_l (x y : float) :
  PrimFloat.is_nan x = true -> PrimFloat.is_nan (x * y) = true.
Proof.
  rewrite !is_nan_Prim2SF, mul_spec. intros ->. reflexivity.
Qed.






(** A finite float is a zero or a finite number. *)
Lemma is_finite_Prim2SF (x : float) :
  PrimFloat.is_finite x = true ->
  (exists s, Prim2SF x = S754_zero s) \/
  (exists s m e, Prim2SF x = S754_finite s m e).
Proof.
  unfold PrimFloat.is_finite, PrimFloat.is_infinity. intros H.
  apply negb_true_iff, orb_false_iff in H. destruct H as [Hn Hi].
  rewrite FloatAxioms.eqb_spec, abs_spec in Hi.
  destruct (Prim2SF x) as [s | s | | s m e] eqn:E.
  - left. eauto.
  - simpl in Hi. vm_compute in Hi. discriminate.
  - apply is_nan_Prim2SF in E. congruence.
  - right. eauto.
Qed.

(** [x - x] is [+0] for a finite [x]. *)
Lemma sub_self_finite (x : float) :
  PrimFloat.is_finite x = true -> Prim2SF (x - x) = S754_zero false.
Proof.
  intros H. rewrite sub_spec.
  destruct (is_finite_Prim2SF x H) as [[s ->] | (s & m & e & ->)].
  - destruct s; reflexivity.
  - unfold SF64sub, SFsub. cbv zeta. rewrite Z.sub_diag. reflexivity.
Qed.

(** A finite number times a zero is a zero. *)
Lemma mul_finite_zero (x y : float) (s : bool) :
  PrimFloat.is_finite x = true -> Prim2SF y = S754_zero s ->
  exists s', Prim2SF (x * y) = S754_zero s'.
Proof.
  intros H Hy. rewrite mul_spec, Hy.
  destruct (is_finite_Prim2SF x H) as [[sx ->] | (sx & m & e & ->)];
    eexists; reflexivity.
Qed.

Lemma mul_zero_finite (x y : float) (s : bool) :
  Prim2SF x = S754_zero s -> PrimFloat.is_finite y = true ->
  exists s', Prim2SF (x * y) = S754_zero s'.
Proof.
  intros Hx H. rewrite mul_spec, Hx.
  destruct (is_finite_Prim2SF y H) as [[sy ->] | (sy & m & e & ->)];
    eexists; reflexivity.
Qed.

Lemma zero_eqb (x : float) (s : bool) :
  Prim2SF x = S754_zero s -> PrimFloat.eqb x 0%float = true.
Proof.
  intros H. rewrite FloatAxioms.eqb_spec, H. reflexivity.
Qed.


(** Equal partial pressures, finite once converted, and a finite product
    of transfer velocity and solubility: the flux is a zero. *)
Lemma flux_elem_zero (kw K0 x : float) :
  PrimFloat.is_finite (x * lit 1e-6%Q) = true ->
  PrimFloat.is_finite (kw * fdiv (of_int 24) (of_int 100) * K0) = true ->
  PrimFloat.eqb (flux_elem kw K0 x x) 0%float = true.
Proof.
  intros Hx Hk. unfold flux_elem.
  change (fmul (F := float)) with PrimFloat.mul.
  change (fsub (F := float)) with PrimFloat.sub.
  pose proof (sub_self_finite _ Hx) as D.
  destruct (mul_finite_zero _ _ Hk D) as [s1 Z1].
  assert (M : PrimFloat.is_finite (PrimFloat.mul (lit 12.0108%Q) (of_int 1000))
              = true) by (vm_compute; reflexivity).
  destruct (mul_zero_finite _ _ Z1 M) as [s2 Z2].
  exact (zero_eqb _ Z2).
Qed.


(* ================================================================== *)
(** * IEEE-754 binary64: rounding is monotone *)

Section Rounding.

Local Open Scope Z_scope.

















Lemma pack_nonneg (q E : Z) : nonneg (pack q E) = true.
Proof.
  unfold pack. destruct q as [| p | p]; try reflexivity.
  destruct (Zpos p =? 2 ^ 53).
  - destruct (E + 1 <=? emax - prec); reflexivity.
  - destruct (E <=? emax - prec); reflexivity.
Qed.






(** ** Signs *)









(** ** Valid floats and their values *)









(** ** The sign of a difference *)









End Rounding.

(* ================================================================== *)
(** * Plain fields of one shape: the computation goes through *)

Section PlainFields.

Context {F : Type} `{NumF : Number F}.

Variable solubility_weiss1974 :
  array F -> array F -> array F -> result (array F).
Variable get_area_from_dataset : array F -> result (array F).






End PlainFields.

(* ================================================================== *)
(** * IEEE-754 binary64: the sign of the flux *)







(* ================================================================== *)
(** * IEEE-754 binary64: properties of [flux_bulk] *)

Section Binary64.

Variable solubility_weiss1974 :
  array float -> array float -> array float -> result (array float).
Variable get_area_from_dataset : array float -> result (array float).


(** C5, as the code has it.  Where the elements of pCO2_sea_uatm and
    pCO2_air_uatm that are lined up are the same number, finite once
    converted to atmospheres, and the product kw_m_per_day * K0 is finite,
    the flux is a zero.  For every mix of operands; when the operands are
    all plain, or all DataArrays and floats, the elements lined up are
    those at the same coordinate. *)
Theorem zero_delta_zero_flux
  (temp_C salt pCO2_sea_uatm pCO2_air_uatm pres_hPa kw_cmhr : array float)
  (r : FluxResult float) :
  flux_bulk solubility_weiss1974 get_area_from_dataset temp_C salt
            pCO2_sea_uatm pCO2_air_uatm pres_hPa kw_cmhr = Ok r ->
  exists pres_atm temp_K K0 flux,
    div pres_hPa (scalar (lit 1013.25%Q)) = Ok pres_atm /\
    add temp_C (scalar (lit 273.15%Q)) = Ok temp_K /\
    solubility_weiss1974 salt temp_K pres_atm = Ok K0 /\
    flux_field r = Some flux /\
    (forallb well_formed [kw_cmhr; K0; pCO2_sea_uatm; pCO2_air_uatm] = true ->
     forall c,
       let kw := elem_kw kw_cmhr K0 pCO2_sea_uatm pCO2_air_uatm c in
       let k0 := elem_K0 kw_cmhr K0 pCO2_sea_uatm pCO2_air_uatm c in
       let sea := elem_sea kw_cmhr K0 pCO2_sea_uatm pCO2_air_uatm c in
       let air := elem_air kw_cmhr K0 pCO2_sea_uatm pCO2_air_uatm c in
       sea = air ->
       PrimFloat.is_finite (sea * lit 1e-6%Q) = true ->
       PrimFloat.is_finite (kw * fdiv (of_int 24) (of_int 100) * k0) = true ->
       PrimFloat.eqb (view flux c) 0%float = true) /\
    (unmixed [kw_cmhr; K0; pCO2_sea_uatm; pCO2_air_uatm] = true ->
     forall c,
       view pCO2_sea_uatm c = view pCO2_air_uatm c ->
       PrimFloat.is_finite (view pCO2_sea_uatm c * lit 1e-6%Q) = true ->
       PrimFloat.is_finite
         (view kw_cmhr c * fdiv (of_int 24) (of_int 100) * view K0 c) = true ->
       PrimFloat.eqb (view flux c) 0%float = true).
Proof.
  intros H.
  pose proof (flux_bulk_elements _ _ _ _ _ _ _ _ H) as G.
  apply flux_bulk_elements_any in H.
  destruct H
    as (pres_atm & temp_K & K0 & flux & E1 & E2 & E5 & Hfg & V).
  destruct G as (pa & tK & K0' & f & F1 & F2 & F5 & Hg & U).
  assert (pa = pres_atm) by congruence. subst pa.
  assert (tK = temp_K) by congruence. subst tK.
  assert (K0' = K0) by congruence. subst K0'.
  assert (f = flux) by congruence. subst f.
  exists pres_atm, temp_K, K0, flux.
  split; [exact E1 |]. split; [exact E2 |]. split; [exact E5 |].
  split; [exact Hfg |]. split.
  - intros W c. cbv zeta. intros Heq Hx Hk. rewrite (V W c), <- Heq.
    apply flux_elem_zero; assumption.
  - intros W c Heq Hx Hk. rewrite (U W c), <- Heq.
    apply flux_elem_zero; assumption.
Qed.


End Binary64.

(* ================================================================== *)
(** * Worked cases *)

(** A numpy vector of transfer velocities meets a grid of partial
    pressures over (time, lat, lon): its one axis runs along 'lon', and
    the flux at 'lon' 2 is computed from the third velocity. *)
Lemma flux_bulk_formula_witness :
  exists ds flux,
    flux_bulk (constant_solubility 0.035%float) (lat_lon_area 1%float)
              (scalar 15%float) (scalar 35%float) (grid 400%float)
              (scalar 380%float) (scalar 1013.25%float)
              (vector_of [10; 20; 30]%float 0%float)
    = Ok (Composite ds) /\
    dict_get "fgco2" ds = Some flux /\
    view flux (upd origin (Name "lon") 2)
    = spec_flux 30%float 0.035%float 400%float 380%float.
Proof.
  eexists.
  destruct (@flux_bulk_formula float _ (constant_solubility 0.035%float)
              (lat_lon_area 1%float)
              (scalar 15%float) (scalar 35%float) (grid 400%float)
              (scalar 380%float) (scalar 1013.25%float)
              (vector_of [10; 20; 30]%float 0%float)
              _ eq_refl)
    as (pa & tK & K0 & flux & _ & _ & _ & _ & E5 & Hf & V & _).
  exists flux. split; [reflexivity |]. split; [exact Hf |].
  injection E5 as <-.
  exact (V eq_refl (upd origin (Name "lon") 2)).
Defined.

(** A grid input: the composite carries the flux of line 75 as [fgco2]. *)
Lemma flux_values_unchanged_witness :
  exists ds flux fg,
    flux_bulk (constant_solubility 0.035%float) (lat_lon_area 1%float)
              (scalar 15%float) (scalar 35%float) (grid 400%float)
              (scalar 380%float) (scalar 1013.25%float) (scalar 10%float)
    = Ok (Composite ds) /\
    CO2flux_bulk (constant_solubility 0.035%float)
              (scalar 15%float) (scalar 35%float) (grid 400%float)
              (scalar 380%float) (scalar 1013.25%float) (scalar 10%float)
    = Ok flux /\
    dict_get "fgco2" ds = Some fg /\
    view fg origin = view flux origin.
Proof.
  eexists.
  destruct (@flux_values_unchanged float _ (constant_solubility 0.035%float)
              (lat_lon_area 1%float)
              (scalar 15%float) (scalar 35%float) (grid 400%float)
              (scalar 380%float) (scalar 1013.25%float) (scalar 10%float)
              _ eq_refl)
    as (flux & Hflux & _ & fg & Hfg & _ & V).
  exists flux, fg.
  split; [reflexivity |]. split; [exact Hflux |]. split; [exact Hfg |].
  exact (proj2 (V origin)).
Defined.

(** A DataArray over (time) alone: the reduction over 'lat' fails. *)
Lemma branch_by_type_lat_lon_witness :
  exists flux,
    CO2flux_bulk (constant_solubility 0.035%float)
              (scalar 15%float) (scalar 35%float) (series 400%float)
              (scalar 380%float) (scalar 1013.25%float) (scalar 10%float)
    = Ok flux /\
    is_dataarray flux = true /\
    carries_spatial_labels flux = false /\
    exists e,
      flux_bulk (constant_solubility 0.035%float) unit_area
              (scalar 15%float) (scalar 35%float) (series 400%float)
              (scalar 380%float) (scalar 1013.25%float) (scalar 10%float)
      = Err e.
Proof.
  eexists. split; [reflexivity |].
  split; [reflexivity |]. split; [reflexivity |].
  refine (proj1 (proj2 (proj2
    (@branch_by_type_lat_lon float _ (constant_solubility 0.035%float)
       unit_area
       (scalar 15%float) (scalar 35%float) (series 400%float)
       (scalar 380%float) (scalar 1013.25%float) (scalar 10%float)
       _ eq_refl)) eq_refl eq_refl _)).
  intros area HA d Hd. injection HA as <-. discriminate Hd.
Defined.

(** C2 as stated fails on a DataArray over (time) alone: the flux carries
    no spatial labels, and yet it is not returned as a bare field. *)
Lemma variant_by_spatial_labels_counterexample :
  exists flux,
    CO2flux_bulk (constant_solubility 0.035%float)
              (scalar 15%float) (scalar 35%float) (series 400%float)
              (scalar 380%float) (scalar 1013.25%float) (scalar 10%float)
    = Ok flux /\
    ~ (flux_bulk (constant_solubility 0.035%float) (lat_lon_area 1%float)
              (scalar 15%float) (scalar 35%float) (series 400%float)
              (scalar 380%float) (scalar 1013.25%float) (scalar 10%float)
       = Ok (Plain flux)
       <-> carries_spatial_labels flux = false).
Proof.
  eexists. split; [reflexivity |].
  intros [_ H]. specialize (H eq_refl). discriminate H.
Qed.

Lemma NoDup_time_lat_lon :
  NoDup [Name "time"; Name "lat"; Name "lon"].
Proof.
  repeat constructor; simpl; intuition discriminate.
Qed.

(** A grid input comes back as a composite of the three fields. *)
Lemma variant_by_isinstance_witness :
  exists flux ds,
    CO2flux_bulk (constant_solubility 0.035%float)
              (scalar 15%float) (scalar 35%float) (grid 400%float)
              (scalar 380%float) (scalar 1013.25%float) (scalar 10%float)
    = Ok flux /\
    is_dataarray flux = true /\
    flux_bulk (constant_solubility 0.035%float) (lat_lon_area 1%float)
              (scalar 15%float) (scalar 35%float) (grid 400%float)
              (scalar 380%float) (scalar 1013.25%float) (scalar 10%float)
    = Ok (Composite ds).
Proof.
  eexists.
  destruct (@variant_by_isinstance float _ (constant_solubility 0.035%float)
              (lat_lon_area 1%float)
              (scalar 15%float) (scalar 35%float) (grid 400%float)
              (scalar 380%float) (scalar 1013.25%float) (scalar 10%float)
              _ eq_refl)
    as (_ & _ & _ & P).
  destruct (P eq_refl NoDup_time_lat_lon _ eq_refl) as [ds Hds].
  - split; [reflexivity |]. exists 2, 3. repeat split; reflexivity.
  - exists ds. split; [reflexivity |]. split; [reflexivity | exact Hds].
Defined.


(** C3 as stated fails on a grid with NaN cells: the sum of
    fgco2 * area * 365 over 'lat' and 'lon' is NaN, and [fgco2_global] is
    not, because the reduction leaves the NaN terms out. *)
Lemma sum_skips_nan_counterexample :
  exists ds fgco2 area g,
    flux_bulk (constant_solubility 0.035%float) (lat_lon_area 1%float)
              (scalar 15%float) (scalar 35%float) (holed_grid 400%float nan)
              (scalar 380%float) (scalar 1013.25%float) (scalar 10%float)
    = Ok (Composite ds) /\
    ds = [("fgco2", fgco2); ("area", area); ("fgco2_global", g)]%string /\
    PrimFloat.is_nan
      (total (cells 2 3 (fun i j =>
         let c' := upd (upd origin (Name "lat") i) (Name "lon") j in
         (view fgco2 c' * view area c' * 365)%float))) = true /\
    PrimFloat.is_nan (view g origin) = false.
Proof.
  do 4 eexists. split; [reflexivity |]. split; [reflexivity |].
  split; vm_compute; reflexivity.
Qed.




(** C6 as stated fails in binary64: a difference of 2 uatm is twice a
    difference of 1 uatm, and the flux is not twice the flux; and twice a
    transfer velocity of 1e308 cm/hr is infinite. *)
Lemma linearity_counterexample :
  exists flux1 flux2 flux3 flux4,
    flux_bulk (constant_solubility 0.035%float) no_area
              (scalar 15%float) (scalar 35%float) (scalar 381%float)
              (scalar 380%float) (scalar 1013.25%float) (scalar 10%float)
    = Ok (Plain flux1) /\
    flux_bulk (constant_solubility 0.035%float) no_area
              (scalar 15%float) (scalar 35%float) (scalar 382%float)
              (scalar 380%float) (scalar 1013.25%float) (scalar 10%float)
    = Ok (Plain flux2) /\
    PrimFloat.eqb (382 - 380) (2 * (381 - 380)) = true /\
    PrimFloat.eqb (view flux2 origin) (2 * view flux1 origin) = false /\
    flux_bulk (constant_solubility 0.035%float) no_area
              (scalar 15%float) (scalar 35%float) (scalar 381%float)
              (scalar 380%float) (scalar 1013.25%float) (scalar 1e308%float)
    = Ok (Plain flux3) /\
    flux_bulk (constant_solubility 0.035%float) no_area
              (scalar 15%float) (scalar 35%float) (scalar 381%float)
              (scalar 380%float) (scalar 1013.25%float)
              (scalar (2 * 1e308)%float)
    = Ok (Plain flux4) /\
    PrimFloat.is_finite (view flux3 origin) = true /\
    PrimFloat.eqb (view flux4 origin) (2 * view flux3 origin) = false.
Proof.
  do 4 eexists. split; [reflexivity |]. split; [reflexivity |].
  split; [vm_compute; reflexivity |]. split; [vm_compute; reflexivity |].
  split; [reflexivity |]. split; [reflexivity |].
  split; vm_compute; reflexivity.
Qed.

(** C5 as stated fails when kw * K0 overflows: every input is finite, the
    partial pressures are equal, and the flux is NaN. *)
Lemma zero_delta_counterexample :
  exists flux,
    flux_bulk (constant_solubility 1e10%float) no_area
              (scalar 15%float) (scalar 35%float) (scalar 400%float)
              (scalar 400%float) (scalar 1013.25%float) (scalar 1e300%float)
    = Ok (Plain flux) /\
    PrimFloat.is_finite 1e300%float = true /\
    PrimFloat.is_finite 1e10%float = true /\
    PrimFloat.is_finite 400%float = true /\
    PrimFloat.eqb (view flux origin) 0%float = false /\
    PrimFloat.is_nan (view flux origin) = true.
Proof.
  eexists. split; [reflexivity |].
  repeat split; vm_compute; reflexivity.
Qed.

(** A numpy vector of equal partial pressures under a grid of transfer
    velocities: the flux is zero along 'lon'. *)
Lemma zero_delta_zero_flux_witness :
  exists ds flux,
    flux_bulk (constant_solubility 0.035%float) (lat_lon_area 1%float)
              (scalar 15%float) (scalar 35%float)
              (vector_of [400; 410; 420]%float 0%float)
              (vector_of [390; 410; 430]%float 0%float)
              (scalar 1013.25%float) (grid 10%float)
    = Ok (Composite ds) /\
    dict_get "fgco2" ds = Some flux /\
    PrimFloat.eqb (view flux (upd origin (Name "lon") 1)) 0%float = true.
Proof.
  eexists.
  destruct (@zero_delta_zero_flux (constant_solubility 0.035%float)
              (lat_lon_area 1%float)
              (scalar 15%float) (scalar 35%float)
              (vector_of [400; 410; 420]%float 0%float)
              (vector_of [390; 410; 430]%float 0%float)
              (scalar 1013.25%float) (grid 10%float)
              _ eq_refl)
    as (pa & tK & K0 & flux & _ & _ & E5 & Hf & V & _).
  exists flux. split; [reflexivity |]. split; [exact Hf |].
  injection E5 as <-.
  apply (V eq_refl (upd origin (Name "lon") 1)); vm_compute; reflexivity.
Defined.




(** C7 as stated fails on numeric inputs of the wrong shape: a series over
    (time) alone, with collaborators that answer, raises in the reduction
    over 'lat'; and two numpy vectors of two and of three elements raise in
    the subtraction. *)
Lemma raises_internally_counterexample :
  flux_bulk (constant_solubility 0.035%float) unit_area
            (scalar 15%float) (scalar 35%float) (series 400%float)
            (scalar 380%float) (scalar 1013.25%float) (scalar 10%float)
  = Err (MissingDimension "lat") /\
  flux_bulk (constant_solubility 0.035%float) unit_area
            (scalar 15%float) (scalar 35%float) (vector 2 400%float)
            (vector 3 380%float) (scalar 1013.25%float) (scalar 10%float)
  = Err BroadcastError /\
  PrimFloat.is_finite 400 = true /\ PrimFloat.is_finite 380 = true.
Proof.
  split; [reflexivity |]. split; [reflexivity |].
  split; vm_compute; reflexivity.
Qed.

(* ================================================================== *)
(** * Runs over the store *)

Module StoreFacts.

Import Store.

Section Runs.

Context {F : Type} `{NumF : Number F}.

Implicit Types (s t : store F) (l k : nat).

Lemma andthen_run {A B : Type} (m : prog F A) (k : A -> prog F B) s :
  andthen m k s =
  match m s with
  | (Ok a, s') => k a s'
  | (Err e, s') => (Err e, s')
  end.
Proof. reflexivity. Qed.

Lemma alloc_app (o : object F) s t :
  alloc o (s ++ t) = (Ok (List.length s + List.length t), s ++ (t ++ [o])).
Proof. unfold alloc. rewrite length_app, app_assoc. reflexivity. Qed.

Lemma lookup_old s t l (o : object F) :
  nth_error s l = Some o -> nth_error (s ++ t) l = Some o.
Proof.
  intros H. rewrite nth_error_app1; [exact H |].
  apply nth_error_Some. congruence.
Qed.

Lemma lookup_new s t k :
  nth_error (s ++ t) (List.length s + k) = nth_error t k.
Proof.
  rewrite nth_error_app2 by lia. f_equal. lia.
Qed.

Lemma replace_app (o : object F) s t k :
  replace (List.length s + k) o (s ++ t) = s ++ replace k o t.
Proof.
  induction s as [| x s IH]; simpl; [reflexivity |]. rewrite IH. reflexivity.
Qed.

Lemma load_array_run s l (a : array F) :
  nth_error s l = Some (ArrayObj a) -> load_array l s = (Ok a, s).
Proof. unfold load_array. intros ->. reflexivity. Qed.

Lemma load_dataset_run s l (ds : Dataset F) :
  nth_error s l = Some (DatasetObj ds) -> load_dataset l s = (Ok ds, s).
Proof. unfold load_dataset. intros ->. reflexivity. Qed.

Lemma float_obj_run (x : F) s t :
  float_obj x (s ++ t)
  = (Ok (List.length s + List.length t), s ++ (t ++ [ArrayObj (scalar x)])).
Proof. apply alloc_app. Qed.

Lemma op2_run (f : array F -> array F -> result (array F)) s t
  (a b : ref) (x y : array F) :
  nth_error (s ++ t) a = Some (ArrayObj x) ->
  nth_error (s ++ t) b = Some (ArrayObj y) ->
  op2 f a b (s ++ t) =
  match f x y with
  | Ok r => (Ok (List.length s + List.length t), s ++ (t ++ [ArrayObj r]))
  | Err e => (Err e, s ++ t)
  end.
Proof.
  intros Ha Hb. unfold op2.
  rewrite andthen_run, (@load_array_run _ _ _ Ha).
  rewrite andthen_run, (@load_array_run _ _ _ Hb).
  rewrite andthen_run. unfold lift.
  destruct (f x y); [apply alloc_app | reflexivity].
Qed.

Lemma call3_run (f : array F -> array F -> array F -> result (array F)) s t
  (a b c : ref) (x y z : array F) :
  nth_error (s ++ t) a = Some (ArrayObj x) ->
  nth_error (s ++ t) b = Some (ArrayObj y) ->
  nth_error (s ++ t) c = Some (ArrayObj z) ->
  call3 f a b c (s ++ t) =
  match f x y z with
  | Ok r => (Ok (List.length s + List.length t), s ++ (t ++ [ArrayObj r]))
  | Err e => (Err e, s ++ t)
  end.
Proof.
  intros Ha Hb Hc. unfold call3.
  rewrite andthen_run, (@load_array_run _ _ _ Ha).
  rewrite andthen_run, (@load_array_run _ _ _ Hb).
  rewrite andthen_run, (@load_array_run _ _ _ Hc).
  rewrite andthen_run. unfold lift.
  destruct (f x y z); [apply alloc_app | reflexivity].
Qed.

Lemma call1_run (f : array F -> result (array F)) s t
  (a : ref) (x : array F) :
  nth_error (s ++ t) a = Some (ArrayObj x) ->
  call1 f a (s ++ t) =
  match f x with
  | Ok r => (Ok (List.length s + List.length t), s ++ (t ++ [ArrayObj r]))
  | Err e => (Err e, s ++ t)
  end.
Proof.
  intros Ha. unfold call1.
  rewrite andthen_run, (@load_array_run _ _ _ Ha).
  rewrite andthen_run. unfold lift.
  destruct (f x); [apply alloc_app | reflexivity].
Qed.

Lemma sum_obj_run s t (a : ref) (x : array F) (names : list string) :
  nth_error (s ++ t) a = Some (ArrayObj x) ->
  sum_obj a names (s ++ t) =
  match sum x names with
  | Ok r => (Ok (List.length s + List.length t), s ++ (t ++ [ArrayObj r]))
  | Err e => (Err e, s ++ t)
  end.
Proof.
  intros Ha. unfold sum_obj.
  rewrite andthen_run, (@load_array_run _ _ _ Ha).
  rewrite andthen_run. unfold lift.
  destruct (sum x names); [apply alloc_app | reflexivity].
Qed.

Lemma isinstance_DataArray_run s (a : ref) (x : array F) :
  nth_error s a = Some (ArrayObj x) ->
  isinstance_DataArray a s = (Ok (is_dataarray x), s).
Proof.
  intros Ha. unfold isinstance_DataArray.
  rewrite andthen_run, (@load_array_run _ _ _ Ha). reflexivity.
Qed.

Lemma assign_attrs_obj_run s t (a : ref) (x : array F)
  (kvs : list (string * string)) :
  nth_error (s ++ t) a = Some (ArrayObj x) ->
  assign_attrs_obj a kvs (s ++ t) =
  (Ok (List.length s + List.length t),
   s ++ (t ++ [ArrayObj (assign_attrs x kvs)])).
Proof.
  intros Ha. unfold assign_attrs_obj.
  rewrite andthen_run, (@load_array_run _ _ _ Ha). apply alloc_app.
Qed.

Lemma Dataset_obj_run s t :
  Dataset_obj (s ++ t) =
  (Ok (List.length s + List.length t),
   s ++ (t ++ [DatasetObj (F := F) Dataset_new])).
Proof. apply alloc_app. Qed.

(** The write lands in the part of the store the call allocated. *)
Lemma setitem_obj_run s t k (v : ref) (key : string)
  (ds : Dataset F) (x : array F) :
  nth_error t k = Some (DatasetObj ds) ->
  nth_error (s ++ t) v = Some (ArrayObj x) ->
  setitem_obj (List.length s + k) key v (s ++ t) =
  match setitem ds key x with
  | Ok ds' => (Ok tt, s ++ replace k (DatasetObj ds') t)
  | Err e => (Err e, s ++ t)
  end.
Proof.
  intros Hd Hv. unfold setitem_obj.
  rewrite andthen_run, (@load_dataset_run (s ++ t) _ ds)
    by (rewrite lookup_new; exact Hd).
  rewrite andthen_run, (@load_array_run _ _ _ Hv).
  rewrite andthen_run. unfold lift.
  destruct (setitem ds key x); [| reflexivity].
  unfold write. rewrite replace_app. reflexivity.
Qed.

End Runs.

(** ** A run against the pure function *)

Section Simulation.

Context {F : Type} `{NumF : Number F}.

Variable B : Type.
Variable s : store F.
Variable R : ref -> store F -> B -> Prop.

Implicit Types (t : store F) (pure : result B).

Lemma sim_start (m : prog F ref) pure :
  sim s R (m (s ++ [])) pure -> sim s R (m s) pure.
Proof. rewrite app_nil_r. auto. Qed.

Lemma sim_err (e : exn) t : sim s R (Err e, s ++ t) (Err e).
Proof. split; [exists t; reflexivity | reflexivity]. Qed.

Lemma sim_ret (l : ref) t (b : B) :
  R l (s ++ t) b -> sim s R (ret l (s ++ t)) (Ok b).
Proof. intros H. split; [exists t; reflexivity | exact H]. Qed.

Lemma sim_float (x : F) (k : ref -> prog F ref) t pure :
  sim s R (k (List.length s + List.length t)
             (s ++ (t ++ [ArrayObj (scalar x)]))) pure ->
  sim s R (andthen (float_obj x) k (s ++ t)) pure.
Proof. rewrite andthen_run, float_obj_run. auto. Qed.

Lemma sim_op2 (f : array F -> array F -> result (array F)) (a b : ref)
  (x y : array F) (k : ref -> prog F ref) (kp : array F -> result B) t :
  nth_error (s ++ t) a = Some (ArrayObj x) ->
  nth_error (s ++ t) b = Some (ArrayObj y) ->
  (forall r, sim s R (k (List.length s + List.length t)
                        (s ++ (t ++ [ArrayObj r]))) (kp r)) ->
  sim s R (andthen (op2 f a b) k (s ++ t)) (bind (f x y) kp).
Proof.
  intros Ha Hb H. rewrite andthen_run. erewrite op2_run by eassumption.
  destruct (f x y); [apply H | apply sim_err].
Qed.

Lemma sim_call3 (f : array F -> array F -> array F -> result (array F))
  (a b c : ref) (x y z : array F) (k : ref -> prog F ref)
  (kp : array F -> result B) t :
  nth_error (s ++ t) a = Some (ArrayObj x) ->
  nth_error (s ++ t) b = Some (ArrayObj y) ->
  nth_error (s ++ t) c = Some (ArrayObj z) ->
  (forall r, sim s R (k (List.length s + List.length t)
                        (s ++ (t ++ [ArrayObj r]))) (kp r)) ->
  sim s R (andthen (call3 f a b c) k (s ++ t)) (bind (f x y z) kp).
Proof.
  intros Ha Hb Hc H. rewrite andthen_run. erewrite call3_run by eassumption.
  destruct (f x y z); [apply H | apply sim_err].
Qed.

Lemma sim_call1 (f : array F -> result (array F)) (a : ref) (x : array F)
  (k : ref -> prog F ref) (kp : array F -> result B) t :
  nth_error (s ++ t) a = Some (ArrayObj x) ->
  (forall r, sim s R (k (List.length s + List.length t)
                        (s ++ (t ++ [ArrayObj r]))) (kp r)) ->
  sim s R (andthen (call1 f a) k (s ++ t)) (bind (f x) kp).
Proof.
  intros Ha H. rewrite andthen_run. erewrite call1_run by eassumption.
  destruct (f x); [apply H | apply sim_err].
Qed.

Lemma sim_sum (a : ref) (x : array F) (names : list string)
  (k : ref -> prog F ref) (kp : array F -> result B) t :
  nth_error (s ++ t) a = Some (ArrayObj x) ->
  (forall r, sim s R (k (List.length s + List.length t)
                        (s ++ (t ++ [ArrayObj r]))) (kp r)) ->
  sim s R (andthen (sum_obj a names) k (s ++ t)) (bind (sum x names) kp).
Proof.
  intros Ha H. rewrite andthen_run. erewrite sum_obj_run by eassumption.
  destruct (sum x names); [apply H | apply sim_err].
Qed.

Lemma sim_isinstance (a : ref) (x : array F) (k : bool -> prog F ref) t
  pure :
  nth_error (s ++ t) a = Some (ArrayObj x) ->
  sim s R (k (is_dataarray x) (s ++ t)) pure ->
  sim s R (andthen (isinstance_DataArray a) k (s ++ t)) pure.
Proof.
  intros Ha H. rewrite andthen_run. erewrite isinstance_DataArray_run by eassumption.
  exact H.
Qed.

Lemma sim_assign_attrs (a : ref) (x : array F)
  (kvs : list (string * string)) (k : ref -> prog F ref) t pure :
  nth_error (s ++ t) a = Some (ArrayObj x) ->
  sim s R (k (List.length s + List.length t)
             (s ++ (t ++ [ArrayObj (assign_attrs x kvs)]))) pure ->
  sim s R (andthen (assign_attrs_obj a kvs) k (s ++ t)) pure.
Proof.
  intros Ha H. rewrite andthen_run. erewrite assign_attrs_obj_run by eassumption.
  exact H.
Qed.

Lemma sim_Dataset (k : ref -> prog F ref) t pure :
  sim s R (k (List.length s + List.length t)
             (s ++ (t ++ [DatasetObj Dataset_new]))) pure ->
  sim s R (andthen Dataset_obj k (s ++ t)) pure.
Proof. rewrite andthen_run, Dataset_obj_run. auto. Qed.

Lemma sim_setitem (j : nat) (key : string) (v : ref) (ds : Dataset F)
  (x : array F) (k : unit -> prog F ref) (kp : Dataset F -> result B) t :
  nth_error t j = Some (DatasetObj ds) ->
  nth_error (s ++ t) v = Some (ArrayObj x) ->
  (forall ds', sim s R (k tt (s ++ replace j (DatasetObj ds') t)) (kp ds')) ->
  sim s R (andthen (setitem_obj (List.length s + j) key v) k (s ++ t))
          (bind (setitem ds key x) kp).
Proof.
  intros Hd Hv H. rewrite andthen_run. erewrite setitem_obj_run by eassumption.
  destruct (setitem ds key x); [apply H | apply sim_err].
Qed.

End Simulation.

Ltac lookup :=
  first [ apply lookup_old; eassumption
        | rewrite lookup_new; reflexivity ].

Ltac next := cbv beta; cbn [List.length app replace].

Section Calls.

Context {F : Type} `{NumF : Number F}.

Variable solubility_weiss1974 :
  array F -> array F -> array F -> result (array F).
Variable get_area_from_dataset : array F -> result (array F).

Lemma sim_op2_last (f : array F -> array F -> result (array F))
  (s t : store F) (a b : ref) (x y : array F) :
  nth_error (s ++ t) a = Some (ArrayObj x) ->
  nth_error (s ++ t) b = Some (ArrayObj y) ->
  sim s (fun l s' r => nth_error s' l = Some (ArrayObj r))
      (op2 f a b (s ++ t)) (f x y).
Proof.
  intros Ha Hb. erewrite op2_run by eassumption.
  destruct (f x y) as [r | e]; [| apply sim_err].
  split; [eexists; reflexivity |]. cbn [fst snd].
  rewrite lookup_new, nth_error_app2, Nat.sub_diag by lia. reflexivity.
Qed.

Lemma CO2flux_bulk_obj_run (s : store F)
  (temp_C salt pCO2_sea_uatm pCO2_air_uatm pres_hPa kw_cmhr : ref)
  (vtemp vsalt vsea vair vpres vkw : array F) :
  holds s temp_C vtemp -> holds s salt vsalt ->
  holds s pCO2_sea_uatm vsea -> holds s pCO2_air_uatm vair ->
  holds s pres_hPa vpres -> holds s kw_cmhr vkw ->
  sim s (fun l s' a => nth_error s' l = Some (ArrayObj a))
      (CO2flux_bulk_obj solubility_weiss1974 temp_C salt pCO2_sea_uatm
                        pCO2_air_uatm pres_hPa kw_cmhr s)
      (CO2flux_bulk solubility_weiss1974 vtemp vsalt vsea vair vpres vkw).
Proof.
  unfold holds. intros Ht Hs Hsea Hair Hp Hk.
  apply sim_start. unfold CO2flux_bulk_obj, CO2flux_bulk. cbv zeta.
  apply sim_float. next.
  eapply sim_op2; [lookup | lookup |]. intros pres_atm. next.
  apply sim_float. next.
  eapply sim_op2; [lookup | lookup |]. intros temp_K. next.
  apply sim_float. next.
  eapply sim_op2; [lookup | lookup |]. intros pCO2sea. next.
  apply sim_float. next.
  eapply sim_op2; [lookup | lookup |]. intros pCO2air. next.
  eapply sim_call3; [lookup | lookup | lookup |]. intros K0. next.
  apply sim_float. next.
  eapply sim_op2; [lookup | lookup |]. intros kw. next.
  apply sim_float. next.
  eapply sim_op2; [lookup | lookup |]. intros t1. next.
  eapply sim_op2; [lookup | lookup |]. intros dp. next.
  eapply sim_op2; [lookup | lookup |]. intros t2. next.
  apply sim_op2_last; lookup.
Qed.

Lemma assemble_obj_run (s : store F) (l : ref) (flux : array F) :
  holds s l flux ->
  sim s refers_to_result
      (assemble_obj get_area_from_dataset l s)
      (assemble get_area_from_dataset flux).
Proof.
  unfold holds. intros Hl.
  apply sim_start. unfold assemble_obj, assemble.
  eapply sim_isinstance; [lookup |]. next.
  destruct (is_dataarray flux).
  - eapply sim_call1; [lookup |]. intros area. next. cbv zeta.
    apply sim_Dataset. next.
    eapply sim_assign_attrs; [lookup |]. next.
    eapply sim_setitem; [reflexivity | lookup |]. intros ds1. next.
    eapply sim_setitem; [reflexivity | lookup |]. intros ds2. next.
    eapply sim_op2; [lookup | lookup |]. intros p. next.
    apply sim_float. next.
    eapply sim_op2; [lookup | lookup |]. intros p365. next.
    eapply sim_sum; [lookup |]. intros g. next.
    eapply sim_assign_attrs; [lookup |]. next.
    eapply sim_setitem; [reflexivity | lookup |]. intros ds3. next.
    apply sim_ret. unfold refers_to_result. rewrite lookup_new. reflexivity.
  - apply sim_ret. unfold refers_to_result. lookup.
Qed.

Lemma sim_weaken {B : Type} (s s1 t : store F)
  (R : ref -> store F -> B -> Prop) (run : result ref * store F)
  (pure : result B) :
  s1 = s ++ t -> sim s1 R run pure -> sim s R run pure.
Proof.
  intros -> [[t' Ht'] H]. split; [| exact H].
  exists (t ++ t'). rewrite Ht', app_assoc. reflexivity.
Qed.

(** A run of [flux_bulk] on references to arrays ends as the pure
    function does on the arrays, in a store that extends the one it
    started in. *)
Lemma flux_bulk_obj_run (s : store F)
  (temp_C salt pCO2_sea_uatm pCO2_air_uatm pres_hPa kw_cmhr : ref)
  (vtemp vsalt vsea vair vpres vkw : array F) :
  holds s temp_C vtemp -> holds s salt vsalt ->
  holds s pCO2_sea_uatm vsea -> holds s pCO2_air_uatm vair ->
  holds s pres_hPa vpres -> holds s kw_cmhr vkw ->
  sim s refers_to_result
      (flux_bulk_obj solubility_weiss1974 get_area_from_dataset temp_C salt
                     pCO2_sea_uatm pCO2_air_uatm pres_hPa kw_cmhr s)
      (flux_bulk solubility_weiss1974 get_area_from_dataset vtemp vsalt vsea
                 vair vpres vkw).
Proof.
  intros Ht Hs Hsea Hair Hp Hk.
  pose proof (CO2flux_bulk_obj_run Ht Hs Hsea Hair Hp Hk) as [[t Hpre] Hm].
  unfold flux_bulk_obj, flux_bulk. rewrite andthen_run.
  destruct (CO2flux_bulk_obj solubility_weiss1974 temp_C salt pCO2_sea_uatm
              pCO2_air_uatm pres_hPa kw_cmhr s) as [[l | e] s1];
    destruct (CO2flux_bulk solubility_weiss1974 vtemp vsalt vsea vair vpres
                vkw) as [flux | e'];
    cbn [fst snd bind] in *; try contradiction.
  - eapply sim_weaken; [exact Hpre |]. apply assemble_obj_run. exact Hm.
  - subst e' s1. apply sim_err.
Qed.

Lemma sim_outcome (s : store F) (run : result ref * store F)
  (pure : result (FluxResult F)) :
  sim s refers_to_result run pure ->
  (exists t, snd run = s ++ t) /\ outcome run = pure.
Proof.
  intros [Hpre H]. split; [exact Hpre |].
  destruct run as [[l | e] s']; destruct pure as [r | e'];
    cbn [fst snd] in H; try contradiction.
  - unfold outcome. destruct r as [a | ds]; simpl in H; rewrite H; reflexivity.
  - simpl. congruence.
Qed.

Lemma extends_frame (s t : store F) (l : nat) :
  l < List.length s -> nth_error (s ++ t) l = nth_error s l.
Proof. intros H. apply nth_error_app1. exact H. Qed.

(** C8.  A call of [flux_bulk] on input objects leaves every object that
    existed before the call as it was, so no input is mutated; what it
    returns or raises is the pure function of the input values, hence the
    same in a second call on the same objects, and the same in any call,
    from any store, on inputs that hold the same values. *)
Theorem flux_bulk_repeatable (s : store F)
  (temp_C salt pCO2_sea_uatm pCO2_air_uatm pres_hPa kw_cmhr : ref)
  (vtemp vsalt vsea vair vpres vkw : array F) :
  holds s temp_C vtemp -> holds s salt vsalt ->
  holds s pCO2_sea_uatm vsea -> holds s pCO2_air_uatm vair ->
  holds s pres_hPa vpres -> holds s kw_cmhr vkw ->
  let run1 :=
    flux_bulk_obj solubility_weiss1974 get_area_from_dataset temp_C salt
                  pCO2_sea_uatm pCO2_air_uatm pres_hPa kw_cmhr s in
  let run2 :=
    flux_bulk_obj solubility_weiss1974 get_area_from_dataset temp_C salt
                  pCO2_sea_uatm pCO2_air_uatm pres_hPa kw_cmhr (snd run1) in
  (forall l, l < List.length s -> nth_error (snd run1) l = nth_error s l) /\
  (forall l, l < List.length s -> nth_error (snd run2) l = nth_error s l) /\
  outcome run1 =
    flux_bulk solubility_weiss1974 get_area_from_dataset vtemp vsalt vsea
              vair vpres vkw /\
  outcome run2 = outcome run1 /\
  (forall (s' : store F) (temp_C' salt' sea' air' pres' kw' : ref),
     holds s' temp_C' vtemp -> holds s' salt' vsalt ->
     holds s' sea' vsea -> holds s' air' vair ->
     holds s' pres' vpres -> holds s' kw' vkw ->
     outcome (flux_bulk_obj solubility_weiss1974 get_area_from_dataset
                            temp_C' salt' sea' air' pres' kw' s')
     = outcome run1).
Proof.
  intros Ht Hs Hsea Hair Hp Hk run1 run2.
  destruct (sim_outcome (flux_bulk_obj_run Ht Hs Hsea Hair Hp Hk))
    as [[t1 E1] O1].
  fold run1 in E1, O1.
  assert (H2 : forall l a, holds s l a -> holds (snd run1) l a).
  { intros l a H. unfold holds. rewrite E1. apply lookup_old. exact H. }
  destruct (sim_outcome (flux_bulk_obj_run (H2 _ _ Ht) (H2 _ _ Hs)
                           (H2 _ _ Hsea) (H2 _ _ Hair) (H2 _ _ Hp)
                           (H2 _ _ Hk)))
    as [[t2 E2] O2].
  fold run2 in E2, O2.
  split; [| split; [| split; [| split]]].
  - intros l Hl. rewrite E1. apply extends_frame. exact Hl.
  - intros l Hl. rewrite E2, E1, <- app_assoc. apply extends_frame. exact Hl.
  - exact O1.
  - rewrite O2, O1. reflexivity.
  - intros s' tC' sa' se' ai' pr' kw' Ht' Hs' Hsea' Hair' Hp' Hk'.
    destruct (sim_outcome (flux_bulk_obj_run Ht' Hs' Hsea' Hair' Hp' Hk'))
      as [_ O']. rewrite O', O1. reflexivity.
Qed.

End Calls.

End StoreFacts.

(** After the call the grid is still the grid, and a second call ends
    as the first did. *)
Lemma flux_bulk_repeatable_witness :
  let run1 :=
    Store.flux_bulk_obj (constant_solubility 0.035%float)
                        (lat_lon_area 1%float) 0 1 2 3 4 5 six_inputs in
  let run2 :=
    Store.flux_bulk_obj (constant_solubility 0.035%float)
                        (lat_lon_area 1%float) 0 1 2 3 4 5 (snd run1) in
  nth_error (snd run1) 2 = Some (Store.ArrayObj (grid 400%float)) /\
  Store.outcome run2 = Store.outcome run1.
Proof.
  intros run1 run2.
  destruct (@StoreFacts.flux_bulk_repeatable float _
              (constant_solubility 0.035%float) (lat_lon_area 1%float)
              six_inputs 0 1 2 3 4 5
              (scalar 15%float) (scalar 35%float) (grid 400%float)
              (scalar 380%float) (scalar 1013.25%float) (scalar 10%float)
              eq_refl eq_refl eq_refl eq_refl eq_refl eq_refl)
    as (Frame & _ & _ & Same & _).
  split; [| exact Same].
  apply (Frame 2). repeat constructor.
Defined.

(* ================================================================== *)
(** * Further properties of [flux_bulk] *)

Section Further.

Context {F : Type} `{NumF : Number F}.

Variable solubility_weiss1974 :
  array F -> array F -> array F -> result (array F).
Variable get_area_from_dataset : array F -> result (array F).

Lemma world_size (W : array F -> bool) (HW : world W)
  (f : F -> F -> F) (a b r : array F) (d : dim) (n : nat) :
  W a = true -> W b = true -> binop f a b = Ok r ->
  size_in (dims r) d = Some n ->
  size_in (dims a) d = Some n \/ size_in (dims b) d = Some n.
Proof.
  intros Ha Hb H Hn.
  eapply broadcast_dims_size; [| exact Hn].
  apply (@binop_dims_unbound F f a b r).
  - exact (@world_unbound F W HW b a Hb Ha).
  - exact (@world_unbound F W HW a b Ha Hb).
  - exact H.
Qed.

Lemma has_dim_nowhere (ds : dims_t) :
  (forall d, has_dim ds d = false) -> ds = [].
Proof.
  destruct ds as [| [e n] ds]; [reflexivity |].
  intros H. specialize (H e). unfold has_dim in H. simpl in H.
  rewrite dim_eqb_refl in H. discriminate.
Qed.

(** X1.  The flux of line 75 is a DataArray exactly when one of its four
    operands is: kw_cmhr, the collaborator's K0, pCO2_sea_uatm or
    pCO2_air_uatm.  The types of temp_C, salt and pres_hPa matter only
    through K0. *)
Theorem flux_type_rule
  (temp_C salt pCO2_sea_uatm pCO2_air_uatm pres_hPa kw_cmhr flux : array F) :
  CO2flux_bulk solubility_weiss1974 temp_C salt pCO2_sea_uatm pCO2_air_uatm
               pres_hPa kw_cmhr = Ok flux ->
  exists pres_atm temp_K K0,
    div pres_hPa (scalar (lit 1013.25%Q)) = Ok pres_atm /\
    add temp_C (scalar (lit 273.15%Q)) = Ok temp_K /\
    solubility_weiss1974 salt temp_K pres_atm = Ok K0 /\
    (is_dataarray flux = true <->
     is_dataarray kw_cmhr = true \/ is_dataarray K0 = true \/
     is_dataarray pCO2_sea_uatm = true \/ is_dataarray pCO2_air_uatm = true).
Proof.
  clear get_area_from_dataset.
  intros H. apply CO2flux_bulk_type in H.
  destruct H as (pres_atm & temp_K & K0 & E1 & E2 & E5 & T).
  exists pres_atm, temp_K, K0.
  split; [exact E1 |]. split; [exact E2 |]. split; [exact E5 |].
  rewrite T, !orb_true_iff. tauto.
Qed.

(** X2.  Shape.  For operands that need no positional binding, the flux
    has exactly the dimensions of kw_cmhr, K0, pCO2_sea_uatm and
    pCO2_air_uatm together, each with a size one of them has; with four
    scalars the flux is a scalar. *)
Theorem flux_dims_rule
  (temp_C salt pCO2_sea_uatm pCO2_air_uatm pres_hPa kw_cmhr flux : array F) :
  CO2flux_bulk solubility_weiss1974 temp_C salt pCO2_sea_uatm pCO2_air_uatm
               pres_hPa kw_cmhr = Ok flux ->
  exists pres_atm temp_K K0,
    div pres_hPa (scalar (lit 1013.25%Q)) = Ok pres_atm /\
    add temp_C (scalar (lit 273.15%Q)) = Ok temp_K /\
    solubility_weiss1974 salt temp_K pres_atm = Ok K0 /\
    (unmixed [kw_cmhr; K0; pCO2_sea_uatm; pCO2_air_uatm] = true ->
     (forall d,
        has_dim (dims flux) d =
        has_dim (dims kw_cmhr) d || has_dim (dims K0) d
        || (has_dim (dims pCO2_sea_uatm) d
            || has_dim (dims pCO2_air_uatm) d)) /\
     (forall d n,
        size_in (dims flux) d = Some n ->
        size_in (dims kw_cmhr) d = Some n \/ size_in (dims K0) d = Some n \/
        size_in (dims pCO2_sea_uatm) d = Some n \/
        size_in (dims pCO2_air_uatm) d = Some n) /\
     (dims kw_cmhr = [] -> dims K0 = [] -> dims pCO2_sea_uatm = [] ->
      dims pCO2_air_uatm = [] -> dims flux = [])).
Proof.
  intros H.
  destruct (CO2flux_bulk_has_dim _ _ _ _ _ _ _ H)
    as (pres_atm & temp_K & K0 & E1 & E2 & E5 & HD).
  exists pres_atm, temp_K, K0.
  split; [exact E1 |]. split; [exact E2 |]. split; [exact E5 |].
  intros U. specialize (HD U). split; [exact HD |]. split.
  - apply CO2flux_bulk_steps in H.
    destruct H as (pres_atm' & temp_K' & pCO2sea & pCO2air & K0' & kw & t1
                   & dp & t2 & E1' & E2' & E3 & E4 & E5' & E6 & E7 & E8
                   & E9 & E10).
    assert (pres_atm' = pres_atm) by congruence. subst pres_atm'.
    assert (temp_K' = temp_K) by congruence. subst temp_K'.
    assert (K0' = K0) by congruence. subst K0'.
    apply unmixed_cases in U. destruct U as (W & HW & Hall).
    simpl in Hall. rewrite !andb_true_iff in Hall.
    destruct Hall as (Hk & HK & Hsea & Hair & _).
    unfold mul, sub in *.
    pose proof (world_scalar HW) as Hs.
    destruct (world_view HW _ _ _ Hsea (Hs _) E3) as [W3 _].
    destruct (world_view HW _ _ _ Hair (Hs _) E4) as [W4 _].
    destruct (world_view HW _ _ _ Hk (Hs _) E6) as [W6 _].
    destruct (world_view HW _ _ _ W6 HK E7) as [W7 _].
    destruct (world_view HW _ _ _ W3 W4 E8) as [W8 _].
    destruct (world_view HW _ _ _ W7 W8 E9) as [W9 _].
    intros d n Hn.
    destruct (world_size HW _ _ _ d W9 (Hs _) E10 Hn) as [H1 | H1];
      [| discriminate H1].
    destruct (world_size HW _ _ _ d W7 W8 E9 H1) as [H2 | H2].
    + destruct (world_size HW _ _ _ d W6 HK E7 H2) as [H3 | H3]; [| auto].
      destruct (world_size HW _ _ _ d Hk (Hs _) E6 H3) as [H4 | H4];
        [auto | discriminate H4].
    + destruct (world_size HW _ _ _ d W3 W4 E8 H2) as [H3 | H3].
      * destruct (world_size HW _ _ _ d Hsea (Hs _) E3 H3) as [H4 | H4];
          [auto | discriminate H4].
      * destruct (world_size HW _ _ _ d Hair (Hs _) E4 H3) as [H4 | H4];
          [auto | discriminate H4].
  - intros D1 D2 D3 D4. apply has_dim_nowhere. intros d.
    rewrite HD, D1, D2, D3, D4. reflexivity.
Qed.

(** X3.  The two unit conversions before the solubility call cannot fail,
    and an exception of the solubility collaborator leaves [flux_bulk]
    unchanged, whatever the area provider is. *)
Theorem solubility_error_propagates
  (temp_C salt pCO2_sea_uatm pCO2_air_uatm pres_hPa kw_cmhr : array F) :
  exists pres_atm temp_K,
    div pres_hPa (scalar (lit 1013.25%Q)) = Ok pres_atm /\
    add temp_C (scalar (lit 273.15%Q)) = Ok temp_K /\
    forall e,
      solubility_weiss1974 salt temp_K pres_atm = Err e ->
      flux_bulk solubility_weiss1974 get_area_from_dataset temp_C salt
                pCO2_sea_uatm pCO2_air_uatm pres_hPa kw_cmhr = Err e.
Proof.
  unfold flux_bulk, CO2flux_bulk, div, add, mul.
  rewrite !binop_scalar_r. do 2 eexists.
  split; [reflexivity |]. split; [reflexivity |].
  intros e He. cbn [bind]. rewrite He. reflexivity.
Qed.

(** X4.  When the flux is a DataArray, an exception of the area provider
    leaves [flux_bulk] unchanged. *)
Theorem area_error_propagates
  (temp_C salt pCO2_sea_uatm pCO2_air_uatm pres_hPa kw_cmhr flux : array F)
  (e : exn) :
  CO2flux_bulk solubility_weiss1974 temp_C salt pCO2_sea_uatm pCO2_air_uatm
               pres_hPa kw_cmhr = Ok flux ->
  is_dataarray flux = true ->
  get_area_from_dataset flux = Err e ->
  flux_bulk solubility_weiss1974 get_area_from_dataset temp_C salt
            pCO2_sea_uatm pCO2_air_uatm pres_hPa kw_cmhr = Err e.
Proof.
  intros H Hf He. erewrite flux_bulk_assemble by eassumption.
  unfold assemble. rewrite Hf, He. reflexivity.
Qed.

(** X5.  With plain kw_cmhr, pCO2_sea_uatm and pCO2_air_uatm and a plain
    answer of the solubility collaborator, [flux_bulk] returns the bare
    flux, also when temp_C, salt or pres_hPa are DataArrays, and the area
    provider has no part in the result. *)
Theorem plain_operands_bare_result
  (temp_C salt pCO2_sea_uatm pCO2_air_uatm pres_hPa kw_cmhr : array F)
  (r : FluxResult F) :
  is_dataarray kw_cmhr = false ->
  is_dataarray pCO2_sea_uatm = false ->
  is_dataarray pCO2_air_uatm = false ->
  (forall s t p K0, solubility_weiss1974 s t p = Ok K0 ->
                    is_dataarray K0 = false) ->
  flux_bulk solubility_weiss1974 get_area_from_dataset temp_C salt
            pCO2_sea_uatm pCO2_air_uatm pres_hPa kw_cmhr = Ok r ->
  exists flux,
    r = Plain flux /\
    is_dataarray flux = false /\
    forall other_provider,
      flux_bulk solubility_weiss1974 other_provider temp_C salt
                pCO2_sea_uatm pCO2_air_uatm pres_hPa kw_cmhr
      = Ok (Plain flux).
Proof.
  intros Hk Hsea Hair HK H.
  apply flux_bulk_inv in H. destruct H as (flux & Hflux & Hasm).
  destruct (CO2flux_bulk_type _ _ _ _ _ _ _ Hflux)
    as (pres_atm & temp_K & K0 & _ & _ & E5 & T).
  rewrite Hk, Hsea, Hair, (HK _ _ _ _ E5) in T. simpl in T.
  rewrite (assemble_plain _ flux T) in Hasm. injection Hasm as <-.
  exists flux. split; [reflexivity |]. split; [exact T |].
  intros other. erewrite flux_bulk_assemble by eassumption.
  apply assemble_plain. exact T.
Qed.

(** X6.  Temperature, salinity and pressure reach the flux through the
    solubility alone: two calls with the same kw_cmhr, pCO2_sea_uatm and
    pCO2_air_uatm whose solubility calls answer alike compute the same
    flux array, whatever the other three inputs and the collaborators
    are. *)
Theorem only_through_solubility
  (other_solubility : array F -> array F -> array F -> result (array F))
  (temp_C salt pres_hPa temp_C' salt' pres_hPa' : array F)
  (pCO2_sea_uatm pCO2_air_uatm kw_cmhr flux flux' : array F) :
  CO2flux_bulk solubility_weiss1974 temp_C salt pCO2_sea_uatm pCO2_air_uatm
               pres_hPa kw_cmhr = Ok flux ->
  CO2flux_bulk other_solubility temp_C' salt' pCO2_sea_uatm pCO2_air_uatm
               pres_hPa' kw_cmhr = Ok flux' ->
  (forall pres_atm temp_K pres_atm' temp_K',
     div pres_hPa (scalar (lit 1013.25%Q)) = Ok pres_atm ->
     add temp_C (scalar (lit 273.15%Q)) = Ok temp_K ->
     div pres_hPa' (scalar (lit 1013.25%Q)) = Ok pres_atm' ->
     add temp_C' (scalar (lit 273.15%Q)) = Ok temp_K' ->
     solubility_weiss1974 salt temp_K pres_atm
     = other_solubility salt' temp_K' pres_atm') ->
  flux' = flux.
Proof.
  intros H H' Same.
  apply CO2flux_bulk_steps in H.
  destruct H as (pres_atm & temp_K & pCO2sea & pCO2air & K0 & kw & t1 & dp
                 & t2 & E1 & E2 & E3 & E4 & E5 & E6 & E7 & E8 & E9 & E10).
  apply CO2flux_bulk_steps in H'.
  destruct H' as (pres_atm' & temp_K' & pCO2sea' & pCO2air' & K0' & kw' & t1'
                  & dp' & t2' & E1' & E2' & E3' & E4' & E5' & E6' & E7' & E8'
                  & E9' & E10').
  specialize (Same _ _ _ _ E1 E2 E1' E2').
  assert (K0' = K0) by congruence. subst K0'.
  assert (pCO2sea' = pCO2sea) by congruence. subst pCO2sea'.
  assert (pCO2air' = pCO2air) by congruence. subst pCO2air'.
  assert (kw' = kw) by congruence. subst kw'.
  assert (t1' = t1) by congruence. subst t1'.
  assert (dp' = dp) by congruence. subst dp'.
  assert (t2' = t2) by congruence. subst t2'.
  congruence.
Qed.


(** X8.  The dimensions of a composite.  [fgco2] has the dimensions of the
    flux, and [fgco2_global] has every dimension of the flux or of the
    area except 'lat' and 'lon': a time dimension is kept. *)
Theorem composite_dimensions
  (temp_C salt pCO2_sea_uatm pCO2_air_uatm pres_hPa kw_cmhr : array F)
  (ds : Dataset F) :
  flux_bulk solubility_weiss1974 get_area_from_dataset temp_C salt
            pCO2_sea_uatm pCO2_air_uatm pres_hPa kw_cmhr
  = Ok (Composite ds) ->
  exists flux fgco2 area fgco2_global,
    CO2flux_bulk solubility_weiss1974 temp_C salt pCO2_sea_uatm
                 pCO2_air_uatm pres_hPa kw_cmhr = Ok flux /\
    ds = [("fgco2", fgco2); ("area", area);
          ("fgco2_global", fgco2_global)]%string /\
    dims fgco2 = dims flux /\
    has_dim (dims fgco2) (Name "lat") || has_dim (dims area) (Name "lat")
      = true /\
    has_dim (dims fgco2) (Name "lon") || has_dim (dims area) (Name "lon")
      = true /\
    forall d,
      has_dim (dims fgco2_global) d =
      (has_dim (dims fgco2) d || has_dim (dims area) d)
      && negb (dim_eqb d (Name "lat") || dim_eqb d (Name "lon")).
Proof.
  intros H. apply flux_bulk_inv in H. destruct H as (flux & Hflux & Hasm).
  assert (Hf : is_dataarray flux = true).
  { destruct (is_dataarray flux) eqn:E; [reflexivity |].
    rewrite (assemble_plain _ flux E) in Hasm. discriminate. }
  destruct (assemble_composite _ flux Hf Hasm)
    as (area & p & p365 & s & HA & La & Hp & Hp' & Hsum & E).
  injection E as ->.
  destruct (sum_lat_lon _ Hsum) as (n & m & Hn & Hm & ->).
  exists flux. do 3 eexists.
  split; [exact Hflux |]. split; [reflexivity |].
  split; [reflexivity |].
  pose proof (fun d => @product_has_dim F NumF flux area p p365 d
                         Hf La Hp Hp') as PD.
  cbn [dims assign_attrs].
  split; [| split].
  - rewrite <- PD. unfold has_dim. rewrite Hn. reflexivity.
  - rewrite <- PD. unfold has_dim. rewrite Hm. reflexivity.
  - intros d. rewrite <- PD. unfold has_dim at 1, kept_dims.
    rewrite (size_in_filter
               (fun e => negb (existsb (dim_eqb e)
                                       (map Name ["lat"; "lon"]%string)))).
    simpl. rewrite orb_false_r. unfold has_dim.
    destruct (dim_eqb d (Name "lat") || dim_eqb d (Name "lon")); simpl.
    + rewrite andb_false_r. reflexivity.
    + rewrite andb_true_r. reflexivity.
Qed.

End Further.

Section FurtherExact.

Variable solubility_weiss1974 :
  array R -> array R -> array R -> result (array R).
Variable get_area_from_dataset : array R -> result (array R).

(** X9.  In exact arithmetic the unit conversions fold into one factor:
    each flux element is 0.002882592 * kw_cmhr * K0 *
    (pCO2_sea_uatm - pCO2_air_uatm), in gC/m2/day for cm/hr and uatm. *)
Theorem overall_conversion_factor
  (temp_C salt pCO2_sea_uatm pCO2_air_uatm pres_hPa kw_cmhr : array R)
  (r : FluxResult R) :
  flux_bulk solubility_weiss1974 get_area_from_dataset temp_C salt
            pCO2_sea_uatm pCO2_air_uatm pres_hPa kw_cmhr = Ok r ->
  exists pres_atm temp_K K0 flux,
    div pres_hPa (scalar (lit 1013.25%Q)) = Ok pres_atm /\
    add temp_C (scalar (lit 273.15%Q)) = Ok temp_K /\
    solubility_weiss1974 salt temp_K pres_atm = Ok K0 /\
    flux_field r = Some flux /\
    (unmixed [kw_cmhr; K0; pCO2_sea_uatm; pCO2_air_uatm] = true ->
     forall c,
       view flux c =
       (0.002882592 * view kw_cmhr c * view K0 c
        * (view pCO2_sea_uatm c - view pCO2_air_uatm c))%R).
Proof.
  intros H. apply flux_bulk_elements in H.
  destruct H
    as (pres_atm & temp_K & K0 & flux & E1 & E2 & E5 & Hfg & V).
  exists pres_atm, temp_K, K0, flux.
  split; [exact E1 |]. split; [exact E2 |]. split; [exact E5 |].
  split; [exact Hfg |].
  intros U c. rewrite (V U c), flux_elem_R. unfold flux_per_uatm. lra.
Qed.

(** X10.  Exchanging the two partial pressures changes the sign of every
    flux element and nothing else. *)
Theorem swapping_pCO2_negates
  (temp_C salt sea air pres_hPa kw_cmhr : array R)
  (r r' : FluxResult R) :
  flux_bulk solubility_weiss1974 get_area_from_dataset temp_C salt
            sea air pres_hPa kw_cmhr = Ok r ->
  flux_bulk solubility_weiss1974 get_area_from_dataset temp_C salt
            air sea pres_hPa kw_cmhr = Ok r' ->
  exists pres_atm temp_K K0 flux flux',
    div pres_hPa (scalar (lit 1013.25%Q)) = Ok pres_atm /\
    add temp_C (scalar (lit 273.15%Q)) = Ok temp_K /\
    solubility_weiss1974 salt temp_K pres_atm = Ok K0 /\
    flux_field r = Some flux /\
    flux_field r' = Some flux' /\
    (unmixed [kw_cmhr; K0; sea; air] = true ->
     forall c, view flux' c = (- view flux c)%R).
Proof.
  intros H H'.
  apply flux_bulk_elements in H. apply flux_bulk_elements in H'.
  destruct H
    as (pres_atm & temp_K & K0 & flux & E1 & E2 & E5 & Hf & V).
  destruct H'
    as (pres_atm' & temp_K' & K0' & flux' & E1' & E2' & E5' & Hf' & V').
  assert (pres_atm' = pres_atm) by congruence. subst pres_atm'.
  assert (temp_K' = temp_K) by congruence. subst temp_K'.
  assert (K0' = K0) by congruence. subst K0'.
  exists pres_atm, temp_K, K0, flux, flux'.
  split; [exact E1 |]. split; [exact E2 |]. split; [exact E5 |].
  split; [exact Hf |]. split; [exact Hf' |].
  intros U c.
  assert (U' : unmixed [kw_cmhr; K0; air; sea] = true).
  { unfold unmixed in *. simpl in *.
    rewrite !andb_true_r in *.
    rewrite (andb_comm (plain air)), (andb_comm (labelled air)).
    exact U. }
  rewrite (V U c), (V' U' c), !flux_elem_R. ring.
Qed.

End FurtherExact.

Lemma nansum_all_nan (l : list float) :
  (forall x, In x l -> PrimFloat.is_nan x = true) ->
  nansum l = 0%float.
Proof.
  intros H. unfold nansum.
  assert (G : forall acc : float,
             fold_left (fun a x => if isnan x then a else fadd a x) l acc
             = acc).
  { induction l as [| x l IH]; intros acc; simpl; [reflexivity |].
    rewrite (H x (or_introl eq_refl)). apply IH.
    intros y Hy. apply H. right. exact Hy. }
  rewrite G. reflexivity.
Qed.

Lemma In_cells {F : Type} (v : coord -> F) (d1 d2 : dim) (n m : nat)
  (c : coord) (x : F) :
  In x (map v (coords_over [(d1, n); (d2, m)] c)) ->
  exists i j, i < n /\ j < m /\ x = v (upd (upd c d1 i) d2 j).
Proof.
  intros H. apply in_map_iff in H. destruct H as (c' & <- & Hc).
  simpl in Hc. apply in_flat_map in Hc. destruct Hc as (i & Hi & Hc).
  apply in_flat_map in Hc. destruct Hc as (j & Hj & Hc).
  apply in_seq in Hi, Hj. destruct Hc as [<- | []].
  exists i, j. repeat split; lia.
Qed.

Section FurtherBinary64.

Variable solubility_weiss1974 :
  array float -> array float -> array float -> result (array float).
Variable get_area_from_dataset : array float -> result (array float).

(** X11.  The reduction leaves NaN cells out (the default [skipna] of a
    float sum).  In binary64, where the flux is NaN in every ('lat',
    'lon') cell, as over a fully masked time step, [fgco2_global] is 0 and
    not NaN. *)
Theorem all_nan_cells_sum_to_zero
  (temp_C salt pCO2_sea_uatm pCO2_air_uatm pres_hPa kw_cmhr : array float)
  (ds : Dataset float) :
  flux_bulk solubility_weiss1974 get_area_from_dataset temp_C salt
            pCO2_sea_uatm pCO2_air_uatm pres_hPa kw_cmhr
  = Ok (Composite ds) ->
  exists fgco2 area fgco2_global nlat nlon,
    ds = [("fgco2", fgco2); ("area", area);
          ("fgco2_global", fgco2_global)]%string /\
    (size_in (dims fgco2) (Name "lat") = Some nlat \/
     size_in (dims area) (Name "lat") = Some nlat) /\
    (size_in (dims fgco2) (Name "lon") = Some nlon \/
     size_in (dims area) (Name "lon") = Some nlon) /\
    forall c,
      (forall i j, i < nlat -> j < nlon ->
         PrimFloat.is_nan
           (view fgco2 (upd (upd c (Name "lat") i) (Name "lon") j)) = true) ->
      view fgco2_global c = 0%float.
Proof.
  intros H. apply flux_bulk_inv in H. destruct H as (flux & Hflux & Hasm).
  assert (Hf : is_dataarray flux = true).
  { destruct (is_dataarray flux) eqn:E; [reflexivity |].
    rewrite (assemble_plain _ flux E) in Hasm. discriminate. }
  destruct (assemble_composite _ flux Hf Hasm)
    as (area & p & p365 & s & HA & La & Hp & Hp' & Hsum & E).
  injection E as ->.
  destruct (sum_lat_lon _ Hsum) as (n & m & Hn & Hm & ->).
  assert (Lf : labelled flux = true)
    by (unfold labelled; rewrite Hf; reflexivity).
  unfold mul in Hp, Hp'.
  pose proof (binop_dims_unbound _ _ _
                (needs_binding_labelled area flux Lf)
                (needs_binding_labelled flux area La) Hp) as B.
  pose proof (@binop_view float _ flux area p
                (needs_binding_labelled area flux Lf)
                (needs_binding_labelled flux area La) Hp) as Vp.
  pose proof (@binop_scalar_view float _ _ _ _ Hp') as Vp'.
  assert (Dp : dims p365 = dims p).
  { rewrite binop_scalar_r in Hp'. injection Hp' as <-. reflexivity. }
  rewrite Dp in Hn, Hm.
  do 3 eexists. exists n, m.
  split; [reflexivity |].
  split; [exact (broadcast_dims_size _ _ _ _ _ B Hn) |].
  split; [exact (broadcast_dims_size _ _ _ _ _ B Hm) |].
  intros c Hnan. unfold view at 1. cbn [item dims assign_attrs].
  apply nansum_all_nan. intros x Hx.
  apply In_cells in Hx. destruct Hx as (i & j & Hi & Hj & ->).
  unfold view at 1. rewrite clamp_kept.
  fold (view p365 (upd (upd c (Name "lat") i) (Name "lon") j)).
  rewrite Vp', Vp.
  apply mul_nan_l, mul_nan_l.
  specialize (Hnan i j Hi Hj). rewrite view_assign_attrs in Hnan.
  exact Hnan.
Qed.

End FurtherBinary64.

Module StoreFresh.

Import Store StoreFacts.

Section Fresh.

Context {F : Type} `{NumF : Number F}.

Variable solubility_weiss1974 :
  array F -> array F -> array F -> result (array F).
Variable get_area_from_dataset : array F -> result (array F).

Lemma CO2flux_bulk_obj_fresh (s : store F)
  (temp_C salt pCO2_sea_uatm pCO2_air_uatm pres_hPa kw_cmhr : ref)
  (vtemp vsalt vsea vair vpres vkw : array F) :
  holds s temp_C vtemp -> holds s salt vsalt ->
  holds s pCO2_sea_uatm vsea -> holds s pCO2_air_uatm vair ->
  holds s pres_hPa vpres -> holds s kw_cmhr vkw ->
  sim s (fun l _ (_ : array F) => List.length s <= l)
      (CO2flux_bulk_obj solubility_weiss1974 temp_C salt pCO2_sea_uatm
                        pCO2_air_uatm pres_hPa kw_cmhr s)
      (CO2flux_bulk solubility_weiss1974 vtemp vsalt vsea vair vpres vkw).
Proof.
  unfold holds. intros Ht Hs Hsea Hair Hp Hk.
  apply sim_start. unfold CO2flux_bulk_obj, CO2flux_bulk. cbv zeta.
  apply sim_float. next.
  eapply sim_op2; [lookup | lookup |]. intros pres_atm. next.
  apply sim_float. next.
  eapply sim_op2; [lookup | lookup |]. intros temp_K. next.
  apply sim_float. next.
  eapply sim_op2; [lookup | lookup |]. intros pCO2sea. next.
  apply sim_float. next.
  eapply sim_op2; [lookup | lookup |]. intros pCO2air. next.
  eapply sim_call3; [lookup | lookup | lookup |]. intros K0. next.
  apply sim_float. next.
  eapply sim_op2; [lookup | lookup |]. intros kw. next.
  apply sim_float. next.
  eapply sim_op2; [lookup | lookup |]. intros t1. next.
  eapply sim_op2; [lookup | lookup |]. intros dp. next.
  eapply sim_op2; [lookup | lookup |]. intros t2. next.
  erewrite op2_run; [| lookup | lookup].
  destruct (mul t2 _) as [flux | e]; [| apply sim_err].
  split; [eexists; reflexivity |]. cbn [fst snd]. lia.
Qed.

Lemma assemble_obj_fresh (s : store F) (l : ref) (flux : array F) :
  holds s l flux ->
  sim s (fun l' _ (_ : FluxResult F) => l' = l \/ List.length s <= l')
      (assemble_obj get_area_from_dataset l s)
      (assemble get_area_from_dataset flux).
Proof.
  unfold holds. intros Hl.
  apply sim_start. unfold assemble_obj, assemble.
  eapply sim_isinstance; [lookup |]. next.
  destruct (is_dataarray flux).
  - eapply sim_call1; [lookup |]. intros area. next. cbv zeta.
    apply sim_Dataset. next.
    eapply sim_assign_attrs; [lookup |]. next.
    eapply sim_setitem; [reflexivity | lookup |]. intros ds1. next.
    eapply sim_setitem; [reflexivity | lookup |]. intros ds2. next.
    eapply sim_op2; [lookup | lookup |]. intros p. next.
    apply sim_float. next.
    eapply sim_op2; [lookup | lookup |]. intros p365. next.
    eapply sim_sum; [lookup |]. intros g. next.
    eapply sim_assign_attrs; [lookup |]. next.
    eapply sim_setitem; [reflexivity | lookup |]. intros ds3. next.
    apply sim_ret. right. lia.
  - apply sim_ret. left. reflexivity.
Qed.

(** X12.  What [flux_bulk] returns is an object of its own: the reference
    it returns was allocated during the call, so it is none of the six
    inputs, and changing the result later cannot change an input. *)
Theorem result_is_new_object (s : store F)
  (temp_C salt pCO2_sea_uatm pCO2_air_uatm pres_hPa kw_cmhr : ref)
  (vtemp vsalt vsea vair vpres vkw : array F) (l : ref) :
  holds s temp_C vtemp -> holds s salt vsalt ->
  holds s pCO2_sea_uatm vsea -> holds s pCO2_air_uatm vair ->
  holds s pres_hPa vpres -> holds s kw_cmhr vkw ->
  fst (flux_bulk_obj solubility_weiss1974 get_area_from_dataset temp_C salt
                     pCO2_sea_uatm pCO2_air_uatm pres_hPa kw_cmhr s)
  = Ok l ->
  List.length s <= l /\
  l <> temp_C /\ l <> salt /\ l <> pCO2_sea_uatm /\ l <> pCO2_air_uatm /\
  l <> pres_hPa /\ l <> kw_cmhr.
Proof.
  intros Ht Hs Hsea Hair Hp Hk Hl.
  assert (New : List.length s <= l).
  { pose proof (CO2flux_bulk_obj_run solubility_weiss1974
                  Ht Hs Hsea Hair Hp Hk) as [[t Hpre] Hm].
    pose proof (CO2flux_bulk_obj_fresh Ht Hs Hsea Hair Hp Hk) as [_ Hfr].
    unfold flux_bulk_obj in Hl. rewrite andthen_run in Hl.
    destruct (CO2flux_bulk_obj solubility_weiss1974 temp_C salt
                pCO2_sea_uatm pCO2_air_uatm pres_hPa kw_cmhr s)
      as [[lf | e] s1];
      destruct (CO2flux_bulk solubility_weiss1974 vtemp vsalt vsea vair
                  vpres vkw) as [flux | e'];
      cbn [fst snd] in *; try contradiction; try discriminate.
    pose proof (@assemble_obj_fresh s1 lf flux Hm) as [_ Hr].
    destruct (assemble_obj get_area_from_dataset lf s1) as [[l' | e] s2];
      destruct (assemble get_area_from_dataset flux) as [r | e'];
      cbn [fst snd] in *; try contradiction; try discriminate.
    injection Hl as <-. subst s1. rewrite length_app in Hr. lia. }
  split; [exact New |].
  assert (Old : forall i a, holds s i a -> l <> i).
  { intros i a Hi E. subst i.
    assert (l < List.length s) by (apply nth_error_Some; unfold holds in Hi;
                                   congruence).
    lia. }
  repeat split; eapply Old; eassumption.
Qed.

End Fresh.

End StoreFresh.

(* ================================================================== *)
(** * Worked cases for the further properties *)

(** A grid of partial pressures makes the flux a DataArray. *)
Lemma flux_type_rule_witness :
  exists flux,
    CO2flux_bulk (constant_solubility 0.035%float)
              (scalar 15%float) (scalar 35%float) (grid 400%float)
              (scalar 380%float) (scalar 1013.25%float) (scalar 10%float)
    = Ok flux /\
    is_dataarray flux = true.
Proof.
  eexists. split; [reflexivity |].
  destruct (@flux_type_rule float _ (constant_solubility 0.035%float)
              (scalar 15%float) (scalar 35%float) (grid 400%float)
              (scalar 380%float) (scalar 1013.25%float) (scalar 10%float)
              _ eq_refl)
    as (pa & tK & K0 & _ & _ & _ & T).
  apply T. right. right. left. reflexivity.
Defined.

(** Four scalars give a scalar flux. *)
Lemma flux_dims_rule_witness :
  exists flux,
    CO2flux_bulk (constant_solubility 0.035%float)
              (scalar 15%float) (scalar 35%float) (scalar 400%float)
              (scalar 380%float) (scalar 1013.25%float) (scalar 10%float)
    = Ok flux /\
    dims flux = [].
Proof.
  eexists. split; [reflexivity |].
  destruct (@flux_dims_rule float _ (constant_solubility 0.035%float)
              (scalar 15%float) (scalar 35%float) (scalar 400%float)
              (scalar 380%float) (scalar 1013.25%float) (scalar 10%float)
              _ eq_refl)
    as (pa & tK & K0 & _ & _ & E5 & D).
  injection E5 as <-.
  destruct (D eq_refl) as (_ & _ & Z).
  apply Z; reflexivity.
Defined.

(** A solubility that rejects its arguments. *)
Lemma solubility_error_propagates_witness :
  flux_bulk failing_solubility no_area
            (scalar 15%float) (scalar 35%float) (scalar 400%float)
            (scalar 380%float) (scalar 1013.25%float) (scalar 10%float)
  = Err (Raised "ValueError").
Proof.
  destruct (@solubility_error_propagates float _ failing_solubility no_area
              (scalar 15%float) (scalar 35%float) (scalar 400%float)
              (scalar 380%float) (scalar 1013.25%float) (scalar 10%float))
    as (pa & tK & _ & _ & P).
  apply P. reflexivity.
Defined.

(** A time series and a provider that finds no 'lat'. *)
Lemma area_error_propagates_witness :
  flux_bulk (constant_solubility 0.035%float) (lat_lon_area 1%float)
            (scalar 15%float) (scalar 35%float) (series 400%float)
            (scalar 380%float) (scalar 1013.25%float) (scalar 10%float)
  = Err (Raised "KeyError").
Proof.
  eapply (@area_error_propagates float _ (constant_solubility 0.035%float)
            (lat_lon_area 1%float)
            (scalar 15%float) (scalar 35%float) (series 400%float)
            (scalar 380%float) (scalar 1013.25%float) (scalar 10%float));
    reflexivity.
Defined.

(** A DataArray temperature with plain partial pressures: a bare flux. *)
Lemma plain_operands_bare_result_witness :
  exists flux,
    flux_bulk (constant_solubility 0.035%float) (lat_lon_area 1%float)
              (grid 15%float) (scalar 35%float) (scalar 400%float)
              (scalar 380%float) (scalar 1013.25%float) (scalar 10%float)
    = Ok (Plain flux) /\
    flux_bulk (constant_solubility 0.035%float) no_area
              (grid 15%float) (scalar 35%float) (scalar 400%float)
              (scalar 380%float) (scalar 1013.25%float) (scalar 10%float)
    = Ok (Plain flux).
Proof.
  eexists. split; [reflexivity |].
  assert (K : forall s t p K0 : array float,
             constant_solubility 0.035%float s t p = Ok K0 ->
             is_dataarray K0 = false).
  { intros s t p K0 HK. injection HK as <-. reflexivity. }
  destruct (@plain_operands_bare_result float _
              (constant_solubility 0.035%float) (lat_lon_area 1%float)
              (grid 15%float) (scalar 35%float) (scalar 400%float)
              (scalar 380%float) (scalar 1013.25%float) (scalar 10%float)
              _ eq_refl eq_refl eq_refl K eq_refl)
    as (flux & E & _ & P).
  injection E as <-. apply P.
Defined.

(** Two temperatures under a solubility that is the same everywhere. *)
Lemma only_through_solubility_witness :
  exists flux flux',
    CO2flux_bulk (constant_solubility 0.035%float)
              (scalar 15%float) (scalar 35%float) (scalar 400%float)
              (scalar 380%float) (scalar 1013.25%float) (scalar 10%float)
    = Ok flux /\
    CO2flux_bulk (constant_solubility 0.035%float)
              (scalar 25%float) (scalar 30%float) (scalar 400%float)
              (scalar 380%float) (scalar 1000%float) (scalar 10%float)
    = Ok flux' /\
    flux' = flux.
Proof.
  do 2 eexists. split; [reflexivity |]. split; [reflexivity |].
  eapply (@only_through_solubility float _
            (constant_solubility 0.035%float)
            (constant_solubility 0.035%float)
            (scalar 15%float) (scalar 35%float) (scalar 1013.25%float)
            (scalar 25%float) (scalar 30%float) (scalar 1000%float)
            (scalar 400%float) (scalar 380%float) (scalar 10%float));
    try reflexivity.
Defined.


(** A grid over (time, lat, lon): the global flux keeps the time. *)
Lemma composite_dimensions_witness :
  exists ds g,
    flux_bulk (constant_solubility 0.035%float) (lat_lon_area 1%float)
              (scalar 15%float) (scalar 35%float) (grid 400%float)
              (scalar 380%float) (scalar 1013.25%float) (scalar 10%float)
    = Ok (Composite ds) /\
    dict_get "fgco2_global" ds = Some g /\
    has_dim (dims g) (Name "time") = true /\
    has_dim (dims g) (Name "lat") = false.
Proof.
  eexists.
  destruct (@composite_dimensions float _ (constant_solubility 0.035%float)
              (lat_lon_area 1%float)
              (scalar 15%float) (scalar 35%float) (grid 400%float)
              (scalar 380%float) (scalar 1013.25%float) (scalar 10%float)
              _ eq_refl)
    as (flux & fgco2 & area & g & _ & E & _ & _ & _ & D).
  exists g. split; [reflexivity |].
  injection E as <- <- <-.
  split; [reflexivity |]. split; rewrite D; reflexivity.
Defined.

(** The scenario of the specification in exact arithmetic. *)
Lemma overall_conversion_factor_witness :
  exists flux,
    flux_bulk (constant_solubility 0.035%R) no_area
              (scalar 15%R) (scalar 35%R) (scalar 400%R)
              (scalar 380%R) (scalar 1013.25%R) (scalar 10%R)
    = Ok (Plain flux) /\
    view flux origin = (0.002882592 * 10 * 0.035 * (400 - 380))%R.
Proof.
  eexists. split; [reflexivity |].
  destruct (@overall_conversion_factor (constant_solubility 0.035%R) no_area
              (scalar 15%R) (scalar 35%R) (scalar 400%R)
              (scalar 380%R) (scalar 1013.25%R) (scalar 10%R)
              _ eq_refl)
    as (pa & tK & K0 & flux & _ & _ & E5 & Hf & V).
  injection Hf as <-. injection E5 as <-.
  exact (V eq_refl origin).
Defined.

(** 400 against 380, and 380 against 400. *)
Lemma swapping_pCO2_negates_witness :
  exists flux flux',
    flux_bulk (constant_solubility 0.035%R) no_area
              (scalar 15%R) (scalar 35%R) (scalar 400%R)
              (scalar 380%R) (scalar 1013.25%R) (scalar 10%R)
    = Ok (Plain flux) /\
    flux_bulk (constant_solubility 0.035%R) no_area
              (scalar 15%R) (scalar 35%R) (scalar 380%R)
              (scalar 400%R) (scalar 1013.25%R) (scalar 10%R)
    = Ok (Plain flux') /\
    view flux' origin = (- view flux origin)%R.
Proof.
  do 2 eexists. split; [reflexivity |]. split; [reflexivity |].
  destruct (@swapping_pCO2_negates (constant_solubility 0.035%R) no_area
              (scalar 15%R) (scalar 35%R) (scalar 400%R)
              (scalar 380%R) (scalar 1013.25%R) (scalar 10%R)
              _ _ eq_refl eq_refl)
    as (pa & tK & K0 & f & f' & _ & _ & E5 & Hf & Hf' & V).
  injection Hf as <-. injection Hf' as <-. injection E5 as <-.
  exact (V eq_refl origin).
Defined.

(** A grid whose partial pressure is NaN everywhere. *)
Lemma all_nan_cells_sum_to_zero_witness :
  exists ds g,
    flux_bulk (constant_solubility 0.035%float) (lat_lon_area 1%float)
              (scalar 15%float) (scalar 35%float) (grid nan)
              (scalar 380%float) (scalar 1013.25%float) (scalar 10%float)
    = Ok (Composite ds) /\
    dict_get "fgco2_global" ds = Some g /\
    view g origin = 0%float.
Proof.
  eexists.
  destruct (@all_nan_cells_sum_to_zero (constant_solubility 0.035%float)
              (lat_lon_area 1%float)
              (scalar 15%float) (scalar 35%float) (grid nan)
              (scalar 380%float) (scalar 1013.25%float) (scalar 10%float)
              _ eq_refl)
    as (fgco2 & area & g & nlat & nlon & E & _ & _ & Z).
  exists g. split; [reflexivity |].
  injection E as <- <- <-.
  split; [reflexivity |].
  apply Z. intros i j _ _. reflexivity.
Defined.

(** The composite of a grid call is the eighteenth object allocated. *)
Lemma result_is_new_object_witness :
  exists l,
    fst (Store.flux_bulk_obj (constant_solubility 0.035%float)
                             (lat_lon_area 1%float) 0 1 2 3 4 5 six_inputs)
    = Ok l /\
    6 <= l /\ l <> 2.
Proof.
  eexists. split; [reflexivity |].
  destruct (@StoreFresh.result_is_new_object float _
              (constant_solubility 0.035%float) (lat_lon_area 1%float)
              six_inputs 0 1 2 3 4 5
              (scalar 15%float) (scalar 35%float) (grid 400%float)
              (scalar 380%float) (scalar 1013.25%float) (scalar 10%float)
              _ eq_refl eq_refl eq_refl eq_refl eq_refl eq_refl eq_refl)
    as (New & _ & _ & N2 & _).
  split; [exact New | exact N2].
Defined.
